(** * Session data cache and paginated list coordinator

    A shallow embedding of the client-side cache (DataContext: [DataProvider],
    [loadAllData], [isStale], [invalidateCache]) and of the paginated list
    views ([Templates], [Clients]) of the immigration case manager frontend,
    with the properties of the specification stated against it.

    Conventions of the embedding
    - React state is a record; every [setX] of the source is a function
      [setX] on that record, applied in the order the source calls it.
    - An [await]ed backend call is given by the value its promise settles
      to ([Settled]); the code after the [await] is a function of it.
    - [Date.now()] is an integer number of milliseconds ([Z]).
    - Strings are byte strings; [trim] strips the ASCII white space. *)

From Stdlib Require Import String Ascii List Bool Arith ZArith Lia.
From Stdlib Require Import DecimalString.
Import ListNotations.

Local Open Scope string_scope.
Local Open Scope list_scope.
Local Open Scope nat_scope.

(* ------------------------------------------------------------------ *)
(** ** JavaScript helpers *)

Module Js.

(** [Array.prototype.slice(start, end)] for non-negative indices: the
    elements at positions [start <= i < end], fewer when the array is
    shorter; empty when [end <= start]. *)
Definition slice {A : Type} (start stop : nat) (l : list A) : list A :=
  firstn (stop - start) (skipn start l).

(** The white space [String.prototype.trim] removes, on ASCII. *)
Definition is_space (c : ascii) : bool :=
  match nat_of_ascii c with
  | 9 | 10 | 11 | 12 | 13 | 32 => true
  | _ => false
  end.

Fixpoint trim_start (s : string) : string :=
  match s with
  | EmptyString => EmptyString
  | String c rest => if is_space c then trim_start rest else s
  end.

(** Removes trailing white space: a character is kept when it is not a
    space or when something is kept after it. *)
Fixpoint trim_end (s : string) : string :=
  match s with
  | EmptyString => EmptyString
  | String c rest =>
      match trim_end rest with
      | EmptyString => if is_space c then EmptyString else String c EmptyString
      | kept => String c kept
      end
  end.

Definition trim (s : string) : string := trim_end (trim_start s).

(** Truthiness of a string: only the empty string is falsy. *)
Definition truthy_string (s : string) : bool :=
  match s with EmptyString => false | _ => true end.

(** Truthiness of [number | null]: [null] and [0] are falsy. *)
Definition truthy_time (t : option Z) : bool :=
  match t with
  | None => false
  | Some v => negb (Z.eqb v 0)
  end.

(** Truthiness of a timer handle: [null] and [0] are falsy. *)
Definition truthy_handle (h : option nat) : bool :=
  match h with
  | None => false
  | Some 0 => false
  | Some _ => true
  end.

(** What an awaited promise settles to. *)
Inductive Settled (A : Type) : Type :=
| Fulfilled (value : A)
| Rejected (error : string).
Arguments Fulfilled {A} value.
Arguments Rejected {A} error.

(** Errors thrown by the handlers modelled here. *)
Inductive JsError : Type :=
| ReferenceError (identifier : string).

End Js.

(* ------------------------------------------------------------------ *)
(** ** Entities *)

(** Modelled from the spec: the type [CaseTemplate] of [../types], which
    is not among the sources. An entity is keyed by a unique identifier;
    [name] is the other field the template list reads ([template.id],
    [template.name]). *)
Record CaseTemplate : Type := mkTemplate {
  template_id : string;
  template_name : string
}.

(** Modelled from the spec: the type [Client] of [../types], keyed by a
    unique identifier, with the name fields the client list reads
    ([client.id], [client.first_name], [client.last_name]). *)
Record Client : Type := mkClient {
  client_id : string;
  first_name : string;
  last_name : string
}.

(** Modelled from the spec: the type [Reminder] of [../types], keyed by
    a unique identifier. *)
Record Reminder : Type := mkReminder {
  reminder_id : string
}.

(** The body of a collection response after [response.json()]: either a
    bare array, or an object whose collection field ([templates],
    [clients]), [total] and [hasMore] may each be absent. *)
Inductive Response (T : Type) : Type :=
| BareArray (data : list T)
| PageObject (items : option (list T)) (total : option nat)
             (hasMore : option bool).
Arguments BareArray {T} data.
Arguments PageObject {T} items total hasMore.

(** [x || fallback] on an optional number / boolean. *)
Definition or_zero (x : option nat) : nat :=
  match x with Some n => n | None => 0 end.
Definition or_false (x : option bool) : bool :=
  match x with Some b => b | None => false end.

(* ------------------------------------------------------------------ *)
(** ** utils/api.ts *)

Module Api.

(** The arguments a caller passes; JavaScript drops the ones a function
    does not declare. *)
Inductive Arg : Type :=
| ANum (n : nat)
| AStr (s : string)
| AUndefined.

Record Request : Type := mkRequest {
  req_method : string;
  req_url : string;
  req_query : list (string * string)
}.

(** [async getCaseTemplates()]: declares no parameter and fetches
    [`${API_URL}/case-templates`] with the default method. *)
Definition getCaseTemplates (API_URL : string) (args : list Arg) : Request :=
  mkRequest "GET" (API_URL ++ "/case-templates") [].

(** [async getClients()]: the same, on [`${API_URL}/clients`]. *)
Definition getClients (API_URL : string) (args : list Arg) : Request :=
  mkRequest "GET" (API_URL ++ "/clients") [].

Definition search_arg (searchTerm : option string) : Arg :=
  match searchTerm with Some s => AStr s | None => AUndefined end.

End Api.

(* ------------------------------------------------------------------ *)
(** ** context/DataContext: the session data cache *)

Module DataContext.

Import Js.

(** [const CACHE_DURATION = 5 * 60 * 1000] *)
Definition CACHE_DURATION : Z := 5 * 60 * 1000.

(** The [useState] cells of [DataProvider]. *)
Record State : Type := mkState {
  clients : list Client;
  templates : list CaseTemplate;
  reminders : list Reminder;
  loading : bool;
  lastFetchTime : option Z;
  isInitialized : bool
}.

(** The initial values given to [useState]. *)
Definition initial : State := mkState [] [] [] true None false.

Definition setClients (v : list Client) (s : State) : State :=
  mkState v (templates s) (reminders s) (loading s) (lastFetchTime s)
          (isInitialized s).
Definition setTemplates (v : list CaseTemplate) (s : State) : State :=
  mkState (clients s) v (reminders s) (loading s) (lastFetchTime s)
          (isInitialized s).
Definition setReminders (v : list Reminder) (s : State) : State :=
  mkState (clients s) (templates s) v (loading s) (lastFetchTime s)
          (isInitialized s).
Definition setLoading (v : bool) (s : State) : State :=
  mkState (clients s) (templates s) (reminders s) v (lastFetchTime s)
          (isInitialized s).
Definition setLastFetchTime (v : option Z) (s : State) : State :=
  mkState (clients s) (templates s) (reminders s) (loading s) v
          (isInitialized s).
Definition setIsInitialized (v : bool) (s : State) : State :=
  mkState (clients s) (templates s) (reminders s) (loading s)
          (lastFetchTime s) v.

(** [Array.isArray(d) ? d : (d.templates || [])] *)
Definition collection_of {T : Type} (d : Response T) : list T :=
  match d with
  | BareArray arr => arr
  | PageObject (Some arr) _ _ => arr
  | PageObject None _ _ => []
  end.

(** *** Async function bodies

    What an async body sees and leaves behind: the state cells, every
    state a render could observe (one entry per setter call, oldest
    first), and the console. *)
Record World : Type := mkWorld {
  cells : State;
  observed : list State;
  console : list string
}.

Definition M (A : Type) : Type := World -> Settled A * World.

Definition ret {A : Type} (a : A) : M A := fun w => (Fulfilled a, w).

Definition bind {A B : Type} (m : M A) (k : A -> M B) : M B :=
  fun w =>
    match m w with
    | (Fulfilled a, w') => k a w'
    | (Rejected e, w') => (Rejected e, w')
    end.

Notation "x <- m ;; k" := (bind m (fun x => k))
  (at level 61, m at next level, right associativity).
Notation "m ;; k" := (bind m (fun _ => k))
  (at level 61, right associativity).

(** A setter call: the new state becomes observable. *)
Definition set (f : State -> State) : M unit :=
  fun w =>
    let s := f (cells w) in
    (Fulfilled tt, mkWorld s (observed w ++ [s]) (console w)).

Definition log (line : string) : M unit :=
  fun w => (Fulfilled tt, mkWorld (cells w) (observed w) (console w ++ [line])).

(** [await p]: the value, or the rejection thrown into the body. *)
Definition await {A : Type} (p : Settled A) : M A := fun w => (p, w).

(** [try { body } catch (error) { handler } finally { fin }] *)
Definition try_catch_finally {A : Type}
    (body : M A) (handler : string -> M A) (fin : M unit) : M A :=
  fun w =>
    let '(r, w1) :=
      match body w with
      | (Fulfilled a, w') => (Fulfilled a, w')
      | (Rejected e, w') => handler e w'
      end in
    match fin w1 with
    | (Fulfilled _, w2) => (r, w2)
    | (Rejected e, w2) => (Rejected e, w2)
    end.

(** [try { body } catch (error) { handler }] *)
Definition try_catch {A : Type} (body : M A) (handler : string -> M A) : M A :=
  fun w =>
    match body w with
    | (Fulfilled a, w') => (Fulfilled a, w')
    | (Rejected e, w') => handler e w'
    end.

(** [Promise.all] of the three fetches: all three values, or a rejection
    (of the rejected ones, the first in array order is reported here). *)
Definition promise_all {A B C : Type}
    (a : Settled A) (b : Settled B) (c : Settled C) : Settled (A * B * C) :=
  match a, b, c with
  | Fulfilled x, Fulfilled y, Fulfilled z => Fulfilled (x, y, z)
  | Rejected e, _, _ => Rejected e
  | _, Rejected e, _ => Rejected e
  | _, _, Rejected e => Rejected e
  end.

(** [loadAllData]: [user] is [getCurrentUser()], the three [Settled] are
    what [api.getCaseTemplates()], [api.getClients()] and
    [api.getReminders()] settle to, [now] is [Date.now()]. *)
Definition loadAllData
    (user : option string)
    (templatesData : Settled (Response CaseTemplate))
    (clientsData : Settled (Response Client))
    (remindersData : Settled (list Reminder))
    (now : Z) : M unit :=
  try_catch_finally
    (match user with
     | None =>
         log "User not authenticated, skipping data load" ;;
         set (setLoading false) ;;
         ret tt
     | Some _ =>
         log "Loading all data from backend (one-time load)..." ;;
         set (setLoading true) ;;
         fetched <- await (promise_all templatesData clientsData remindersData) ;;
         let '(t, c, r) := fetched in
         let templates := collection_of t in
         let clients := collection_of c in
         set (setTemplates templates) ;;
         set (setClients clients) ;;
         set (setReminders r) ;;
         set (setLastFetchTime (Some now)) ;;
         log "Data loaded"
     end)
    (fun error => log ("Failed to load data: " ++ error))
    (set (setLoading false)).

(** [refreshTemplates], [refreshClients], [refreshReminders] *)
Definition refreshTemplates
    (data : Settled (Response CaseTemplate)) (now : Z) : M unit :=
  try_catch
    (d <- await data ;;
     let templates := collection_of d in
     set (setTemplates templates) ;;
     set (setLastFetchTime (Some now)) ;;
     log "Templates refreshed")
    (fun error => log ("Failed to refresh templates: " ++ error)).

Definition refreshClients
    (data : Settled (Response Client)) (now : Z) : M unit :=
  try_catch
    (d <- await data ;;
     let clients := collection_of d in
     set (setClients clients) ;;
     set (setLastFetchTime (Some now)) ;;
     log "Clients refreshed")
    (fun error => log ("Failed to refresh clients: " ++ error)).

Definition refreshReminders
    (data : Settled (list Reminder)) (now : Z) : M unit :=
  try_catch
    (d <- await data ;;
     set (setReminders d) ;;
     set (setLastFetchTime (Some now)) ;;
     log "Reminders refreshed")
    (fun error => log ("Failed to refresh reminders: " ++ error)).

(** [refreshAll]: [await loadAllData()] *)
Definition refreshAll := loadAllData.

(** [invalidateCache]: [setLastFetchTime(null)] *)
Definition invalidateCache (s : State) : State := setLastFetchTime None s.

(** [isStale(maxAge)]: [if (!lastFetchTime) return true;
    return Date.now() - lastFetchTime > maxAge] *)
Definition isStale (now : Z) (maxAge : Z) (s : State) : bool :=
  if negb (truthy_time (lastFetchTime s)) then true
  else
    match lastFetchTime s with
    | Some t => (maxAge <? now - t)%Z
    | None => true
    end.

(** [isStale()] with the default argument. *)
Definition isStale_default (now : Z) (s : State) : bool :=
  isStale now CACHE_DURATION s.

(** Running an async body on the current cells. *)
Definition start (s : State) : World := mkWorld s [] [].

Definition run {A : Type} (m : M A) (s : State) : Settled A * World :=
  m (start s).

(** The three collections and the Fetch Timestamp of a state. *)
Definition cache_of (s : State)
  : list Client * list CaseTemplate * list Reminder * option Z :=
  (clients s, templates s, reminders s, lastFetchTime s).

(** A fetch of [loadAllData] failed. *)
Definition some_fetch_failed {A B C : Type}
    (a : Settled A) (b : Settled B) (c : Settled C) : bool :=
  match promise_all a b c with
  | Fulfilled _ => false
  | Rejected _ => true
  end.

(** *** The provider as an event machine

    [loadAllData] in two halves, for the runs in which other events
    arrive while its fetches are pending: the part before the [await],
    and the part after it. *)
Record Provider : Type := mkProvider {
  data : State;
  checkInterval : bool;    (* the auto-refresh interval is registered *)
  inFlight : nat;          (* loadAllData calls waiting on Promise.all *)
  backgroundLoads : nat    (* loadAllData() calls made by the interval *)
}.

Definition mounted : Provider := mkProvider initial false 0 0.

Definition with_data (f : State -> State) (p : Provider) : Provider :=
  mkProvider (f (data p)) (checkInterval p) (inFlight p) (backgroundLoads p).

Definition loadAllData_begin (user : option string) (p : Provider) : Provider :=
  match user with
  | None => with_data (setLoading false) p
  | Some _ =>
      mkProvider (setLoading true (data p)) (checkInterval p)
                 (S (inFlight p)) (backgroundLoads p)
  end.

Definition loadAllData_settle
    (templatesData : Settled (Response CaseTemplate))
    (clientsData : Settled (Response Client))
    (remindersData : Settled (list Reminder))
    (now : Z) (s : State) : State :=
  match promise_all templatesData clientsData remindersData with
  | Fulfilled (t, c, r) =>
      setLoading false
        (setLastFetchTime (Some now)
           (setReminders r
              (setClients (collection_of c)
                 (setTemplates (collection_of t) s))))
  | Rejected _ => setLoading false s
  end.

Inductive Event : Type :=
| CheckUser (user : option string)
| Tick (now : Z) (user : option string)
| RefreshAll (user : option string)
| LoadAllSettles (templatesData : Settled (Response CaseTemplate))
                 (clientsData : Settled (Response Client))
                 (remindersData : Settled (list Reminder)) (now : Z)
| RefreshTemplates (d : Settled (Response CaseTemplate)) (now : Z)
| RefreshClients (d : Settled (Response Client)) (now : Z)
| RefreshReminders (d : Settled (list Reminder)) (now : Z)
| InvalidateCache.

(** The auto-refresh effect, run again whenever [isInitialized] or
    [lastFetchTime] changed: the previous interval is cleared, and a new
    one is set unless [!isInitialized || !lastFetchTime]. *)
Definition autoRefreshEffect (p : Provider) : Provider :=
  mkProvider (data p)
             (if negb (isInitialized (data p))
                 || negb (truthy_time (lastFetchTime (data p)))
              then false else true)
             (inFlight p) (backgroundLoads p).

(** The callback of the auto-refresh interval. *)
Definition checkStale (now : Z) (user : option string) (p : Provider) : Provider :=
  if isStale_default now (data p)
  then loadAllData_begin user
         (mkProvider (data p) (checkInterval p) (inFlight p)
                     (S (backgroundLoads p)))
  else p.

Definition handle (ev : Event) (p : Provider) : Provider :=
  match ev with
  | CheckUser user =>
      if isInitialized (data p) then p
      else
        match user with
        | Some _ => with_data (setIsInitialized true) (loadAllData_begin user p)
        | None => p
        end
  | Tick now user => if checkInterval p then checkStale now user p else p
  | RefreshAll user => loadAllData_begin user p
  | LoadAllSettles t c r now =>
      match inFlight p with
      | 0 => p
      | S n =>
          mkProvider (loadAllData_settle t c r now (data p))
                     (checkInterval p) n (backgroundLoads p)
      end
  | RefreshTemplates d now =>
      with_data (fun s => cells (snd (run (refreshTemplates d now) s))) p
  | RefreshClients d now =>
      with_data (fun s => cells (snd (run (refreshClients d now) s))) p
  | RefreshReminders d now =>
      with_data (fun s => cells (snd (run (refreshReminders d now) s))) p
  | InvalidateCache => with_data invalidateCache p
  end.

(** An event, then the render it causes. *)
Definition step (p : Provider) (ev : Event) : Provider :=
  autoRefreshEffect (handle ev p).

Definition steps (evs : list Event) (p : Provider) : Provider :=
  fold_left step evs p.

(** The event starts a [loadAllData] (explicitly or from the interval). *)
Definition is_trigger (ev : Event) : bool :=
  match ev with
  | Tick _ _ | RefreshAll _ => true
  | _ => false
  end.

(** The event records a Fetch Timestamp. *)
Definition is_successful_fetch (p : Provider) (ev : Event) : bool :=
  match ev with
  | LoadAllSettles t c r _ =>
      match inFlight p with
      | 0 => false
      | S _ => negb (some_fetch_failed t c r)
      end
  | RefreshTemplates (Fulfilled _) _ => true
  | RefreshClients (Fulfilled _) _ => true
  | RefreshReminders (Fulfilled _) _ => true
  | _ => false
  end.

(** Some event of the run recorded a Fetch Timestamp. *)
Fixpoint fetch_succeeded (evs : list Event) (p : Provider) : bool :=
  match evs with
  | [] => false
  | ev :: rest => is_successful_fetch p ev || fetch_succeeded rest (step p ev)
  end.

(** The event is a [loadAllData] that settles with all three fetches
    fulfilled. *)
Definition is_successful_load (p : Provider) (ev : Event) : bool :=
  match ev with
  | LoadAllSettles _ _ _ _ => is_successful_fetch p ev
  | _ => false
  end.

(** Some [loadAllData] of the run succeeded. *)
Fixpoint load_succeeded (evs : list Event) (p : Provider) : bool :=
  match evs with
  | [] => false
  | ev :: rest => is_successful_load p ev || load_succeeded rest (step p ev)
  end.

(** The interval is registered exactly when the effect's guard lets it. *)
Definition interval_consistent (p : Provider) : Prop :=
  checkInterval p
  = isInitialized (data p) && truthy_time (lastFetchTime (data p)).


End DataContext.

(* ------------------------------------------------------------------ *)
(** ** components/Templates: the paginated list of case templates *)

Module Templates.

Import Js.

(** [const LIMIT = 25] *)
Definition LIMIT : nat := 25.

(** The [useState] cells and the two refs of the component. *)
Record State : Type := mkState {
  templates : list CaseTemplate;
  loading : bool;
  loadingMore : bool;
  hasMore : bool;
  total : nat;
  offset : nat;
  searchQuery : string;
  hasInitialized : bool;           (* hasInitialized.current *)
  searchTimeoutRef : option nat    (* searchTimeoutRef.current *)
}.

(** The component as first rendered. *)
Definition mount : State := mkState [] true false false 0 0 "" false None.

Definition setTemplates (v : list CaseTemplate) (s : State) : State :=
  mkState v (loading s) (loadingMore s) (hasMore s) (total s) (offset s)
          (searchQuery s) (hasInitialized s) (searchTimeoutRef s).
Definition setLoading (v : bool) (s : State) : State :=
  mkState (templates s) v (loadingMore s) (hasMore s) (total s) (offset s)
          (searchQuery s) (hasInitialized s) (searchTimeoutRef s).
Definition setLoadingMore (v : bool) (s : State) : State :=
  mkState (templates s) (loading s) v (hasMore s) (total s) (offset s)
          (searchQuery s) (hasInitialized s) (searchTimeoutRef s).
Definition setHasMore (v : bool) (s : State) : State :=
  mkState (templates s) (loading s) (loadingMore s) v (total s) (offset s)
          (searchQuery s) (hasInitialized s) (searchTimeoutRef s).
Definition setTotal (v : nat) (s : State) : State :=
  mkState (templates s) (loading s) (loadingMore s) (hasMore s) v (offset s)
          (searchQuery s) (hasInitialized s) (searchTimeoutRef s).
Definition setOffset (v : nat) (s : State) : State :=
  mkState (templates s) (loading s) (loadingMore s) (hasMore s) (total s) v
          (searchQuery s) (hasInitialized s) (searchTimeoutRef s).
Definition setSearchQuery (v : string) (s : State) : State :=
  mkState (templates s) (loading s) (loadingMore s) (hasMore s) (total s)
          (offset s) v (hasInitialized s) (searchTimeoutRef s).
Definition setHasInitialized (v : bool) (s : State) : State :=
  mkState (templates s) (loading s) (loadingMore s) (hasMore s) (total s)
          (offset s) (searchQuery s) v (searchTimeoutRef s).
Definition setSearchTimeoutRef (v : option nat) (s : State) : State :=
  mkState (templates s) (loading s) (loadingMore s) (hasMore s) (total s)
          (offset s) (searchQuery s) (hasInitialized s) v.

(** [searchQuery.trim()] used as a condition. *)
Definition searching (s : State) : bool :=
  truthy_string (trim (searchQuery s)).

(** The arguments of [api.getCaseTemplates(LIMIT, currentOffset, searchTerm)]. *)
Record ApiCall : Type := mkCall {
  call_limit : nat;
  call_offset : nat;
  call_search : option string
}.

(** [loadTemplatesFromAPI(reset, searchTerm)], up to the [await]. *)
Definition loadTemplatesFromAPI_begin (reset : bool) (s : State) : State :=
  if reset then setOffset 0 (setLoading true s) else setLoadingMore true s.

(** [const currentOffset = reset ? 0 : offset] *)
Definition currentOffset (reset : bool) (s : State) : nat :=
  if reset then 0 else offset s.

Definition loadTemplatesFromAPI_call
    (reset : bool) (searchTerm : option string) (s : State) : ApiCall :=
  mkCall LIMIT (currentOffset reset s) searchTerm.

(** The HTTP request that call makes. *)
Definition loadTemplatesFromAPI_request
    (API_URL : string) (reset : bool) (searchTerm : option string)
    (s : State) : Api.Request :=
  let c := loadTemplatesFromAPI_call reset searchTerm s in
  Api.getCaseTemplates API_URL
    [Api.ANum (call_limit c); Api.ANum (call_offset c);
     Api.search_arg (call_search c)].

(** [loadTemplatesFromAPI], from the [await] on: [data] is what the call
    settled to, [cur] the [currentOffset] computed before it. *)
Definition loadTemplatesFromAPI_settle
    (reset : bool) (cur : nat) (data : Settled (Response CaseTemplate))
    (s : State) : State :=
  let s' :=
    match data with
    | Fulfilled (PageObject (Some page) tot more) =>
        let s1 := if reset then setTemplates page s
                  else setTemplates (templates s ++ page) s in
        setHasInitialized true
          (setOffset (cur + length page)
             (setTotal (or_zero tot) (setHasMore (or_false more) s1)))
    | Fulfilled (BareArray arr) =>
        setHasInitialized true
          (setOffset (length arr)
             (setTotal (length arr) (setHasMore false (setTemplates arr s))))
    | Fulfilled (PageObject None _ _) => setHasInitialized true s
    | Rejected _ => s
    end in
  setLoadingMore false (setLoading false s').

Definition loadTemplatesFromAPI
    (reset : bool) (searchTerm : option string)
    (data : Settled (Response CaseTemplate)) (s : State) : State :=
  loadTemplatesFromAPI_settle reset (currentOffset reset s) data
    (loadTemplatesFromAPI_begin reset s).

(** The first page taken from the cache: the four setter calls shared by
    both effects, the debounced callback and the clear buttons. *)
Definition firstPageFromCache
    (cachedTemplates : list CaseTemplate) (s : State) : State :=
  let initialTemplates := slice 0 LIMIT cachedTemplates in
  setOffset (length initialTemplates)
    (setHasMore (LIMIT <? length cachedTemplates)
       (setTotal (length cachedTemplates)
          (setTemplates initialTemplates s))).

(** The initial-load effect (runs once, on mount). [data] is what the
    one API call settles to when the cache is empty. *)
Definition initialLoadEffect
    (cachedTemplates : list CaseTemplate)
    (data : Settled (Response CaseTemplate)) (s : State) : State :=
  if hasInitialized s then s
  else if searching s then s
  else if 0 <? length cachedTemplates then
    setHasInitialized true
      (setLoading false (firstPageFromCache cachedTemplates s))
  else
    loadTemplatesFromAPI_settle true 0 data
      (setHasInitialized true (loadTemplatesFromAPI_begin true s)).

(** The cache-resync effect. *)
Definition cacheResyncEffect
    (cachedTemplates : list CaseTemplate) (s : State) : State :=
  if negb (hasInitialized s) then s
  else if searching s then s
  else if (0 <? length cachedTemplates)
          && negb (length cachedTemplates =? total s)
  then firstPageFromCache cachedTemplates s
  else s.

(** [handleLoadMore] *)
Definition handleLoadMore
    (cachedTemplates : list CaseTemplate)
    (data : Settled (Response CaseTemplate)) (s : State) : State :=
  if searching s then
    loadTemplatesFromAPI false (Some (trim (searchQuery s))) data s
  else
    let nextTemplates :=
      slice (offset s) (offset s + LIMIT) cachedTemplates in
    if 0 <? length nextTemplates then
      setHasMore (offset s + length nextTemplates <? length cachedTemplates)
        (setOffset (offset s + length nextTemplates)
           (setTemplates (templates s ++ nextTemplates) s))
    else s.

(** [handleLoadMore] called once per element of [datas]. *)
Definition loadMoreTimes
    (cachedTemplates : list CaseTemplate)
    (datas : list (Settled (Response CaseTemplate))) (s : State) : State :=
  fold_left (fun acc d => handleLoadMore cachedTemplates d acc) datas s.

(** *** The search box: debounce over the timer queue *)

(** A pending [setTimeout(..., 500)] callback of the search box; the
    closure captured [value]. *)
Record Timer : Type := mkTimer {
  timer_id : nat;
  timer_due : Z;
  timer_value : string
}.

Record Runtime : Type := mkRuntime {
  now : Z;                 (* Date.now() *)
  timers : list Timer;     (* pending callbacks, in the order they were set *)
  next_id : nat;           (* the handle the next setTimeout returns *)
  calls : list ApiCall;    (* api.getCaseTemplates calls made, oldest first *)
  fired : list string;     (* debounced callbacks run, by captured value *)
  view : State
}.

(** [clearTimeout(id)] *)
Definition clearTimeout (id : nat) (pending : list Timer) : list Timer :=
  filter (fun tm => negb (timer_id tm =? id)) pending.

Definition is_due (t : Z) (tm : Timer) : bool := (timer_due tm <=? t)%Z.

Section SearchBox.

Variable cachedTemplates : list CaseTemplate.
(** What the backend answers to each call. *)
Variable backend : ApiCall -> Settled (Response CaseTemplate).

(** The [onChange] handler of the search input. *)
Definition onChange (value : string) (rt : Runtime) : Runtime :=
  let s1 := setSearchQuery value (view rt) in
  let pending :=
    if truthy_handle (searchTimeoutRef s1) then
      match searchTimeoutRef s1 with
      | Some id => clearTimeout id (timers rt)
      | None => timers rt
      end
    else timers rt in
  let id := next_id rt in
  mkRuntime (now rt)
            (pending ++ [mkTimer id (now rt + 500)%Z value])
            (S id) (calls rt) (fired rt)
            (setSearchTimeoutRef (Some id) s1).

(** The callback given to [setTimeout] by [onChange]. *)
Definition debouncedCallback (value : string) (rt : Runtime) : Runtime :=
  if truthy_string (trim value) then
    let c := loadTemplatesFromAPI_call true (Some (trim value)) (view rt) in
    mkRuntime (now rt) (timers rt) (next_id rt)
              (calls rt ++ [c]) (fired rt ++ [value])
              (loadTemplatesFromAPI true (Some (trim value)) (backend c)
                 (view rt))
  else
    mkRuntime (now rt) (timers rt) (next_id rt)
              (calls rt) (fired rt ++ [value])
              (firstPageFromCache cachedTemplates (view rt)).

(** The clock moves to [t]: the callbacks that are due run, in the order
    they were set (all have the same delay, so that is the order they are
    due), and leave the queue. These are the callbacks alone; the render
    after each of them, in which the cache-resync effect may run again,
    is added in [TemplatesRender]. *)
Definition advance (t : Z) (rt : Runtime) : Runtime :=
  let t' := Z.max (now rt) t in
  fold_left (fun acc tm => debouncedCallback (timer_value tm) acc)
            (filter (is_due t') (timers rt))
            (mkRuntime t' (filter (fun tm => negb (is_due t' tm)) (timers rt))
                       (next_id rt) (calls rt) (fired rt) (view rt)).

Inductive Input : Type :=
| Typed (value : string)     (* an onChange event *)
| Wait (until : Z).          (* time passes *)

Definition input (rt : Runtime) (i : Input) : Runtime :=
  match i with
  | Typed value => onChange value rt
  | Wait t => advance t rt
  end.

Definition play (inputs : list Input) (rt : Runtime) : Runtime :=
  fold_left input inputs rt.

End SearchBox.

(** The state of the timer queue between events: handles are positive
    and grow, and if a debounce callback is pending it is the one whose
    handle the ref holds. *)
Definition well_formed (rt : Runtime) : Prop :=
  0 < next_id rt
  /\ (timers rt = []
      \/ exists tm, timers rt = [tm]
                    /\ searchTimeoutRef (view rt) = Some (timer_id tm)
                    /\ 0 < timer_id tm).

(** The component just mounted, at time [t]; the first timer handle a
    browser hands out is 1. *)
Definition boot (t : Z) : Runtime := mkRuntime t [] 1 [] [] mount.

(** *** Mutations *)

(** The dependencies [cachedTemplates.length, total, searchQuery] of the
    cache-resync effect; a mutation handler changes neither [total] nor
    [searchQuery], so after a cache refresh the effect runs again exactly
    when the length of the cached collection changed. *)
Definition rerender (oldCache newCache : list CaseTemplate) (s : State) : State :=
  if length oldCache =? length newCache then s
  else cacheResyncEffect newCache s.

(** What follows a committed mutation in [confirmDelete] and in the two
    [onSuccess] handlers: after [await refreshTemplates()] the handler
    sets [hasInitialized.current = false] and the component is rendered
    with the refreshed cache. [flagFirst] tells which of the two happens
    first. *)
Definition onMutationCommitted
    (flagFirst : bool) (oldCache newCache : list CaseTemplate)
    (s : State) : State :=
  if flagFirst then rerender oldCache newCache (setHasInitialized false s)
  else setHasInitialized false (rerender oldCache newCache s).

(** [confirmDelete]: [deleted] is what [api.deleteCaseTemplate] settles
    to, [refreshed] what the fetch of [refreshTemplates] settles to. *)
Definition confirmDelete
    (flagFirst : bool) (deleted : Settled unit)
    (refreshed : Settled (Response CaseTemplate)) (at_time : Z)
    (ctx : DataContext.State) (s : State) : DataContext.State * State :=
  match deleted with
  | Rejected _ => (ctx, s)
  | Fulfilled _ =>
      let ctx' :=
        DataContext.cells
          (snd (DataContext.run
                  (DataContext.refreshTemplates refreshed at_time) ctx)) in
      (ctx',
       onMutationCommitted flagFirst (DataContext.templates ctx)
         (DataContext.templates ctx') s)
  end.

(** *** The pagination window *)

(** What holds of the view between two calls, while no search is active:
    the visible list is the first [offset] items of the cache. *)
Record Window (cache : list CaseTemplate) (s : State) : Prop := mkWindow {
  win_visible : templates s = firstn (offset s) cache;
  win_bound : offset s <= length cache;
  win_more : hasMore s = (offset s <? length cache);
  win_total : total s = length cache;
  win_idle : searching s = false
}.

End Templates.

(* ------------------------------------------------------------------ *)
(** ** components/Clients: the paginated list of clients *)

Module Clients.

Import Js.

(** [const LIMIT = 25] *)
Definition LIMIT : nat := 25.

Record State : Type := mkState {
  clients : list Client;
  loading : bool;
  loadingMore : bool;
  hasMore : bool;
  total : nat;
  offset : nat;
  searchQuery : string
}.

Definition mount : State := mkState [] true false false 0 0 "".

Definition setClients (v : list Client) (s : State) : State :=
  mkState v (loading s) (loadingMore s) (hasMore s) (total s) (offset s)
          (searchQuery s).
Definition setLoading (v : bool) (s : State) : State :=
  mkState (clients s) v (loadingMore s) (hasMore s) (total s) (offset s)
          (searchQuery s).
Definition setLoadingMore (v : bool) (s : State) : State :=
  mkState (clients s) (loading s) v (hasMore s) (total s) (offset s)
          (searchQuery s).
Definition setHasMore (v : bool) (s : State) : State :=
  mkState (clients s) (loading s) (loadingMore s) v (total s) (offset s)
          (searchQuery s).
Definition setTotal (v : nat) (s : State) : State :=
  mkState (clients s) (loading s) (loadingMore s) (hasMore s) v (offset s)
          (searchQuery s).
Definition setOffset (v : nat) (s : State) : State :=
  mkState (clients s) (loading s) (loadingMore s) (hasMore s) (total s) v
          (searchQuery s).
Definition setSearchQuery (v : string) (s : State) : State :=
  mkState (clients s) (loading s) (loadingMore s) (hasMore s) (total s)
          (offset s) v.

(** [const searchTerm = searchQuery.trim() || undefined] *)
Definition searchTerm (s : State) : option string :=
  if truthy_string (trim (searchQuery s)) then Some (trim (searchQuery s))
  else None.

(** [loadClients(reset)]; [data] is what [api.getClients(LIMIT,
    currentOffset, searchTerm)] settles to. *)
Definition loadClients
    (reset : bool) (data : Settled (Response Client)) (s : State) : State :=
  let s0 := if reset then setOffset 0 (setLoading true s)
            else setLoadingMore true s in
  let currentOffset := if reset then 0 else offset s in
  let s' :=
    match data with
    | Fulfilled (PageObject (Some page) tot more) =>
        let s1 := if reset then setClients page s0
                  else setClients (clients s0 ++ page) s0 in
        setOffset (currentOffset + length page)
          (setTotal (or_zero tot) (setHasMore (or_false more) s1))
    | Fulfilled (BareArray arr) =>
        setOffset (length arr)
          (setTotal (length arr) (setHasMore false (setClients arr s0)))
    | Fulfilled (PageObject None _ _) => s0
    | Rejected _ => s0
    end in
  setLoadingMore false (setLoading false s').

(** *** Identifiers in scope

    The names a handler of the component can refer to: the module's
    imports, the declarations in the body of [Clients], in source order,
    and the globals the handlers use. *)
Definition imports : list string :=
  ["useState"; "useEffect"; "useRef"; "Plus"; "Users"; "Trash2"; "Search";
   "X"; "api"; "CreateClientModal"; "ClientDetailsModal"; "ConfirmDialog";
   "showToast"; "t"; "SkeletonClientCard"].

Definition declarations : list string :=
  ["clients"; "setClients"; "loading"; "setLoading"; "loadingMore";
   "setLoadingMore"; "hasMore"; "setHasMore"; "total"; "setTotal";
   "offset"; "setOffset"; "LIMIT"; "showCreateModal"; "setShowCreateModal";
   "selectedClient"; "setSelectedClient"; "deleteConfirm";
   "setDeleteConfirm"; "searchQuery"; "setSearchQuery"; "forceUpdate";
   "loadClients"; "handleLoadMore"; "handleDeleteClient"; "confirmDelete";
   "filteredClients"].

Definition globals : list string :=
  ["window"; "document"; "console"; "Date"; "Array"; "setTimeout";
   "clearTimeout"].

Definition scope : list string := imports ++ declarations ++ globals.

(** The declarations of [Templates] that [Clients] lacks. *)
Definition Templates_only : list string :=
  ["searchTimeoutRef"; "hasInitialized"].

(** *** Handlers that can throw *)

Record Runtime : Type := mkRuntime {
  now : Z;
  timers : list (nat * Z);   (* pending debounced reloads: handle, due *)
  next_id : nat;
  handle_cell : option nat;  (* what [searchTimeoutRef.current] holds
                                where that ref exists *)
  view : State
}.

Definition Exec (A : Type) : Type := Runtime -> (JsError + A) * Runtime.

Definition ret {A : Type} (a : A) : Exec A := fun rt => (inr a, rt).

Definition bind {A B : Type} (m : Exec A) (k : A -> Exec B) : Exec B :=
  fun rt =>
    match m rt with
    | (inr a, rt') => k a rt'
    | (inl e, rt') => (inl e, rt')
    end.

Notation "m ;; k" := (bind m (fun _ => k))
  (at level 61, right associativity).

(** Evaluating an identifier: a name that is not in scope throws. *)
Definition resolve (names : list string) (x : string) : Exec unit :=
  fun rt =>
    if existsb (String.eqb x) names then (inr tt, rt)
    else (inl (ReferenceError x), rt).

Definition update (f : Runtime -> Runtime) : Exec unit :=
  fun rt => (inr tt, f rt).

Definition with_view (f : State -> State) (rt : Runtime) : Runtime :=
  mkRuntime (now rt) (timers rt) (next_id rt) (handle_cell rt) (f (view rt)).

(** The [onChange] handler of the search input, evaluated with the
    names [names] in scope:
    [setSearchQuery(value);
     if (searchTimeoutRef.current) clearTimeout(searchTimeoutRef.current);
     searchTimeoutRef.current = setTimeout(() => loadClients(true), 500)] *)
Definition onChange_in (names : list string) (value : string) : Exec unit :=
  resolve names "setSearchQuery" ;;
  update (with_view (setSearchQuery value)) ;;
  resolve names "searchTimeoutRef" ;;
  update (fun rt =>
    if truthy_handle (handle_cell rt) then
      match handle_cell rt with
      | Some id =>
          mkRuntime (now rt)
            (filter (fun tm => negb (fst tm =? id)) (timers rt))
            (next_id rt) (handle_cell rt) (view rt)
      | None => rt
      end
    else rt) ;;
  resolve names "searchTimeoutRef" ;;
  resolve names "setTimeout" ;;
  update (fun rt =>
    mkRuntime (now rt) (timers rt ++ [(next_id rt, (now rt + 500)%Z)])
              (S (next_id rt)) (Some (next_id rt)) (view rt)).

Definition onChange (value : string) : Exec unit := onChange_in scope value.

(** The cleanup of the language-change effect, run on unmount:
    [if (searchTimeoutRef.current) clearTimeout(searchTimeoutRef.current)] *)
Definition cleanup_in (names : list string) : Exec unit :=
  resolve names "searchTimeoutRef" ;;
  update (fun rt =>
    if truthy_handle (handle_cell rt) then
      match handle_cell rt with
      | Some id =>
          mkRuntime (now rt)
            (filter (fun tm => negb (fst tm =? id)) (timers rt))
            (next_id rt) (handle_cell rt) (view rt)
      | None => rt
      end
    else rt).

Definition cleanup : Exec unit := cleanup_in scope.

(** Keystrokes one after the other; a handler that throws does not stop
    the next event from being handled. *)
Definition keystrokes (values : list string) (rt : Runtime) : Runtime :=
  fold_left (fun acc v => snd (onChange v acc)) values rt.

End Clients.

(* ------------------------------------------------------------------ *)
(** ** Concrete collections used in the scenarios *)

Module Fixtures.

(** A decidable check of distinctness, for concrete collections. *)
Fixpoint distinct (ids : list string) : bool :=
  match ids with
  | [] => true
  | x :: rest => negb (existsb (String.eqb x) rest) && distinct rest
  end.

(** Sixty templates with the identifiers "A", "B", ... *)
Definition sixty : list CaseTemplate :=
  map (fun i => mkTemplate (String (ascii_of_nat (65 + i)) EmptyString)
                           "template")
      (seq 0 60).

End Fixtures.

(* ------------------------------------------------------------------ *)
(** ** components/Templates: what the render shows, and the other
       handlers of the search box *)

Module TemplatesView.

Import Js Templates.

(** [{!searchQuery && hasMore && (... Load More ...)}] *)
Definition loadMoreShown (s : State) : bool :=
  negb (truthy_string (searchQuery s)) && hasMore s.

(** [({total - templates.length} remaining)] *)
Definition remaining (s : State) : Z :=
  (Z.of_nat (total s) - Z.of_nat (length (templates s)))%Z.

(** The response carries a collection: a bare array, or an object with
    its collection field. *)
Definition carries_page {T : Type} (d : Response T) : bool :=
  match d with
  | BareArray _ => true
  | PageObject (Some _) _ _ => true
  | PageObject None _ _ => false
  end.

(** The clear button of the search box:
    [setSearchQuery(''); ... setTemplates(initialTemplates); setTotal(...);
     setHasMore(...); setOffset(...)]. It leaves the timers alone. *)
Definition clearSearch
    (cachedTemplates : list CaseTemplate) (rt : Runtime) : Runtime :=
  mkRuntime (now rt) (timers rt) (next_id rt) (calls rt) (fired rt)
            (firstPageFromCache cachedTemplates
               (setSearchQuery "" (view rt))).

(** The cleanup run on unmount:
    [if (searchTimeoutRef.current) clearTimeout(searchTimeoutRef.current)] *)
Definition cleanup (rt : Runtime) : Runtime :=
  if truthy_handle (searchTimeoutRef (view rt)) then
    match searchTimeoutRef (view rt) with
    | Some id =>
        mkRuntime (now rt) (clearTimeout id (timers rt)) (next_id rt)
                  (calls rt) (fired rt) (view rt)
    | None => rt
    end
  else rt.

End TemplatesView.

(* ------------------------------------------------------------------ *)
(** ** components/Clients: the other handlers and the reload-on-focus
       effect *)

Module ClientsView.

Import Js Clients.

(** The arguments of [api.getClients(LIMIT, currentOffset, searchTerm)]
    in [loadClients(reset)], read from the state the closure of
    [loadClients] was created in. *)
Definition loadClients_call (reset : bool) (s : State) : Templates.ApiCall :=
  Templates.mkCall LIMIT (if reset then 0 else offset s) (searchTerm s).

(** [handleLoadMore]: [loadClients(false)] *)
Definition handleLoadMore
    (data : Settled (Response Client)) (s : State) : State :=
  loadClients false data s.

(** [{searchQuery && (<button> ... </button>)}]: the clear button. *)
Definition clearShown (s : State) : bool := truthy_string (searchQuery s).

(** [{!searchQuery && hasMore && (... Load More ...)}] *)
Definition loadMoreShown (s : State) : bool :=
  negb (truthy_string (searchQuery s)) && hasMore s.

(** The clear buttons: [setSearchQuery(''); loadClients(true)]. The
    [loadClients] called is the one of the render the button belongs
    to, so its [searchQuery] is the one on screen when the button is
    clicked. The result is the backend call made and the state once it
    has settled to [data]. *)
Definition clearSearch
    (data : Settled (Response Client)) (s : State)
  : Templates.ApiCall * State :=
  (loadClients_call true s, setSearchQuery "" (loadClients true data s)).

(** *** Reload when the page becomes visible or gets the focus *)

(** [const RELOAD_DEBOUNCE_MS = 2000] *)
Definition RELOAD_DEBOUNCE_MS : Z := 2000.

(** The variables of the effect ([reloadTimeout], [lastReloadTime]), the
    timers it has set that are still pending (handle, due time), and the
    times at which its callback called [loadClients()], newest first. *)
Record Reloader : Type := mkReloader {
  lastReloadTime : Z;
  reloadTimeout : option nat;
  pending : list (nat * Z);
  fresh : nat;
  reloads : list Z;
  listening : bool
}.

(** The effect has just run: [let reloadTimeout; let lastReloadTime = 0],
    and the two listeners are attached. *)
Definition attached : Reloader := mkReloader 0 None [] 1 [] true.

(** [clearTimeout(reloadTimeout)] *)
Definition dropTimeout (r : Reloader) : list (nat * Z) :=
  match reloadTimeout r with
  | Some id => filter (fun tm => negb (fst tm =? id)) (pending r)
  | None => pending r
  end.

(** [clearTimeout(reloadTimeout);
     reloadTimeout = setTimeout(() => { ... }, 500)] at time [t]. *)
Definition schedule (t : Z) (r : Reloader) : Reloader :=
  mkReloader (lastReloadTime r) (Some (fresh r))
             (dropTimeout r ++ [(fresh r, (t + 500)%Z)])
             (S (fresh r)) (reloads r) (listening r).

(** [handleFocus], with [Date.now() = t]. *)
Definition handleFocus (t : Z) (r : Reloader) : Reloader :=
  if (RELOAD_DEBOUNCE_MS <? t - lastReloadTime r)%Z then schedule t r else r.

(** [handleVisibilityChange]; [visible] is
    [document.visibilityState === 'visible']. *)
Definition handleVisibilityChange
    (visible : bool) (t : Z) (r : Reloader) : Reloader :=
  if visible then
    if (RELOAD_DEBOUNCE_MS <? t - lastReloadTime r)%Z then schedule t r else r
  else r.

(** The timer callback, run at time [t]:
    [loadClients(); lastReloadTime = Date.now()]. *)
Definition reloadCallback (t : Z) (r : Reloader) : Reloader :=
  mkReloader t (reloadTimeout r) (pending r) (fresh r) (t :: reloads r)
             (listening r).

(** The clock reaches [t]: the timers that are due leave the queue and
    their callbacks run, in the order they were set. *)
Definition elapse (t : Z) (r : Reloader) : Reloader :=
  fold_left (fun acc _ => reloadCallback t acc)
            (filter (fun tm => (snd tm <=? t)%Z) (pending r))
            (mkReloader (lastReloadTime r) (reloadTimeout r)
               (filter (fun tm => negb (snd tm <=? t)%Z) (pending r))
               (fresh r) (reloads r) (listening r)).

(** The cleanup of the effect: [clearTimeout(reloadTimeout)] and the
    two listeners removed. *)
Definition unmount (r : Reloader) : Reloader :=
  mkReloader (lastReloadTime r) (reloadTimeout r) (dropTimeout r)
             (fresh r) (reloads r) false.

Inductive Event : Type :=
| Focus (t : Z)
| VisibilityChange (visible : bool) (t : Z)
| Elapse (t : Z)
| Unmount.

Definition step (r : Reloader) (ev : Event) : Reloader :=
  match ev with
  | Focus t => if listening r then handleFocus t r else r
  | VisibilityChange visible t =>
      if listening r then handleVisibilityChange visible t r else r
  | Elapse t => elapse t r
  | Unmount => unmount r
  end.

Definition run (evs : list Event) (r : Reloader) : Reloader :=
  fold_left step evs r.

(** Reload times, newest first, each more than [gap] ms after the one
    before it, the oldest more than [gap] ms after time 0. *)
Fixpoint spaced (gap : Z) (times : list Z) : Prop :=
  match times with
  | [] => True
  | t :: earlier => (hd 0%Z earlier + gap < t)%Z /\ spaced gap earlier
  end.

(** What the effect keeps true between events: the last reload time is
    the newest recorded one, and at most one timer is pending, the one
    [reloadTimeout] holds, due more than 2500 ms after the last reload. *)
Definition settled (r : Reloader) : Prop :=
  lastReloadTime r = hd 0%Z (reloads r)
  /\ spaced 2500 (reloads r)
  /\ (pending r = []
      \/ exists id due,
           pending r = [(id, due)]
           /\ reloadTimeout r = Some id
           /\ (lastReloadTime r + 2500 < due)%Z).

End ClientsView.

(* ------------------------------------------------------------------ *)
(** ** context/DataContext: counting what a run of the provider does *)

Module ProviderRuns.

Import Js DataContext.

(** The event is a [checkUser()] of the initial-load effect that finds
    a user and calls [loadAllData()]. *)
Definition starts_login_load (p : Provider) (ev : Event) : bool :=
  match ev with
  | CheckUser (Some _) => negb (isInitialized (data p))
  | _ => false
  end.

(** The number of [loadAllData()] calls the initial-load effect makes
    in a run. *)
Fixpoint login_loads (evs : list Event) (p : Provider) : nat :=
  match evs with
  | [] => 0
  | ev :: rest =>
      (if starts_login_load p ev then 1 else 0) + login_loads rest (step p ev)
  end.

(** The event happens with nobody signed in ([getCurrentUser()] is
    null), and is not the settling of a fetch. *)
Definition signed_out (ev : Event) : bool :=
  match ev with
  | CheckUser None | Tick _ None | RefreshAll None | InvalidateCache => true
  | _ => false
  end.


End ProviderRuns.

(* ------------------------------------------------------------------ *)
(** ** utils/api.ts: the base URL, the auth headers and the requests *)

Module ApiClient.

Import Js.

(** [s.replace(/\/+$/, '')]: the slashes the string ends with are
    removed. A character is kept when it is not a slash or when
    something is kept after it. *)
Fixpoint strip_trailing_slashes (s : string) : string :=
  match s with
  | EmptyString => EmptyString
  | String c rest =>
      match strip_trailing_slashes rest with
      | EmptyString =>
          if Ascii.eqb c "/"%char then EmptyString else String c EmptyString
      | kept => String c kept
      end
  end.

(** [const API_URL = (import.meta.env.VITE_API_URL || '/api')
                       .replace(/\/+$/, '')];
    [env] is the environment variable, absent when it is not set. *)
Definition API_URL (env : option string) : string :=
  strip_trailing_slashes
    (match env with
     | Some v => if truthy_string v then v else "/api"
     | None => "/api"
     end).

(** The last character of the string is a slash. *)
Fixpoint ends_with_slash (s : string) : bool :=
  match s with
  | EmptyString => false
  | String c EmptyString => Ascii.eqb c "/"%char
  | String _ rest => ends_with_slash rest
  end.

(** A string of [n] slashes. *)
Fixpoint slashes (n : nat) : string :=
  match n with
  | 0 => EmptyString
  | S k => String "/"%char (slashes k)
  end.

Definition Headers : Type := list (string * string).

(** Truthiness of [string | null]. *)
Definition truthy_token (token : option string) : bool :=
  match token with
  | Some t => truthy_string t
  | None => false
  end.

(** [getAuthHeaders()]: [user] is [getCurrentUser()], [token] what
    [getIdToken()] settles to when it is called. The [try] block, then
    the [catch] that throws again with
    [error.message || 'Authentication required. Please log in.']. *)
Definition getAuthHeaders
    (user : option string) (token : Settled (option string))
  : Settled Headers :=
  let attempt : Settled Headers :=
    match user with
    | None => Rejected "User not authenticated. Please log in."
    | Some _ =>
        match token with
        | Rejected message => Rejected message
        | Fulfilled tok =>
            match tok with
            | Some t =>
                if truthy_string t then
                  Fulfilled [("Content-Type", "application/json");
                             ("Authorization", ("Bearer " ++ t)%string)]
                else
                  Rejected
                    "Failed to get authentication token. Please log in again."
            | None =>
                Rejected
                  "Failed to get authentication token. Please log in again."
            end
        end
    end in
  match attempt with
  | Fulfilled headers => Fulfilled headers
  | Rejected message =>
      Rejected (if truthy_string message then message
                else "Authentication required. Please log in.")
  end.

(** A request as it leaves [fetch]. *)
Record Sent : Type := mkSent {
  sent_request : Api.Request;
  sent_headers : Headers
}.

(** What [response.json()] gives: the collection shape, and the [error]
    and [message] fields an error object carries (an array has none). *)
Record Json (T : Type) : Type := mkJson {
  shape : Response T;
  error_field : option string;
  message_field : option string
}.
Arguments mkJson {T} shape error_field message_field.
Arguments shape {T} j.
Arguments error_field {T} j.
Arguments message_field {T} j.

(** The response [fetch] resolves to; [json] is what [response.json()]
    settles to. *)
Record HttpResponse (T : Type) : Type := mkHttp {
  ok : bool;
  status : nat;
  statusText : string;
  json : Settled (Json T)
}.
Arguments mkHttp {T} ok status statusText json.
Arguments ok {T} h.
Arguments status {T} h.
Arguments statusText {T} h.
Arguments json {T} h.

(** [x.error], [x.message] on a parsed body. *)
Definition field_of {T : Type} (read : Json T -> option string) (j : Json T)
  : option string :=
  match shape j with
  | BareArray _ => None
  | PageObject _ _ _ => read j
  end.

(** [a || b] on optional strings: the first that is present and not
    empty. *)
Definition or_string (a : option string) (b : string) : string :=
  match a with
  | Some v => if truthy_string v then v else b
  | None => b
  end.

(** [`${response.status}`] *)
Definition show_status (n : nat) : string :=
  NilEmpty.string_of_uint (Nat.to_uint n).

(** [api.getCaseTemplates()], with the requests it sends. [network] is
    what [fetch] settles to for a request. *)
Definition getCaseTemplates
    (env : option string) (user : option string)
    (token : Settled (option string))
    (network : Sent -> Settled (HttpResponse CaseTemplate))
  : list Sent * Settled (Response CaseTemplate) :=
  match getAuthHeaders user token with
  | Rejected message => ([], Rejected message)
  | Fulfilled headers =>
      let request := mkSent (Api.getCaseTemplates (API_URL env) []) headers in
      match network request with
      | Rejected message => ([request], Rejected message)
      | Fulfilled response =>
          if ok response then
            ([request],
             match json response with
             | Fulfilled j => Fulfilled (shape j)
             | Rejected message => Rejected message
             end)
          else
            let error :=
              match json response with
              | Fulfilled j => j
              | Rejected _ =>
                  mkJson (PageObject None None None)
                         (Some "Failed to fetch templates") None
              end in
            ([request],
             Rejected
               (or_string (field_of error_field error)
                  (or_string (field_of message_field error)
                     ("Failed to fetch templates: "
                      ++ show_status (status response) ++ " "
                      ++ statusText response))))
      end
  end.

(** [api.uploadDocument(clientId, documentCode, file, userName)]: the
    token is read without [getAuthHeaders], and the [Authorization]
    header is set only [if (token)]. *)
Definition uploadDocument
    (env : option string) (clientId documentCode : string)
    (token : Settled (option string))
    (network : Sent -> Settled (HttpResponse Client))
  : list Sent * Settled (Response Client) :=
  match token with
  | Rejected message => ([], Rejected message)
  | Fulfilled tok =>
      let headers : Headers :=
        match tok with
        | Some t =>
            if truthy_string t then [("Authorization", ("Bearer " ++ t)%string)]
            else []
        | None => []
        end in
      let request :=
        mkSent
          (Api.mkRequest "POST"
             (API_URL env ++ "/clients/" ++ clientId ++ "/documents/"
              ++ documentCode) [])
          headers in
      match network request with
      | Rejected message => ([request], Rejected message)
      | Fulfilled response =>
          if ok response then
            ([request],
             match json response with
             | Fulfilled j => Fulfilled (shape j)
             | Rejected message => Rejected message
             end)
          else
            let error :=
              match json response with
              | Fulfilled j => j
              | Rejected _ =>
                  mkJson (PageObject None None None)
                         (Some "Failed to upload document") None
              end in
            ([request],
             Rejected
               (or_string (field_of error_field error)
                  "Failed to upload document"))
      end
  end.

(** The header list carries an [Authorization] header. *)
Definition authorized (headers : Headers) : bool :=
  existsb (fun h => String.eqb (fst h) "Authorization") headers.

End ApiClient.

(* ------------------------------------------------------------------ *)
(** ** components/Templates: a mounted list over time *)

Module TemplatesSession.

Import Js Templates TemplatesView.

(** The values of [total] and [searchQuery], two of the three
    dependencies of the cache-resync effect, are the same in both
    states. *)
Definition same_deps (before after : State) : bool :=
  (total before =? total after)
  && String.eqb (searchQuery before) (searchQuery after).

(** The render after a handler: the cache-resync effect runs again if
    one of its dependencies changed. *)
Definition resync_after
    (cachedTemplates : list CaseTemplate) (before after : State) : State :=
  if same_deps before after then after
  else cacheResyncEffect cachedTemplates after.

(** What happens to a mounted list, one event at a time. A handler is
    given the cached collection of the render it belongs to; a button
    that is not rendered cannot be clicked. *)
Inductive Op : Type :=
| LoadMoreClicked (cachedTemplates : list CaseTemplate)
                  (data : Settled (Response CaseTemplate))
| ClearClicked (cachedTemplates : list CaseTemplate)
| KeyPressed (cachedTemplates : list CaseTemplate) (value : string)
| DebounceFired (cachedTemplates : list CaseTemplate) (value : string)
                (data : Settled (Response CaseTemplate))
| CacheRefreshed (oldCache newCache : list CaseTemplate)
| MutationCommitted (flagFirst : bool)
                    (oldCache newCache : list CaseTemplate).

Definition apply (s : State) (op : Op) : State :=
  match op with
  | LoadMoreClicked cachedTemplates data =>
      if loadMoreShown s
      then resync_after cachedTemplates s (handleLoadMore cachedTemplates data s)
      else s
  | ClearClicked cachedTemplates =>
      if truthy_string (searchQuery s)
      then resync_after cachedTemplates s
             (firstPageFromCache cachedTemplates (setSearchQuery "" s))
      else s
  | KeyPressed cachedTemplates value =>
      resync_after cachedTemplates s (setSearchQuery value s)
  | DebounceFired cachedTemplates value data =>
      resync_after cachedTemplates s
        (if truthy_string (trim value)
         then loadTemplatesFromAPI true (Some (trim value)) data s
         else firstPageFromCache cachedTemplates s)
  | CacheRefreshed oldCache newCache => rerender oldCache newCache s
  | MutationCommitted flagFirst oldCache newCache =>
      onMutationCommitted flagFirst oldCache newCache s
  end.

Definition session (ops : list Op) (s : State) : State :=
  fold_left apply ops s.

(** The event is a backend search that is answered. *)
Definition answered_search (op : Op) : bool :=
  match op with
  | DebounceFired _ value (Fulfilled _) => truthy_string (trim value)
  | _ => false
  end.

End TemplatesSession.

(* ------------------------------------------------------------------ *)
(** ** components/Templates: the search box and its renders *)

(** [Templates.onChange], [Templates.debouncedCallback] and the clear
    button are the handlers alone. React renders the component once a
    handler has set state, and in that render the cache-resync effect
    runs again when one of its dependencies [cachedTemplates.length],
    [total], [searchQuery] differs from the previous render. Here
    [cachedTemplates] is fixed, and every handler is followed by its
    render. *)
Module TemplatesRender.

Import Js Templates TemplatesView.

Section SearchBox.

Variable cachedTemplates : list CaseTemplate.
Variable backend : ApiCall -> Settled (Response CaseTemplate).

(** The render after a handler that took the component from [before] to
    [after]. The render between the two halves of
    [loadTemplatesFromAPI] needs no step of its own: the first half sets
    [loading] and [offset] only, none of the effect's dependencies. *)
Definition render (before after : Runtime) : Runtime :=
  mkRuntime (now after) (timers after) (next_id after) (calls after)
            (fired after)
            (TemplatesSession.resync_after cachedTemplates
               (view before) (view after)).

(** A keystroke in the search input. *)
Definition keystroke (value : string) (rt : Runtime) : Runtime :=
  render rt (onChange value rt).

(** A debounce timer fires. *)
Definition timeout (value : string) (rt : Runtime) : Runtime :=
  render rt (debouncedCallback cachedTemplates backend value rt).

(** A click on the clear button; [{searchQuery && (<button ...>)}]: the
    button is there only while the box holds text. *)
Definition clearButton (rt : Runtime) : Runtime :=
  if truthy_string (searchQuery (view rt))
  then render rt (clearSearch cachedTemplates rt)
  else rt.

(** The clock moves to [t]: the callbacks that are due run, oldest
    first, each followed by its render. *)
Definition elapse (t : Z) (rt : Runtime) : Runtime :=
  let t' := Z.max (now rt) t in
  fold_left (fun acc tm => timeout (timer_value tm) acc)
            (filter (is_due t') (timers rt))
            (mkRuntime t' (filter (fun tm => negb (is_due t' tm)) (timers rt))
                       (next_id rt) (calls rt) (fired rt) (view rt)).

Inductive Input : Type :=
| Keystroke (value : string)
| ClearButton
| Elapsed (until : Z).

Definition input (rt : Runtime) (i : Input) : Runtime :=
  match i with
  | Keystroke value => keystroke value rt
  | ClearButton => clearButton rt
  | Elapsed t => elapse t rt
  end.

Definition play (inputs : list Input) (rt : Runtime) : Runtime :=
  fold_left input inputs rt.

End SearchBox.

(** A keystroke or a wait of [Templates.play], as an input here. *)
Definition lift (i : Templates.Input) : Input :=
  match i with
  | Typed value => Keystroke value
  | Wait t => Elapsed t
  end.

(** Two runtimes differ at most in what the list shows: the clock, the
    timers, the calls made, the callbacks run, the query and the timer
    ref are the same. *)
Definition same_run (a b : Runtime) : Prop :=
  now a = now b
  /\ timers a = timers b
  /\ next_id a = next_id b
  /\ calls a = calls b
  /\ fired a = fired b
  /\ searchQuery (view a) = searchQuery (view b)
  /\ searchTimeoutRef (view a) = searchTimeoutRef (view b).

End TemplatesRender.

(* ------------------------------------------------------------------ *)
(** ** vite.config.ts: the assignment of modules to chunks *)

Module ViteConfig.

(** [hay.startsWith(needle)] *)
Fixpoint starts_with (needle hay : string) : bool :=
  match needle with
  | EmptyString => true
  | String a needle' =>
      match hay with
      | EmptyString => false
      | String b hay' => Ascii.eqb a b && starts_with needle' hay'
      end
  end.

(** [hay.includes(needle)] *)
Fixpoint includes (needle hay : string) : bool :=
  starts_with needle hay
  || match hay with
     | EmptyString => false
     | String _ rest => includes needle rest
     end.

(** [manualChunks: (id) => { ... }]; [None] is [undefined], the module
    is left to the bundler. *)
Definition manualChunks (id : string) : option string :=
  if includes "node_modules" id then
    if includes "react" id || includes "react-dom" id
       || includes "react-router" id
    then Some "react-vendor"
    else if includes "recharts" id then Some "react-vendor"
    else if includes "lucide-react" id then Some "react-vendor"
    else if includes "jszip" id then Some "react-vendor"
    else if includes "firebase" id then Some "firebase"
    else Some "react-vendor"
  else if includes "Dashboard.tsx" id then Some "dashboard"
  else if includes "ClientDetailsModal.tsx" id then Some "client-details"
  else if includes "CreateClientModal" id || includes "CreateTemplateModal" id
  then Some "modals"
  else if includes "utils/api.ts" id || includes "utils/firebase.ts" id
  then Some "utils"
  else if includes "components/" id then Some "components"
  else None.

End ViteConfig.

(* ------------------------------------------------------------------ *)
(** ** components/PixelSnow: the colour of the flakes *)

Module PixelSnow.

(** The value of a character matched by [[a-f\d]] under the [i] flag,
    as [parseInt(_, 16)] reads it. *)
Definition hex_digit (c : ascii) : option nat :=
  let n := nat_of_ascii c in
  if (48 <=? n) && (n <=? 57) then Some (n - 48)
  else if (97 <=? n) && (n <=? 102) then Some (n - 87)
  else if (65 <=? n) && (n <=? 70) then Some (n - 55)
  else None.

(** A group [([a-f\d]{2})] and [parseInt] of it. *)
Definition hex_pair (hi lo : ascii) : option nat :=
  match hex_digit hi, hex_digit lo with
  | Some h, Some l => Some (16 * h + l)
  | _, _ => None
  end.

(** [hexToRgb]: the pattern [/^#?([a-f\d]{2})([a-f\d]{2})([a-f\d]{2})$/i]
    and, where it does not match, the default gold. *)
Definition hexToRgb (hex : string) : nat * nat * nat :=
  let digits :=
    match hex with
    | String "#"%char rest => rest
    | _ => hex
    end in
  match list_ascii_of_string digits with
  | [r1; r2; g1; g2; b1; b2] =>
      match hex_pair r1 r2, hex_pair g1 g2, hex_pair b1 b2 with
      | Some r, Some g, Some b => (r, g, b)
      | _, _, _ => (255, 215, 0)
      end
  | _ => (255, 215, 0)
  end.

(** One hexadecimal digit, lower case. *)
Definition digit_char (n : nat) : ascii :=
  if n <? 10 then ascii_of_nat (48 + n) else ascii_of_nat (87 + n).

(** A channel written as two hexadecimal digits. *)
Definition two_digits (n : nat) : string :=
  String (digit_char (n / 16)) (String (digit_char (n mod 16)) EmptyString).

(** The colour written as [#rrggbb]; with [two_digits] and [digit_char]
    it is not part of the component, it states what [hexToRgb] reads
    back. *)
Definition to_hex (r g b : nat) : string :=
  String "#"%char (two_digits r ++ two_digits g ++ two_digits b).

(** The characters the class [[a-f\d]] matches under the [i] flag,
    written out; with [position] and [hex_value] below it is not part of
    the component, it states which inputs [hexToRgb] reads and what it
    reads from them. *)
Definition is_hex_char (c : ascii) : bool :=
  existsb (Ascii.eqb c) (list_ascii_of_string "0123456789abcdefABCDEF").

(** The position of a character in a string, if it occurs. *)
Fixpoint position (c : ascii) (s : string) : option nat :=
  match s with
  | EmptyString => None
  | String c' rest =>
      if Ascii.eqb c c' then Some 0
      else option_map S (position c rest)
  end.

(** The value of a hexadecimal digit of either case: its position among
    the sixteen digits. *)
Definition hex_value (c : ascii) : nat :=
  match position c "0123456789abcdef", position c "0123456789ABCDEF" with
  | Some n, _ => n
  | None, Some n => n
  | None, None => 0
  end.

End PixelSnow.

(* ------------------------------------------------------------------ *)
(** ** App.tsx: the toasts on screen *)

Module App.

(** Modelled from the spec: the type [Toast] of [./components/Toast],
    which is not among the sources. A toast carries a message and a
    severity; [handleCloseToast] reads its [id]. *)
Record Toast : Type := mkToast {
  toast_id : string;
  toast_message : string;
  toast_severity : string
}.

(** The subscriber: [setToasts((prev) => [...prev, toast])] *)
Definition addToast (toast : Toast) (toasts : list Toast) : list Toast :=
  toasts ++ [toast].

(** [handleCloseToast]:
    [setToasts((prev) => prev.filter((toast) => toast.id !== id))] *)
Definition handleCloseToast (id : string) (toasts : list Toast) : list Toast :=
  filter (fun toast => negb (String.eqb (toast_id toast) id)) toasts.

End App.

(* ------------------------------------------------------------------ *)
(** * Properties *)

(** ** Lists and slices *)

Lemma slice_from_zero {A : Type} (k : nat) (l : list A) :
  Js.slice 0 k l = firstn k l.
Proof. unfold Js.slice. now rewrite Nat.sub_0_r. Qed.

Lemma slice_window {A : Type} (a k : nat) (l : list A) :
  Js.slice a (a + k) l = firstn k (skipn a l).
Proof. unfold Js.slice. now replace (a + k - a) with k by lia. Qed.

Lemma firstn_min_length {A : Type} (k : nat) (l : list A) :
  firstn (Nat.min k (length l)) l = firstn k l.
Proof.
  destruct (Nat.le_ge_cases k (length l)) as [Hle | Hge].
  - now rewrite Nat.min_l.
  - rewrite Nat.min_r by assumption.
    now rewrite firstn_all, firstn_all2.
Qed.

Lemma firstn_plus {A : Type} (a b : nat) (l : list A) :
  firstn (a + b) l = firstn a l ++ firstn b (skipn a l).
Proof.
  revert l. induction a as [| a IH]; intros l; simpl.
  - reflexivity.
  - destruct l as [| x l]; simpl.
    + now rewrite firstn_nil.
    + now rewrite IH.
Qed.

Lemma NoDup_firstn {A : Type} (k : nat) (l : list A) :
  NoDup l -> NoDup (firstn k l).
Proof.
  intros H. rewrite <- (firstn_skipn k l) in H.
  now apply NoDup_app_remove_r in H.
Qed.

Lemma ltb_min_l (k n : nat) : (Nat.min k n <? n) = (k <? n).
Proof.
  destruct (Nat.ltb_spec k n) as [H | H].
  - apply Nat.ltb_lt. lia.
  - apply Nat.ltb_ge. lia.
Qed.

(** ** Cache-driven pagination of the template list *)

Module PageFacts.

Import Js Templates.

Lemma first_page_from_cache
    (cache : list CaseTemplate) (data : Settled (Response CaseTemplate)) :
  cache <> [] ->
  initialLoadEffect cache data mount
  = mkState (firstn LIMIT cache) false false (LIMIT <? length cache)
            (length cache) (length (firstn LIMIT cache)) "" true None.
Proof.
  intros Hne. destruct cache as [| c cache]; [congruence |].
  unfold initialLoadEffect, firstPageFromCache.
  rewrite slice_from_zero. reflexivity.
Qed.

Lemma first_page_window
    (cache : list CaseTemplate) (data : Settled (Response CaseTemplate)) :
  cache <> [] -> Window cache (initialLoadEffect cache data mount).
Proof.
  intros Hne. rewrite first_page_from_cache by assumption.
  constructor; cbn [templates offset hasMore total].
  - rewrite length_firstn. now rewrite firstn_min_length.
  - rewrite length_firstn. lia.
  - rewrite length_firstn. now rewrite ltb_min_l.
  - reflexivity.
  - reflexivity.
Qed.

(** One [handleLoadMore] on a window. *)
Lemma load_more_window
    (cache : list CaseTemplate) (d : Settled (Response CaseTemplate))
    (s : State) :
  Window cache s ->
  let k := Nat.min LIMIT (length cache - offset s) in
  let s' := handleLoadMore cache d s in
  Window cache s'
  /\ templates s' = templates s ++ firstn k (skipn (offset s) cache)
  /\ offset s' = offset s + k
  /\ (offset s = length cache -> s' = s).
Proof.
  intros [Hvis Hbound Hmore Htotal Hidle]. cbv zeta.
  unfold handleLoadMore. rewrite Hidle. rewrite slice_window.
  assert (Hlen : length (firstn LIMIT (skipn (offset s) cache))
                 = Nat.min LIMIT (length cache - offset s)).
  { now rewrite length_firstn, length_skipn. }
  assert (Hnext : firstn (Nat.min LIMIT (length cache - offset s))
                         (skipn (offset s) cache)
                  = firstn LIMIT (skipn (offset s) cache)).
  { rewrite <- (length_skipn (offset s) cache). apply firstn_min_length. }
  rewrite Hlen, Hnext.
  destruct (Nat.ltb_spec 0 (Nat.min LIMIT (length cache - offset s)))
    as [Hpos | Hzero].
  - repeat split;
      cbn [templates offset hasMore total setHasMore setOffset setTemplates];
      try reflexivity.
    + rewrite Hvis at 1. rewrite <- Hnext. symmetry. apply firstn_plus.
    + lia.
    + assumption.
    + assumption.
    + intros Heq. unfold LIMIT in Hpos. lia.
  - assert (Hk : Nat.min LIMIT (length cache - offset s) = 0) by lia.
    assert (Hnil : firstn LIMIT (skipn (offset s) cache) = []).
    { apply length_zero_iff_nil. lia. }
    rewrite Hnil, app_nil_r, Hk, Nat.add_0_r.
    repeat split; assumption || reflexivity.
Qed.

Lemma load_more_times_window
    (cache : list CaseTemplate)
    (datas : list (Settled (Response CaseTemplate))) :
  forall s, Window cache s -> Window cache (loadMoreTimes cache datas s).
Proof.
  unfold loadMoreTimes.
  induction datas as [| d datas IH]; intros s Hw; simpl.
  - assumption.
  - apply IH. now apply (load_more_window cache d s).
Qed.

End PageFacts.

Module PageScenario.

Import Js Templates PageFacts Fixtures.

Lemma window_length (cache : list CaseTemplate) (s : State) :
  Window cache s -> length (templates s) = offset s.
Proof.
  intros [Hvis Hbound _ _ _]. rewrite Hvis, length_firstn. lia.
Qed.

Lemma window_nodup (cache : list CaseTemplate) (s : State) :
  NoDup (map template_id cache) -> Window cache s ->
  NoDup (map template_id (templates s)).
Proof.
  intros Hnd [Hvis _ _ _ _]. rewrite Hvis, <- firstn_map.
  now apply NoDup_firstn.
Qed.

Lemma distinct_NoDup (ids : list string) : distinct ids = true -> NoDup ids.
Proof.
  induction ids as [| x rest IH]; simpl; intros H.
  - constructor.
  - apply andb_prop in H. destruct H as [Hx Hrest].
    constructor.
    + intros Hin. apply negb_true_iff in Hx.
      assert (existsb (String.eqb x) rest = true).
      { apply existsb_exists. exists x. split; [assumption |].
        apply String.eqb_refl. }
      congruence.
    + now apply IH.
Defined.

End PageScenario.

(** ** The claims *)

(** C1 (as amended). For every NON-EMPTY cached collection with pairwise
    distinct identifiers, page size [LIMIT = 25] and no search term: the
    first-page load on mount shows exactly the first [min LIMIT n] cached
    items with [total = n], [hasMore = (n > LIMIT)] and [offset] the number
    of items shown; after any number of load-more calls the visible list is
    still the first [offset] cached items, without duplicate identifiers;
    one more load-more call appends the next [min LIMIT (n - offset)]
    cached items in cache order, advances [offset] by that number and sets
    [hasMore = (offset < n)], and is a no-op once [offset = n]. With
    [n = 60] the visible lengths are 25, 50, 60, 60 and [hasMore] is true,
    true, false, false. *)
Theorem C1_cache_pagination
    (cache : list CaseTemplate)
    (data d d1 d2 d3 : Js.Settled (Response CaseTemplate))
    (datas : list (Js.Settled (Response CaseTemplate))) :
  cache <> [] ->
  NoDup (map template_id cache) ->
  let n := length cache in
  let s1 := Templates.initialLoadEffect cache data Templates.mount in
  let sk := Templates.loadMoreTimes cache datas s1 in
  let sk' := Templates.handleLoadMore cache d sk in
  (Templates.templates s1 = firstn (Nat.min Templates.LIMIT n) cache
   /\ Templates.total s1 = n
   /\ Templates.hasMore s1 = (Templates.LIMIT <? n)
   /\ Templates.offset s1 = length (Templates.templates s1))
  /\ (Templates.templates sk = firstn (Templates.offset sk) cache
      /\ Templates.offset sk = length (Templates.templates sk)
      /\ Templates.total sk = n
      /\ NoDup (map template_id (Templates.templates sk)))
  /\ (Templates.templates sk'
      = Templates.templates sk
        ++ firstn (Nat.min Templates.LIMIT (n - Templates.offset sk))
                  (skipn (Templates.offset sk) cache)
      /\ Templates.offset sk'
         = Templates.offset sk
           + Nat.min Templates.LIMIT (n - Templates.offset sk)
      /\ Templates.hasMore sk' = (Templates.offset sk' <? n)
      /\ NoDup (map template_id (Templates.templates sk'))
      /\ (Templates.offset sk = n -> sk' = sk))
  /\ (n = 60 ->
      let s2 := Templates.handleLoadMore cache d1 s1 in
      let s3 := Templates.handleLoadMore cache d2 s2 in
      let s4 := Templates.handleLoadMore cache d3 s3 in
      map (fun s => (length (Templates.templates s), Templates.hasMore s))
          [s1; s2; s3; s4]
      = [(25, true); (50, true); (60, false); (60, false)]
      /\ Templates.total s1 = 60
      /\ Templates.templates s4 = Templates.templates s3).
Proof.
  intros Hne Hnd n s1 sk sk'.
  pose proof (PageFacts.first_page_window cache data Hne) as W1.
  fold s1 in W1.
  pose proof (PageFacts.load_more_times_window cache datas s1 W1) as Wk.
  fold sk in Wk.
  pose proof (PageFacts.load_more_window cache d sk Wk) as Hstep.
  cbv zeta in Hstep. fold sk' in Hstep. fold n in Hstep.
  destruct Hstep as (Wk' & Happ & Hoff & Hstop).
  split; [| split; [| split]].
  - destruct W1 as [Hvis Hbound Hmore Htotal _].
    assert (Hfirst : Templates.offset s1 = Nat.min Templates.LIMIT n).
    { unfold s1. rewrite PageFacts.first_page_from_cache by assumption.
      cbn [Templates.offset]. apply length_firstn. }
    repeat split.
    + rewrite Hvis, Hfirst. reflexivity.
    + exact Htotal.
    + rewrite Hmore, Hfirst. apply ltb_min_l.
    + rewrite Hvis at 1. rewrite length_firstn. fold n. lia.
  - repeat split.
    + apply (Templates.win_visible _ _ Wk).
    + symmetry. now apply (PageScenario.window_length cache).
    + apply (Templates.win_total _ _ Wk).
    + now apply (PageScenario.window_nodup cache).
  - repeat split.
    + exact Happ.
    + exact Hoff.
    + apply (Templates.win_more _ _ Wk').
    + now apply (PageScenario.window_nodup cache).
    + exact Hstop.
  - intros Hn s2 s3 s4.
    destruct (PageFacts.load_more_window cache d1 s1 W1) as (W2 & _ & O2 & _).
    fold s2 in W2, O2.
    destruct (PageFacts.load_more_window cache d2 s2 W2) as (W3 & _ & O3 & _).
    fold s3 in W3, O3.
    destruct (PageFacts.load_more_window cache d3 s3 W3)
      as (W4 & _ & O4 & Stop4).
    fold s4 in W4, O4, Stop4.
    assert (O1 : Templates.offset s1 = 25).
    { unfold s1. rewrite PageFacts.first_page_from_cache by assumption.
      cbn [Templates.offset]. rewrite length_firstn. fold n.
      unfold Templates.LIMIT. lia. }
    fold n in O2, O3, O4, Stop4. unfold Templates.LIMIT in O2, O3, O4.
    assert (E2 : Templates.offset s2 = 50) by lia.
    assert (E3 : Templates.offset s3 = 60) by lia.
    assert (E4 : Templates.offset s4 = 60) by lia.
    split; [| split].
    + cbn [map].
      rewrite !(PageScenario.window_length cache) by assumption.
      rewrite (Templates.win_more _ _ W1), (Templates.win_more _ _ W2),
              (Templates.win_more _ _ W3), (Templates.win_more _ _ W4).
      fold n. rewrite O1, E2, E3, E4, Hn. reflexivity.
    + rewrite (Templates.win_total _ _ W1). exact Hn.
    + rewrite Stop4; [reflexivity | lia].
Qed.

(** C1, witness: the sixty-template cache of the scenario. *)
Lemma C1_cache_pagination_witness :
  Fixtures.sixty <> []
  /\ NoDup (map template_id Fixtures.sixty)
  /\ map (fun s => (length (Templates.templates s), Templates.hasMore s))
         [Templates.initialLoadEffect Fixtures.sixty
            (Js.Rejected "offline") Templates.mount;
          Templates.handleLoadMore Fixtures.sixty (Js.Rejected "offline")
            (Templates.initialLoadEffect Fixtures.sixty
               (Js.Rejected "offline") Templates.mount)]
     = [(25, true); (50, true)].
Proof.
  assert (Hne : Fixtures.sixty <> []) by (vm_compute; discriminate).
  assert (Hnd : NoDup (map template_id Fixtures.sixty)).
  { apply PageScenario.distinct_NoDup. vm_compute. reflexivity. }
  split; [exact Hne | split; [exact Hnd |]].
  pose proof (C1_cache_pagination Fixtures.sixty
                (Js.Rejected "offline") (Js.Rejected "offline")
                (Js.Rejected "offline") (Js.Rejected "offline")
                (Js.Rejected "offline") [] Hne Hnd) as H.
  cbv zeta in H. destruct H as (_ & _ & _ & H).
  specialize (H eq_refl). cbv zeta in H. destruct H as (H & _ & _).
  apply (f_equal (firstn 2)) in H. exact H.
Defined.

(** C1, as stated, fails on an empty cache: the mount effect then asks the
    backend, and shows what it answers. *)
Lemma C1_counterexample_empty_cache :
  ~ (forall (cache : list CaseTemplate)
            (data : Js.Settled (Response CaseTemplate)),
        NoDup (map template_id cache) ->
        let s1 := Templates.initialLoadEffect cache data Templates.mount in
        Templates.templates s1
        = firstn (Nat.min Templates.LIMIT (length cache)) cache
        /\ Templates.total s1 = length cache).
Proof.
  intros H.
  specialize (H [] (Js.Fulfilled (BareArray [mkTemplate "t1" "Family visa"]))
                (NoDup_nil _)).
  cbv in H. destruct H as [H _]. discriminate H.
Qed.

(** C2 (the code at the failing input). For a search term the component
    calls [api.getCaseTemplates(LIMIT, 0, term)], but [getCaseTemplates]
    declares no parameter: the GET request it sends is
    [API_URL/case-templates] with no query parameter at all, so neither
    [offset], [limit] nor [search] reaches the backend. What the response
    carries is adopted as the claim says: a structured page replaces the
    visible list and sets [total] and [hasMore]. *)
Theorem C2_search_request_carries_no_parameters
    (API_URL term : string) (s : Templates.State)
    (page : list CaseTemplate) (tot : nat) (more : bool) :
  let call := Templates.loadTemplatesFromAPI_call true (Some term) s in
  let request :=
    Templates.loadTemplatesFromAPI_request API_URL true (Some term) s in
  let s' :=
    Templates.loadTemplatesFromAPI true (Some term)
      (Js.Fulfilled (PageObject (Some page) (Some tot) (Some more))) s in
  call = Templates.mkCall Templates.LIMIT 0 (Some term)
  /\ request = Api.mkRequest "GET" (API_URL ++ "/case-templates") []
  /\ Api.req_query request = []
  /\ Templates.templates s' = page
  /\ Templates.total s' = tot
  /\ Templates.hasMore s' = more.
Proof.
  cbv zeta. repeat split; reflexivity.
Qed.

(** C4. A bare array is taken as one complete page: the visible list is
    the array, [total] its length, [hasMore] false. A structured page
    that carries the collection is adopted (it replaces the list on a
    reset and is appended to it otherwise), a missing [total] counts as
    0 and a missing [hasMore] as false. Both shapes run the [try] block
    of [loadTemplatesFromAPI] to its end ([hasInitialized.current] is
    set, [loading] is cleared); [loadClients] of the client list treats
    the two shapes the same way. *)
Theorem C4_response_shapes
    (reset : bool) (searchTerm : option string)
    (arr page : list CaseTemplate) (tot : option nat) (more : option bool)
    (s : Templates.State)
    (carr cpage : list Client) (cs : Clients.State) :
  let bare :=
    Templates.loadTemplatesFromAPI reset searchTerm
      (Js.Fulfilled (BareArray arr)) s in
  let paged :=
    Templates.loadTemplatesFromAPI reset searchTerm
      (Js.Fulfilled (PageObject (Some page) tot more)) s in
  let cbare := Clients.loadClients reset (Js.Fulfilled (BareArray carr)) cs in
  let cpaged :=
    Clients.loadClients reset
      (Js.Fulfilled (PageObject (Some cpage) tot more)) cs in
  (Templates.templates bare = arr
   /\ Templates.total bare = length arr
   /\ Templates.hasMore bare = false
   /\ Templates.offset bare = length arr
   /\ Templates.hasInitialized bare = true
   /\ Templates.loading bare = false)
  /\ (Templates.templates paged
      = (if reset then page else Templates.templates s ++ page)
      /\ Templates.total paged
         = match tot with Some t => t | None => 0 end
      /\ Templates.hasMore paged
         = match more with Some b => b | None => false end
      /\ Templates.hasInitialized paged = true
      /\ Templates.loading paged = false)
  /\ (Clients.clients cbare = carr
      /\ Clients.total cbare = length carr
      /\ Clients.hasMore cbare = false
      /\ Clients.loading cbare = false)
  /\ (Clients.clients cpaged
      = (if reset then cpage else Clients.clients cs ++ cpage)
      /\ Clients.total cpaged
         = match tot with Some t => t | None => 0 end
      /\ Clients.hasMore cpaged
         = match more with Some b => b | None => false end
      /\ Clients.loading cpaged = false).
Proof.
  cbv zeta.
  unfold Templates.loadTemplatesFromAPI, Templates.loadTemplatesFromAPI_settle,
    Templates.loadTemplatesFromAPI_begin, Clients.loadClients.
  destruct reset; repeat split; reflexivity.
Qed.

(** C3 (as amended). When one of the three fetches of [loadAllData]
    fails, the three collections and the Fetch Timestamp keep their
    values: in the final state and in every state a render could observe
    during the call. The error is written to the console and swallowed:
    the promise [loadAllData] returns to its caller is fulfilled, and
    [loading] is cleared. *)
Theorem C3_failed_loadAll_keeps_cache
    (user : string)
    (templatesData : Js.Settled (Response CaseTemplate))
    (clientsData : Js.Settled (Response Client))
    (remindersData : Js.Settled (list Reminder))
    (now : Z) (s : DataContext.State) :
  DataContext.some_fetch_failed templatesData clientsData remindersData = true ->
  let outcome :=
    DataContext.run
      (DataContext.loadAllData (Some user) templatesData clientsData
         remindersData now) s in
  DataContext.cache_of (DataContext.cells (snd outcome)) = DataContext.cache_of s
  /\ Forall (fun o => DataContext.cache_of o = DataContext.cache_of s)
            (DataContext.observed (snd outcome))
  /\ fst outcome = Js.Fulfilled tt
  /\ DataContext.loading (DataContext.cells (snd outcome)) = false
  /\ exists e,
       DataContext.promise_all templatesData clientsData remindersData
       = Js.Rejected e
       /\ DataContext.console (snd outcome)
          = ["Loading all data from backend (one-time load)...";
             ("Failed to load data: " ++ e)%string].
Proof.
  intros Hfail outcome. unfold DataContext.some_fetch_failed in Hfail.
  destruct (DataContext.promise_all templatesData clientsData remindersData)
    as [v | e] eqn:Hall; [discriminate |].
  assert (Hout : outcome
    = (Js.Fulfilled tt,
       DataContext.mkWorld
         (DataContext.setLoading false (DataContext.setLoading true s))
         [DataContext.setLoading true s;
          DataContext.setLoading false (DataContext.setLoading true s)]
         ["Loading all data from backend (one-time load)...";
          ("Failed to load data: " ++ e)%string])).
  { unfold outcome, DataContext.run, DataContext.loadAllData,
      DataContext.try_catch_finally, DataContext.bind, DataContext.await,
      DataContext.set, DataContext.log, DataContext.start.
    cbn [DataContext.cells DataContext.observed DataContext.console].
    rewrite Hall. reflexivity. }
  rewrite Hout. cbn [fst snd DataContext.cells DataContext.observed
                     DataContext.console].
  repeat split.
  - repeat constructor.
  - exists e. split; reflexivity.
Qed.

(** C3, witness: the templates request fails, the other two succeed. *)
Lemma C3_failed_loadAll_witness :
  DataContext.cache_of
    (DataContext.cells
       (snd (DataContext.run
               (DataContext.loadAllData (Some "agent")
                  (Js.Rejected "Failed to fetch templates")
                  (Js.Fulfilled (BareArray [mkClient "c1" "Ana" "Ruiz"]))
                  (Js.Fulfilled [mkReminder "r1"]) 7000%Z)
               (DataContext.mkState [mkClient "c0" "Luis" "Mora"]
                  [mkTemplate "t0" "Family visa"] [] false (Some 1000%Z)
                  true))))
  = ([mkClient "c0" "Luis" "Mora"], [mkTemplate "t0" "Family visa"], [],
     Some 1000%Z).
Proof.
  exact (proj1 (C3_failed_loadAll_keeps_cache "agent"
                  (Js.Rejected "Failed to fetch templates")
                  (Js.Fulfilled (BareArray [mkClient "c1" "Ana" "Ruiz"]))
                  (Js.Fulfilled [mkReminder "r1"]) 7000%Z
                  (DataContext.mkState [mkClient "c0" "Luis" "Mora"]
                     [mkTemplate "t0" "Family visa"] [] false (Some 1000%Z)
                     true)
                  eq_refl)).
Defined.

(** C3, as stated, fails in its last clause: the caller of a failed
    [loadAllData] is not given the error, its promise is fulfilled. *)
Lemma C3_counterexample_error_not_reported :
  ~ (forall (user : string)
            (templatesData : Js.Settled (Response CaseTemplate))
            (clientsData : Js.Settled (Response Client))
            (remindersData : Js.Settled (list Reminder))
            (now : Z) (s : DataContext.State),
        DataContext.some_fetch_failed templatesData clientsData remindersData
        = true ->
        exists e,
          fst (DataContext.run
                 (DataContext.loadAllData (Some user) templatesData
                    clientsData remindersData now) s)
          = Js.Rejected e).
Proof.
  intros H.
  destruct (H "agent" (Js.Rejected "Failed to fetch templates")
              (Js.Fulfilled (BareArray [])) (Js.Fulfilled []) 7000%Z
              DataContext.initial eq_refl) as [e He].
  cbv in He. discriminate He.
Qed.

(** C5. [isStale(maxAge)], whose default [maxAge] is 300000 ms, answers
    true exactly when no Fetch Timestamp is recorded or more than
    [maxAge] ms passed since the recorded one. It is true on the cache as
    constructed, false right after a successful [loadAllData] (and until
    300000 ms have passed), and true again after [invalidateCache], which
    clears the timestamp and leaves the three collections as they are.
    The clock is assumed not to read 0, the instant of the epoch, at a
    fetch. *)
Theorem C5_isStale
    (s : DataContext.State) (now maxAge fetched : Z) (user : string)
    (t : Response CaseTemplate) (c : Response Client) (r : list Reminder) :
  (forall t0, DataContext.lastFetchTime s = Some t0 -> t0 <> 0%Z) ->
  fetched <> 0%Z ->
  let loaded :=
    DataContext.cells
      (snd (DataContext.run
              (DataContext.loadAllData (Some user) (Js.Fulfilled t)
                 (Js.Fulfilled c) (Js.Fulfilled r) fetched) s)) in
  DataContext.CACHE_DURATION = 300000%Z
  /\ DataContext.isStale_default now s = DataContext.isStale now 300000 s
  /\ (DataContext.isStale now maxAge s = true
      <-> DataContext.lastFetchTime s = None
          \/ exists t0, DataContext.lastFetchTime s = Some t0
                        /\ (maxAge < now - t0)%Z)
  /\ DataContext.isStale_default now DataContext.initial = true
  /\ DataContext.lastFetchTime loaded = Some fetched
  /\ DataContext.isStale_default fetched loaded = false
  /\ DataContext.isStale_default now loaded = (300000 <? now - fetched)%Z
  /\ DataContext.isStale now maxAge (DataContext.invalidateCache loaded) = true
  /\ DataContext.lastFetchTime (DataContext.invalidateCache loaded) = None
  /\ DataContext.clients (DataContext.invalidateCache loaded)
     = DataContext.clients loaded
  /\ DataContext.templates (DataContext.invalidateCache loaded)
     = DataContext.templates loaded
  /\ DataContext.reminders (DataContext.invalidateCache loaded)
     = DataContext.reminders loaded
  /\ DataContext.loading (DataContext.invalidateCache loaded)
     = DataContext.loading loaded
  /\ DataContext.isInitialized (DataContext.invalidateCache loaded)
     = DataContext.isInitialized loaded.
Proof.
  intros Hclock Hfetched loaded.
  assert (Hloaded : DataContext.lastFetchTime loaded = Some fetched)
    by reflexivity.
  assert (Hfresh : forall at_time,
            DataContext.isStale_default at_time loaded
            = (300000 <? at_time - fetched)%Z).
  { intros at_time.
    unfold DataContext.isStale_default, DataContext.isStale.
    rewrite Hloaded. unfold Js.truthy_time.
    destruct (Z.eqb_spec fetched 0) as [E | _]; [contradiction |].
    reflexivity. }
  split; [reflexivity |].
  split; [reflexivity |].
  split.
  { unfold DataContext.isStale, Js.truthy_time.
    destruct (DataContext.lastFetchTime s) as [t0 |] eqn:Ht0.
    - destruct (Z.eqb_spec t0 0) as [E | _].
      + exfalso. now apply (Hclock t0).
      + cbn [negb]. rewrite Z.ltb_lt. split.
        * intros H. right. exists t0. now split.
        * intros [H | (t1 & H1 & H2)]; [discriminate |].
          injection H1 as <-. exact H2.
    - cbn [negb]. split; [now left | reflexivity]. }
  split; [reflexivity |].
  split; [exact Hloaded |].
  split.
  { rewrite Hfresh. apply Z.ltb_ge. lia. }
  split; [apply Hfresh |].
  repeat split; reflexivity.
Qed.

(** C5, witness: a cache fetched at 1000 ms, read at 2000 ms, reloaded
    at 5000 ms. *)
Lemma C5_isStale_witness :
  DataContext.isStale_default 5000
    (DataContext.cells
       (snd (DataContext.run
               (DataContext.loadAllData (Some "agent")
                  (Js.Fulfilled (BareArray [mkTemplate "t1" "Family visa"]))
                  (Js.Fulfilled (BareArray []))
                  (Js.Fulfilled []) 5000%Z)
               (DataContext.mkState [] [] [] false (Some 1000%Z) true))))
  = false.
Proof.
  assert (Hclock : forall t0 : Z,
            DataContext.lastFetchTime
              (DataContext.mkState [] [] [] false (Some 1000%Z) true)
            = Some t0 -> t0 <> 0%Z).
  { intros t0 H. injection H as <-. discriminate. }
  assert (Hfetched : 5000%Z <> 0%Z) by discriminate.
  exact (proj1 (proj2 (proj2 (proj2 (proj2 (proj2
           (C5_isStale (DataContext.mkState [] [] [] false (Some 1000%Z) true)
              2000 300000 5000 "agent"
              (BareArray [mkTemplate "t1" "Family visa"]) (BareArray []) []
              Hclock Hfetched))))))).
Defined.

(** ** The debounced search box *)

Module DebounceFacts.

Import Js Templates.

Section Fixed.

Variable cachedTemplates : list CaseTemplate.
Variable backend : ApiCall -> Settled (Response CaseTemplate).

(** A keystroke cancels the pending timer, if any, and leaves exactly
    its own timer pending. *)
Lemma keystroke_replaces (v : string) (rt : Runtime) :
  well_formed rt ->
  onChange v rt
  = mkRuntime (now rt) [mkTimer (next_id rt) (now rt + 500)%Z v]
              (S (next_id rt)) (calls rt) (fired rt)
              (setSearchTimeoutRef (Some (next_id rt))
                 (setSearchQuery v (view rt))).
Proof.
  intros [_ [Hq | (tm & Ht & Href & Hid)]]; unfold onChange;
    cbn [searchTimeoutRef setSearchQuery].
  - rewrite Hq.
    destruct (truthy_handle (searchTimeoutRef (view rt)));
      [destruct (searchTimeoutRef (view rt)) |]; reflexivity.
  - rewrite Href, Ht.
    destruct (timer_id tm) as [| id'] eqn:E; [lia |].
    cbn [truthy_handle clearTimeout filter]. rewrite E.
    rewrite Nat.eqb_refl. reflexivity.
Qed.

(** Before its delay has passed a timer does not fire. *)
Lemma wait_within_window (rt : Runtime) (tm : Timer) (t2 : Z) :
  timers rt = [tm] ->
  (now rt <= t2 < timer_due tm)%Z ->
  advance cachedTemplates backend t2 rt
  = mkRuntime t2 [tm] (next_id rt) (calls rt) (fired rt) (view rt).
Proof.
  intros Ht Hw. unfold advance. rewrite Ht.
  replace (Z.max (now rt) t2) with t2 by lia.
  cbn [filter]. unfold is_due.
  destruct (Z.leb_spec (timer_due tm) t2) as [Hle | Hgt]; [lia |].
  reflexivity.
Qed.

(** Once its delay has passed the only pending timer fires. *)
Lemma wait_past_delay (rt : Runtime) (tm : Timer) (T : Z) :
  timers rt = [tm] ->
  (now rt <= T)%Z ->
  (timer_due tm <= T)%Z ->
  advance cachedTemplates backend T rt
  = debouncedCallback cachedTemplates backend (timer_value tm)
      (mkRuntime T [] (next_id rt) (calls rt) (fired rt) (view rt)).
Proof.
  intros Ht Hnow Hdue. unfold advance. rewrite Ht.
  replace (Z.max (now rt) T) with T by lia.
  cbn [filter]. unfold is_due.
  destruct (Z.leb_spec (timer_due tm) T) as [_ | Hgt]; [| lia].
  reflexivity.
Qed.

(** The callback leaves the queue, the handles and the ref alone. *)
Lemma callback_frame (v : string) (rt : Runtime) :
  let rt' := debouncedCallback cachedTemplates backend v rt in
  timers rt' = timers rt
  /\ next_id rt' = next_id rt
  /\ searchTimeoutRef (view rt') = searchTimeoutRef (view rt).
Proof.
  cbv zeta. unfold debouncedCallback.
  destruct (truthy_string (trim v)); cbn [timers next_id view];
    repeat split; try reflexivity.
  unfold loadTemplatesFromAPI, loadTemplatesFromAPI_settle,
    loadTemplatesFromAPI_begin.
  destruct (backend _) as [[arr | [page |] tt0 mm] | e]; reflexivity.
Qed.

Lemma keystroke_well_formed (v : string) (rt : Runtime) :
  well_formed rt -> well_formed (onChange v rt).
Proof.
  intros Hwf. rewrite (keystroke_replaces v rt Hwf).
  destruct Hwf as [Hid _]. split; cbn [next_id timers view].
  - lia.
  - right. eexists. split; [reflexivity |].
    cbn [searchTimeoutRef setSearchTimeoutRef timer_id]. split;
      [reflexivity | exact Hid].
Qed.

Lemma advance_well_formed (t : Z) (rt : Runtime) :
  well_formed rt -> well_formed (advance cachedTemplates backend t rt).
Proof.
  intros [Hid [Hq | (tm & Ht & Href & Htm)]]; unfold advance.
  - rewrite Hq. cbn [filter fold_left]. split; [exact Hid | now left].
  - rewrite Ht. cbn [filter].
    destruct (is_due (Z.max (now rt) t) tm); cbn [negb fold_left].
    + destruct (callback_frame (timer_value tm)
                  (mkRuntime (Z.max (now rt) t) [] (next_id rt) (calls rt)
                             (fired rt) (view rt))) as (Ht' & Hn' & _).
      split; [rewrite Hn'; exact Hid | left; rewrite Ht'; reflexivity].
    + split; [exact Hid |]. right. exists tm. repeat split; assumption.
Qed.

(** Every state the search box reaches from its mount is well formed. *)
Lemma reachable_well_formed (inputs : list Input) (t : Z) :
  well_formed (play cachedTemplates backend inputs (boot t)).
Proof.
  unfold play. induction inputs as [| i inputs IH] using rev_ind.
  - split; [apply Nat.lt_0_1 | now left].
  - rewrite fold_left_app. cbn [fold_left].
    destruct i as [v | t']; cbn [input].
    + now apply keystroke_well_formed.
    + now apply advance_well_formed.
Qed.

End Fixed.

End DebounceFacts.

Module RenderFacts.

Import Js Templates TemplatesView TemplatesRender.

(** A term that is not blank is not empty. *)
Lemma term_not_empty (v : string) :
  truthy_string (trim v) = true -> truthy_string v = true.
Proof. destruct v; [discriminate | reflexivity]. Qed.

(** What the first page taken from the cache shows. *)
Lemma first_page_shown (cache : list CaseTemplate) (s : State) :
  let shown := firstPageFromCache cache s in
  templates shown = firstn LIMIT cache
  /\ total shown = length cache
  /\ hasMore shown = (LIMIT <? length cache)
  /\ offset shown = Nat.min LIMIT (length cache).
Proof.
  cbv zeta. unfold firstPageFromCache. rewrite slice_from_zero.
  cbn [templates total hasMore offset setOffset setHasMore setTotal
       setTemplates].
  repeat split; try reflexivity. apply length_firstn.
Qed.

Section Fixed.

Variable cachedTemplates : list CaseTemplate.
Variable backend : ApiCall -> Settled (Response CaseTemplate).

(** The render leaves the query, the timer ref and the flag alone. *)
Lemma resync_frame (before after : State) :
  let s := TemplatesSession.resync_after cachedTemplates before after in
  searchQuery s = searchQuery after
  /\ searchTimeoutRef s = searchTimeoutRef after
  /\ hasInitialized s = hasInitialized after.
Proof.
  cbv zeta. unfold TemplatesSession.resync_after, cacheResyncEffect.
  destruct (TemplatesSession.same_deps before after);
    [repeat split; reflexivity |].
  destruct (negb (hasInitialized after)); [repeat split; reflexivity |].
  destruct (searching after); [repeat split; reflexivity |].
  destruct ((0 <? length cachedTemplates)
            && negb (length cachedTemplates =? total after));
    repeat split; reflexivity.
Qed.

(** The first page of the cache is still shown after the render. *)
Lemma first_page_settled (before s : State) :
  let s' :=
    TemplatesSession.resync_after cachedTemplates before
      (firstPageFromCache cachedTemplates s) in
  templates s' = firstn LIMIT cachedTemplates
  /\ total s' = length cachedTemplates
  /\ hasMore s' = (LIMIT <? length cachedTemplates)
  /\ offset s' = Nat.min LIMIT (length cachedTemplates).
Proof.
  cbv zeta. unfold TemplatesSession.resync_after, cacheResyncEffect.
  destruct (TemplatesSession.same_deps before
              (firstPageFromCache cachedTemplates s));
    [apply first_page_shown |].
  destruct (negb (hasInitialized (firstPageFromCache cachedTemplates s)));
    [apply first_page_shown |].
  destruct (searching (firstPageFromCache cachedTemplates s));
    [apply first_page_shown |].
  destruct ((0 <? length cachedTemplates)
            && negb (length cachedTemplates
                     =? total (firstPageFromCache cachedTemplates s)));
    apply first_page_shown.
Qed.

(** A keystroke and its render: the pending timer, if any, is replaced
    by the keystroke's own. *)
Lemma rendered_keystroke (v : string) (rt : Runtime) :
  well_formed rt ->
  keystroke cachedTemplates v rt
  = mkRuntime (now rt) [mkTimer (next_id rt) (now rt + 500)%Z v]
              (S (next_id rt)) (calls rt) (fired rt)
              (TemplatesSession.resync_after cachedTemplates (view rt)
                 (setSearchTimeoutRef (Some (next_id rt))
                    (setSearchQuery v (view rt)))).
Proof.
  intros Hwf. unfold keystroke, render.
  rewrite (DebounceFacts.keystroke_replaces v rt Hwf). reflexivity.
Qed.

Lemma rendered_keystroke_well_formed (v : string) (rt : Runtime) :
  well_formed rt -> well_formed (keystroke cachedTemplates v rt).
Proof.
  intros Hwf. rewrite (rendered_keystroke v rt Hwf).
  destruct Hwf as [Hid _]. split; cbn [next_id timers view].
  - lia.
  - right. eexists. split; [reflexivity |].
    cbn [timer_id]. split; [| exact Hid].
    now rewrite (proj1 (proj2 (resync_frame _ _))).
Qed.


(** Once its delay has passed the only pending timer fires. *)
Lemma elapse_past_delay (rt : Runtime) (tm : Timer) (T : Z) :
  timers rt = [tm] ->
  (now rt <= T)%Z ->
  (timer_due tm <= T)%Z ->
  elapse cachedTemplates backend T rt
  = timeout cachedTemplates backend (timer_value tm)
      (mkRuntime T [] (next_id rt) (calls rt) (fired rt) (view rt)).
Proof.
  intros Ht Hnow Hdue. unfold elapse. rewrite Ht.
  replace (Z.max (now rt) T) with T by lia.
  cbn [filter]. unfold is_due.
  destruct (Z.leb_spec (timer_due tm) T) as [_ | Hgt]; [| lia].
  reflexivity.
Qed.

(** What a debounce callback and its render do. *)
Lemma timeout_effect (v : string) (rt : Runtime) :
  let rt' := timeout cachedTemplates backend v rt in
  timers rt' = timers rt
  /\ fired rt' = fired rt ++ [v]
  /\ calls rt'
     = calls rt
       ++ (if truthy_string (trim v)
           then [mkCall LIMIT 0 (Some (trim v))]
           else [])
  /\ searchQuery (view rt') = searchQuery (view rt)
  /\ (truthy_string (trim v) = false ->
      templates (view rt') = firstn LIMIT cachedTemplates
      /\ total (view rt') = length cachedTemplates
      /\ hasMore (view rt') = (LIMIT <? length cachedTemplates)
      /\ offset (view rt') = Nat.min LIMIT (length cachedTemplates)).
Proof.
  cbv zeta. unfold timeout, render. cbn [timers fired calls view].
  rewrite (proj1 (resync_frame _ _)).
  unfold debouncedCallback.
  destruct (truthy_string (trim v)) eqn:Hterm;
    cbn [timers fired calls view]; rewrite ?app_nil_r.
  - do 3 (split; [reflexivity |]). split; [| discriminate].
    unfold loadTemplatesFromAPI, loadTemplatesFromAPI_settle,
      loadTemplatesFromAPI_begin.
    destruct (backend _) as [[arr | [page |] tt0 mm] | e]; reflexivity.
  - do 4 (split; [reflexivity |]).
    intros _. apply first_page_settled.
Qed.


(** What a debounce callback does, apart from what the list shows. *)
Lemma callback_effect (v : string) (rt : Runtime) :
  let rt' := debouncedCallback cachedTemplates backend v rt in
  now rt' = now rt
  /\ timers rt' = timers rt
  /\ next_id rt' = next_id rt
  /\ calls rt'
     = calls rt
       ++ (if truthy_string (trim v)
           then [mkCall LIMIT 0 (Some (trim v))]
           else [])
  /\ fired rt' = fired rt ++ [v]
  /\ searchQuery (view rt') = searchQuery (view rt)
  /\ searchTimeoutRef (view rt') = searchTimeoutRef (view rt).
Proof.
  cbv zeta. unfold debouncedCallback.
  destruct (truthy_string (trim v)) eqn:Hterm;
    cbn [now timers next_id calls fired view]; rewrite ?app_nil_r.
  - do 5 (split; [reflexivity |]).
    unfold loadTemplatesFromAPI, loadTemplatesFromAPI_settle,
      loadTemplatesFromAPI_begin.
    destruct (backend _) as [[arr | [page |] tt0 mm] | e]; split; reflexivity.
  - repeat split; reflexivity.
Qed.

(** The renders change nothing but what the list shows: a run with
    them and the same run without agree on the clock, the timers, the
    calls, the callbacks run, the query and the timer ref. *)
Lemma keystroke_same_run (v : string) (a b : Runtime) :
  same_run a b -> same_run (keystroke cachedTemplates v a) (onChange v b).
Proof.
  intros (Hnow & Htimers & Hnext & Hcalls & Hfired & Hquery & Href).
  unfold same_run, keystroke, render.
  cbn [now timers next_id calls fired view].
  rewrite (proj1 (resync_frame _ _)), (proj1 (proj2 (resync_frame _ _))).
  unfold onChange.
  cbn [now timers next_id calls fired view searchQuery searchTimeoutRef
       setSearchQuery setSearchTimeoutRef].
  rewrite Hnow, Htimers, Hnext, Hcalls, Hfired, Href.
  repeat split; reflexivity.
Qed.

Lemma timeout_same_run (v : string) (a b : Runtime) :
  same_run a b ->
  same_run (timeout cachedTemplates backend v a)
           (debouncedCallback cachedTemplates backend v b).
Proof.
  intros (Hnow & Htimers & Hnext & Hcalls & Hfired & Hquery & Href).
  destruct (callback_effect v a) as (A1 & A2 & A3 & A4 & A5 & A6 & A7).
  destruct (callback_effect v b) as (B1 & B2 & B3 & B4 & B5 & B6 & B7).
  unfold same_run, timeout, render.
  cbn [now timers next_id calls fired view].
  rewrite (proj1 (resync_frame _ _)), (proj1 (proj2 (resync_frame _ _))).
  rewrite A1, A2, A3, A4, A5, A6, A7, B1, B2, B3, B4, B5, B6, B7.
  rewrite Hnow, Htimers, Hnext, Hcalls, Hfired, Hquery, Href.
  repeat split; reflexivity.
Qed.

Lemma elapse_same_run (t : Z) (a b : Runtime) :
  same_run a b ->
  same_run (elapse cachedTemplates backend t a)
           (advance cachedTemplates backend t b).
Proof.
  intros (Hnow & Htimers & Hnext & Hcalls & Hfired & Hquery & Href).
  unfold elapse, advance. rewrite Hnow, Htimers, Hnext, Hcalls, Hfired.
  set (due := filter (is_due (Z.max (now b) t)) (timers b)).
  assert (Hstart :
    same_run
      (mkRuntime (Z.max (now b) t)
         (filter (fun tm => negb (is_due (Z.max (now b) t) tm)) (timers b))
         (next_id b) (calls b) (fired b) (view a))
      (mkRuntime (Z.max (now b) t)
         (filter (fun tm => negb (is_due (Z.max (now b) t) tm)) (timers b))
         (next_id b) (calls b) (fired b) (view b)))
    by (repeat split; assumption).
  revert Hstart. generalize due.
  generalize (mkRuntime (Z.max (now b) t)
         (filter (fun tm => negb (is_due (Z.max (now b) t) tm)) (timers b))
         (next_id b) (calls b) (fired b) (view a)).
  generalize (mkRuntime (Z.max (now b) t)
         (filter (fun tm => negb (is_due (Z.max (now b) t) tm)) (timers b))
         (next_id b) (calls b) (fired b) (view b)).
  intros y x l. revert x y.
  induction l as [| tm l IH]; intros x y Hxy; cbn [fold_left].
  - exact Hxy.
  - apply IH. now apply timeout_same_run.
Qed.

(** Well-formedness looks at the timers, the handles and the ref
    only. *)
Lemma same_run_well_formed (a b : Runtime) :
  same_run a b -> well_formed b -> well_formed a.
Proof.
  intros (_ & Htimers & Hnext & _ & _ & _ & Href) [Hid Hq].
  unfold well_formed. rewrite Htimers, Hnext, Href. now split.
Qed.

Lemma same_run_refl (rt : Runtime) : same_run rt rt.
Proof. repeat split; reflexivity. Qed.

Lemma clearButton_well_formed (rt : Runtime) :
  well_formed rt -> well_formed (clearButton cachedTemplates rt).
Proof.
  intros Hwf. unfold clearButton.
  destruct (truthy_string (searchQuery (view rt))); [| exact Hwf].
  destruct Hwf as [Hid Hq].
  unfold well_formed, render, clearSearch.
  cbn [timers next_id view].
  rewrite (proj1 (proj2 (resync_frame _ _))).
  split; [exact Hid | exact Hq].
Qed.

Lemma elapse_well_formed (t : Z) (rt : Runtime) :
  well_formed rt -> well_formed (elapse cachedTemplates backend t rt).
Proof.
  intros Hwf.
  apply (same_run_well_formed _ (advance cachedTemplates backend t rt)).
  - apply elapse_same_run, same_run_refl.
  - now apply DebounceFacts.advance_well_formed.
Qed.

(** Every state the search box reaches from its mount, renders and
    clear button included, is well formed. *)
Lemma rendered_reachable_well_formed (inputs : list Input) (t : Z) :
  well_formed (play cachedTemplates backend inputs (boot t)).
Proof.
  unfold play. induction inputs as [| i inputs IH] using rev_ind.
  - split; [apply Nat.lt_0_1 | now left].
  - rewrite fold_left_app. cbn [fold_left].
    destruct i as [v | | t']; cbn [input].
    + now apply rendered_keystroke_well_formed.
    + now apply clearButton_well_formed.
    + now apply elapse_well_formed.
Qed.

Lemma play_same_run (inputs : list Templates.Input) (rt : Runtime) :
  same_run (play cachedTemplates backend (map lift inputs) rt)
           (Templates.play cachedTemplates backend inputs rt).
Proof.
  unfold play, Templates.play.
  induction inputs as [| i inputs IH] using rev_ind.
  - repeat split; reflexivity.
  - rewrite map_app, !fold_left_app. cbn [map fold_left].
    destruct i as [v | t]; cbn [lift input Templates.input].
    + now apply keystroke_same_run.
    + now apply elapse_same_run.
Qed.

End Fixed.

End RenderFacts.




(** C7 (the code at the failing input). The list shows the only cached
    template, no search is active, and that template is deleted: the
    cache is refreshed to the empty collection, but the visible list and
    [total] stay as they were, whichever of the flag reset and the render
    comes first; the first page of the refreshed cache is empty. When the
    flag is reset first (the handler resumes before the render), the
    cache-resync effect returns at its first guard for every mutation. *)
Theorem C7_mutation_leaves_stale_list
    (flagFirst : bool) (oldCache newCache : list CaseTemplate)
    (s : Templates.State) :
  let t1 := mkTemplate "t1" "Family visa" in
  let ctx := DataContext.mkState [] [t1] [] false (Some 1000%Z) true in
  let shown :=
    Templates.initialLoadEffect [t1] (Js.Rejected "unused") Templates.mount in
  let after :=
    Templates.confirmDelete flagFirst (Js.Fulfilled tt)
      (Js.Fulfilled (BareArray [])) 2000%Z ctx shown in
  Templates.templates shown = [t1]
  /\ Templates.searching shown = false
  /\ DataContext.templates (fst after) = []
  /\ firstn Templates.LIMIT (DataContext.templates (fst after)) = []
  /\ Templates.templates (snd after) = [t1]
  /\ Templates.total (snd after) = 1
  /\ Templates.templates
       (Templates.onMutationCommitted true oldCache newCache s)
     = Templates.templates s.
Proof.
  cbv zeta. repeat split; try (destruct flagFirst; reflexivity).
  unfold Templates.onMutationCommitted, Templates.rerender.
  destruct (length oldCache =? length newCache); reflexivity.
Qed.

(** ** The provider's runs *)

Module ProviderFacts.

Import Js DataContext.

Lemma step_data (p : Provider) (ev : Event) :
  data (step p ev) = data (handle ev p).
Proof. reflexivity. Qed.

(** The two halves of [loadAllData] used by the event machine make up
    the whole function. *)
Lemma loadAllData_halves
    (user : option string)
    (t : Settled (Response CaseTemplate)) (c : Settled (Response Client))
    (r : Settled (list Reminder)) (now : Z) (p : Provider) :
  cells (snd (run (loadAllData user t c r now) (data p)))
  = match user with
    | Some _ =>
        loadAllData_settle t c r now (data (loadAllData_begin user p))
    | None => data (loadAllData_begin user p)
    end.
Proof.
  destruct user as [u |]; [| reflexivity].
  unfold run, loadAllData, loadAllData_settle, try_catch_finally, bind,
    await, set, log, start.
  cbn [cells observed console loadAllData_begin data].
  destruct (promise_all t c r) as [[[tv cv] rv] | e]; reflexivity.
Qed.

Lemma step_consistent (p : Provider) (ev : Event) :
  interval_consistent (step p ev).
Proof.
  unfold interval_consistent, step, autoRefreshEffect.
  cbn [checkInterval data].
  destruct (isInitialized (data (handle ev p)));
    destruct (truthy_time (lastFetchTime (data (handle ev p))));
    reflexivity.
Qed.

Lemma steps_snoc (evs : list Event) (ev : Event) (p : Provider) :
  steps (evs ++ [ev]) p = step (steps evs p) ev.
Proof. unfold steps. now rewrite fold_left_app. Qed.

Lemma reachable_consistent (evs : list Event) :
  interval_consistent (steps evs mounted).
Proof.
  destruct evs as [| ev evs] using rev_ind.
  - reflexivity.
  - rewrite steps_snoc. apply step_consistent.
Qed.

(** On a consistent provider the effect changes nothing. *)
Lemma effect_idle (p : Provider) :
  interval_consistent p -> autoRefreshEffect p = p.
Proof.
  unfold interval_consistent, autoRefreshEffect. intros H.
  destruct p as [d ci fl bg]. cbn [data checkInterval inFlight backgroundLoads] in *.
  rewrite H.
  destruct (isInitialized d); destruct (truthy_time (lastFetchTime d));
    reflexivity.
Qed.

(** Without a successful fetch the timestamp stays absent. *)
Lemma timestamp_needs_fetch (p : Provider) (ev : Event) :
  lastFetchTime (data p) = None ->
  is_successful_fetch p ev = false ->
  lastFetchTime (data (step p ev)) = None.
Proof.
  intros Hnone Hev. rewrite step_data.
  destruct ev as [u | now u | u | t c r now | d now | d now | d now |];
    cbn [handle].
  - destruct (isInitialized (data p)); [assumption |].
    destruct u; [| assumption]. exact Hnone.
  - destruct (checkInterval p); [| assumption].
    unfold checkStale. destruct (isStale_default now (data p));
      [| assumption].
    destruct u; exact Hnone.
  - destruct u; exact Hnone.
  - cbn [is_successful_fetch] in Hev.
    destruct (inFlight p) as [| k]; [assumption |].
    cbn [data]. unfold loadAllData_settle.
    unfold some_fetch_failed in Hev.
    destruct (promise_all t c r) as [[[tv cv] rv] | e];
      [discriminate | exact Hnone].
  - destruct d as [v | e]; [discriminate | exact Hnone].
  - destruct d as [v | e]; [discriminate | exact Hnone].
  - destruct d as [v | e]; [discriminate | exact Hnone].
  - reflexivity.
Qed.

Lemma no_fetch_no_timestamp (evs : list Event) :
  forall p,
    lastFetchTime (data p) = None ->
    fetch_succeeded evs p = false ->
    lastFetchTime (data (steps evs p)) = None.
Proof.
  induction evs as [| ev evs IH]; intros p Hnone Hno.
  - exact Hnone.
  - cbn [fetch_succeeded] in Hno. apply orb_false_iff in Hno.
    destruct Hno as [Hev Hrest].
    change (steps (ev :: evs) p) with (steps evs (step p ev)).
    apply IH; [| exact Hrest].
    now apply timestamp_needs_fetch.
Qed.

(** With no timestamp the interval is not registered. *)
Lemma no_timestamp_no_interval (p : Provider) :
  interval_consistent p ->
  lastFetchTime (data p) = None ->
  checkInterval p = false.
Proof.
  unfold interval_consistent. intros H Hnone. rewrite H, Hnone.
  apply andb_false_r.
Qed.

(** A tick on an unregistered interval is not an event at all. *)
Lemma tick_unregistered (p : Provider) (now : Z) (u : option string) :
  interval_consistent p ->
  checkInterval p = false ->
  step p (Tick now u) = p.
Proof.
  intros Hc Hoff. unfold step. cbn [handle]. rewrite Hoff.
  now apply effect_idle.
Qed.


End ProviderFacts.

(** C8 (as amended). In every run of the provider from its mount: the
    auto-refresh interval is registered exactly when the provider is
    initialized and a Fetch Timestamp is recorded, so that before some
    fetch has succeeded a tick does nothing at all; a tick calls
    [loadAllData] exactly when the interval is registered and the cache
    is stale. There is no in-flight guard: [refreshAll], and a tick on a
    stale cache, start one more [loadAllData] whatever the number already
    in flight. *)
Theorem C8_background_refresh
    (evs : list DataContext.Event) (now : Z) (u : option string)
    (user : string) :
  let p := DataContext.steps evs DataContext.mounted in
  DataContext.checkInterval p
  = DataContext.isInitialized (DataContext.data p)
    && Js.truthy_time (DataContext.lastFetchTime (DataContext.data p))
  /\ DataContext.backgroundLoads (DataContext.step p (DataContext.Tick now u))
     = (if DataContext.checkInterval p
           && DataContext.isStale_default now (DataContext.data p)
        then S (DataContext.backgroundLoads p)
        else DataContext.backgroundLoads p)
  /\ (DataContext.fetch_succeeded evs DataContext.mounted = false ->
      DataContext.step p (DataContext.Tick now u) = p)
  /\ DataContext.inFlight
       (DataContext.step p (DataContext.RefreshAll (Some user)))
     = S (DataContext.inFlight p)
  /\ (DataContext.checkInterval p = true ->
      DataContext.isStale_default now (DataContext.data p) = true ->
      DataContext.inFlight
        (DataContext.step p (DataContext.Tick now (Some user)))
      = S (DataContext.inFlight p)).
Proof.
  intros p.
  pose proof (ProviderFacts.reachable_consistent evs) as Hc. fold p in Hc.
  split; [exact Hc |].
  split.
  { unfold DataContext.step. cbn [DataContext.handle].
    destruct (DataContext.checkInterval p); [| reflexivity].
    unfold DataContext.checkStale.
    destruct (DataContext.isStale_default now (DataContext.data p));
      [| reflexivity].
    destruct u; reflexivity. }
  split.
  { intros Hno. apply ProviderFacts.tick_unregistered; [exact Hc |].
    apply ProviderFacts.no_timestamp_no_interval; [exact Hc |].
    now apply ProviderFacts.no_fetch_no_timestamp. }
  split; [reflexivity |].
  intros Hon Hstale. unfold DataContext.step. cbn [DataContext.handle].
  rewrite Hon. unfold DataContext.checkStale. rewrite Hstale. reflexivity.
Qed.

(** C8, witness: a stale cache, one background load already in flight,
    and the next tick of the interval. *)
Lemma C8_background_refresh_witness :
  DataContext.inFlight
    (DataContext.steps
       [DataContext.CheckUser (Some "agent");
        DataContext.LoadAllSettles (Js.Fulfilled (BareArray []))
          (Js.Fulfilled (BareArray [])) (Js.Fulfilled []) 1000%Z;
        DataContext.Tick 400000%Z (Some "agent");
        DataContext.Tick 460000%Z (Some "agent")]
       DataContext.mounted)
  = 2.
Proof.
  exact (proj2 (proj2 (proj2 (proj2
           (C8_background_refresh
              [DataContext.CheckUser (Some "agent");
               DataContext.LoadAllSettles (Js.Fulfilled (BareArray []))
                 (Js.Fulfilled (BareArray [])) (Js.Fulfilled []) 1000%Z;
               DataContext.Tick 400000%Z (Some "agent")]
              460000%Z None "agent"))))
         eq_refl eq_refl).
Defined.

(** C8, as stated, fails in both parts. A tick that finds a
    [loadAllData] in flight is not a no-op, it starts a second one. And
    the staleness check can call [loadAllData] although no [loadAllData]
    has succeeded yet: the login-driven load fails, a refresh of the
    templates alone records a timestamp, and five minutes later the
    interval finds the cache stale. *)
Lemma C8_counterexample_concurrent_loads :
  ~ (forall (evs : list DataContext.Event) (ev : DataContext.Event),
        let p := DataContext.steps evs DataContext.mounted in
        0 < DataContext.inFlight p ->
        DataContext.is_trigger ev = true ->
        DataContext.step p ev = p)
  /\ ~ (forall (evs : list DataContext.Event) (now : Z) (u : option string),
          let p := DataContext.steps evs DataContext.mounted in
          DataContext.load_succeeded evs DataContext.mounted = false ->
          DataContext.backgroundLoads
            (DataContext.step p (DataContext.Tick now u))
          = DataContext.backgroundLoads p).
Proof.
  split.
  - intros H.
    specialize (H [DataContext.CheckUser (Some "agent");
                   DataContext.LoadAllSettles (Js.Fulfilled (BareArray []))
                     (Js.Fulfilled (BareArray [])) (Js.Fulfilled []) 1000%Z;
                   DataContext.Tick 400000%Z (Some "agent")]
                  (DataContext.Tick 460000%Z (Some "agent"))).
    cbv zeta in H. specialize (H (Nat.lt_0_1) eq_refl).
    apply (f_equal DataContext.inFlight) in H. vm_compute in H.
    discriminate H.
  - intros H.
    specialize (H [DataContext.CheckUser (Some "agent");
                   DataContext.LoadAllSettles (Js.Rejected "offline")
                     (Js.Fulfilled (BareArray [])) (Js.Fulfilled []) 500%Z;
                   DataContext.RefreshTemplates
                     (Js.Fulfilled (BareArray [])) 1000%Z]
                  400000%Z (Some "agent")).
    cbv zeta in H. specialize (H eq_refl).
    vm_compute in H. discriminate H.
Qed.

Module InvalidationFacts.

Import Js DataContext ProviderRuns.






End InvalidationFacts.




(** ** The client list's search box *)

Module ClientsFacts.

Import Js Clients.

Lemma searchTimeoutRef_undeclared :
  existsb (String.eqb "searchTimeoutRef") scope = false.
Proof. reflexivity. Qed.

Lemma onChange_throws (value : string) (rt : Runtime) :
  onChange value rt
  = (inl (ReferenceError "searchTimeoutRef"),
     with_view (setSearchQuery value) rt).
Proof. reflexivity. Qed.

Lemma keystrokes_keep_timers (values : list string) :
  forall rt,
    timers (keystrokes values rt) = timers rt
    /\ next_id (keystrokes values rt) = next_id rt.
Proof.
  unfold keystrokes.
  induction values as [| v values IH]; intros rt; cbn [fold_left].
  - split; reflexivity.
  - rewrite onChange_throws. cbn [snd].
    destruct (IH (with_view (setSearchQuery v) rt)) as [Ht Hn].
    rewrite Ht, Hn. split; reflexivity.
Qed.

(** The same handler where the ref is declared, as in [Templates]:
    it returns and leaves one debounced reload pending. *)
Lemma onChange_where_declared (value : string) (rt : Runtime) :
  timers rt = [] ->
  onChange_in (Templates_only ++ scope) value rt
  = (inr tt,
     mkRuntime (now rt) [(next_id rt, (now rt + 500)%Z)] (S (next_id rt))
               (Some (next_id rt)) (setSearchQuery value (view rt))).
Proof.
  intros Hq.
  unfold onChange_in, bind, resolve, update, with_view.
  cbn [existsb Templates_only scope app String.eqb Ascii.eqb Bool.eqb
       orb andb imports declarations globals].
  cbn [now timers next_id handle_cell view]. rewrite Hq.
  destruct (truthy_handle (handle_cell rt));
    [destruct (handle_cell rt) |]; reflexivity.
Qed.

End ClientsFacts.

(** C9. [searchTimeoutRef] is not among the identifiers in scope in
    [Clients]. Every [onChange] of the client search box therefore
    throws [ReferenceError] where it first evaluates that name, after
    [setSearchQuery] and before [setTimeout]: the pending timers and the
    next timer handle are as before, also after any number of
    keystrokes, so no debounced reload is ever scheduled. The unmount
    cleanup throws the same error. Where the name is declared the same
    handler returns and schedules a reload. *)
Theorem C9_clients_search_throws
    (value : string) (values : list string) (rt : Clients.Runtime) :
  existsb (String.eqb "searchTimeoutRef") Clients.scope = false
  /\ fst (Clients.onChange value rt)
     = inl (Js.ReferenceError "searchTimeoutRef")
  /\ Clients.timers (snd (Clients.onChange value rt)) = Clients.timers rt
  /\ Clients.next_id (snd (Clients.onChange value rt)) = Clients.next_id rt
  /\ Clients.searchQuery (Clients.view (snd (Clients.onChange value rt)))
     = value
  /\ Clients.timers (Clients.keystrokes values rt) = Clients.timers rt
  /\ Clients.next_id (Clients.keystrokes values rt) = Clients.next_id rt
  /\ Clients.cleanup rt = (inl (Js.ReferenceError "searchTimeoutRef"), rt)
  /\ fst (Clients.onChange_in (Clients.Templates_only ++ Clients.scope)
            value (Clients.mkRuntime 0 [] 1 None Clients.mount))
     = inr tt.
Proof.
  repeat split; try reflexivity;
    apply (ClientsFacts.keystrokes_keep_timers values rt).
Qed.

(** ** Further properties of the template list *)

Module TemplatesViewFacts.

Import Js Templates TemplatesView PageFacts.

Lemma blank_is_not_searching (q : string) :
  truthy_string q = false -> truthy_string (trim q) = false.
Proof. destruct q; [reflexivity | discriminate]. Qed.

(** [handleLoadMore] with no search active never touches the query. *)
Lemma load_more_keeps_query
    (cache : list CaseTemplate) (d : Settled (Response CaseTemplate))
    (s : State) :
  searching s = false ->
  searchQuery (handleLoadMore cache d s) = searchQuery s.
Proof.
  intros Hidle. unfold handleLoadMore. rewrite Hidle.
  destruct (0 <? length (slice (offset s) (offset s + LIMIT) cache));
    reflexivity.
Qed.

(** The view after the mount on a non-empty cache and any number of
    load-more calls. *)
Lemma paged_state
    (cache : list CaseTemplate) (data : Settled (Response CaseTemplate))
    (datas : list (Settled (Response CaseTemplate))) :
  cache <> [] ->
  let s := loadMoreTimes cache datas (initialLoadEffect cache data mount) in
  Window cache s
  /\ searchQuery s = ""
  /\ offset s = Nat.min (length cache) (LIMIT * S (length datas)).
Proof.
  intros Hne. induction datas as [| d datas IH] using rev_ind; cbv zeta.
  - split; [now apply first_page_window |].
    rewrite first_page_from_cache by assumption.
    cbn [loadMoreTimes fold_left searchQuery offset length].
    split; [reflexivity |]. rewrite length_firstn. unfold LIMIT. lia.
  - cbv zeta in IH. destruct IH as (W & Hq & Hoff).
    unfold loadMoreTimes in *. rewrite fold_left_app. cbn [fold_left].
    set (s := fold_left (fun acc d0 => handleLoadMore cache d0 acc) datas
                (initialLoadEffect cache data mount)) in *.
    destruct (load_more_window cache d s W) as (W' & _ & Hoff' & _).
    split; [exact W' |]. split.
    + rewrite load_more_keeps_query; [exact Hq | apply (win_idle _ _ W)].
    + rewrite Hoff', Hoff, length_app. cbn [length].
      unfold LIMIT. lia.
Qed.

End TemplatesViewFacts.

(** X1. From the mount on a non-empty cache, after [k] load-more calls
    the list shows the first [min n (25 * (k + 1))] cached templates, in
    cache order; once [25 * (k + 1)] reaches [n] it is the whole cache.
    The Load More button is shown exactly while cached templates are
    left, and its counter is the number of templates not shown yet. *)
Theorem X1_paging_closed_form
    (cache : list CaseTemplate)
    (data : Js.Settled (Response CaseTemplate))
    (datas : list (Js.Settled (Response CaseTemplate))) :
  cache <> [] ->
  let n := length cache in
  let shown := Templates.LIMIT * S (length datas) in
  let s :=
    Templates.loadMoreTimes cache datas
      (Templates.initialLoadEffect cache data Templates.mount) in
  Templates.templates s = firstn shown cache
  /\ length (Templates.templates s) = Nat.min n shown
  /\ Templates.offset s = Nat.min n shown
  /\ TemplatesView.loadMoreShown s = (shown <? n)
  /\ TemplatesView.remaining s = Z.of_nat (n - shown)
  /\ (n <= shown -> Templates.templates s = cache).
Proof.
  intros Hne n shown s.
  destruct (TemplatesViewFacts.paged_state cache data datas Hne)
    as (W & Hq & Hoff).
  fold s in W, Hq, Hoff. fold n shown in Hoff.
  assert (Hvis : Templates.templates s = firstn shown cache).
  { rewrite (Templates.win_visible _ _ W), Hoff. fold n.
    rewrite Nat.min_comm. apply firstn_min_length. }
  assert (Hlen : length (Templates.templates s) = Nat.min n shown).
  { rewrite (PageScenario.window_length cache s W). exact Hoff. }
  split; [exact Hvis |]. split; [exact Hlen |]. split; [exact Hoff |].
  split; [| split].
  - unfold TemplatesView.loadMoreShown. rewrite Hq.
    cbn [Js.truthy_string negb andb].
    rewrite (Templates.win_more _ _ W), Hoff. fold n.
    destruct (Nat.ltb_spec shown n) as [H | H].
    + apply Nat.ltb_lt. lia.
    + apply Nat.ltb_ge. lia.
  - unfold TemplatesView.remaining.
    rewrite Hlen, (Templates.win_total _ _ W). fold n. lia.
  - intros Hall. rewrite Hvis. apply firstn_all2. exact Hall.
Qed.

(** X1, witness: a cache of sixty, the mount and two load-more calls. *)
Lemma X1_paging_closed_form_witness :
  length
    (Templates.templates
       (Templates.loadMoreTimes Fixtures.sixty
          [Js.Rejected "unused"; Js.Rejected "unused"]
          (Templates.initialLoadEffect Fixtures.sixty (Js.Rejected "unused")
             Templates.mount)))
  = 60
  /\ Templates.templates
       (Templates.loadMoreTimes Fixtures.sixty
          [Js.Rejected "unused"; Js.Rejected "unused"]
          (Templates.initialLoadEffect Fixtures.sixty (Js.Rejected "unused")
             Templates.mount))
     = Fixtures.sixty.
Proof.
  assert (Hne : Fixtures.sixty <> []) by (vm_compute; discriminate).
  assert (Hall : length Fixtures.sixty <= Templates.LIMIT * 3)
    by (vm_compute; lia).
  pose proof (X1_paging_closed_form Fixtures.sixty (Js.Rejected "unused")
                [Js.Rejected "unused"; Js.Rejected "unused"] Hne) as H.
  cbv zeta in H. destruct H as (_ & Hlen & _ & _ & _ & Hwhole).
  split; [exact Hlen | exact (Hwhole Hall)].
Defined.

(** X2. The Load More button is rendered only while the search box is
    empty, and [handleLoadMore] asks the backend only while it is not
    blank: whenever the button can be clicked, [handleLoadMore] takes
    the next slice of the cache and makes no backend call, whatever the
    backend would answer. Search results are never paged by it. *)
Theorem X2_load_more_button_is_cache_only
    (cache : list CaseTemplate)
    (d d' : Js.Settled (Response CaseTemplate)) (s : Templates.State) :
  TemplatesView.loadMoreShown s = true ->
  Templates.searching s = false
  /\ Templates.handleLoadMore cache d s = Templates.handleLoadMore cache d' s
  /\ Templates.templates (Templates.handleLoadMore cache d s)
     = Templates.templates s
       ++ firstn Templates.LIMIT (skipn (Templates.offset s) cache).
Proof.
  unfold TemplatesView.loadMoreShown. intros H.
  apply andb_prop in H. destruct H as [Hq _].
  apply negb_true_iff in Hq.
  assert (Hidle : Templates.searching s = false)
    by now apply TemplatesViewFacts.blank_is_not_searching.
  split; [exact Hidle |].
  unfold Templates.handleLoadMore. rewrite Hidle, slice_window.
  split; [reflexivity |].
  destruct (firstn Templates.LIMIT (skipn (Templates.offset s) cache))
    as [| x rest]; cbn [length Nat.ltb Nat.leb].
  - now rewrite app_nil_r.
  - reflexivity.
Qed.

(** X2, witness: sixty cached templates, the first page shown. *)
Lemma X2_load_more_button_witness :
  Templates.searching
    (Templates.initialLoadEffect Fixtures.sixty (Js.Rejected "unused")
       Templates.mount)
  = false.
Proof.
  exact (proj1
           (X2_load_more_button_is_cache_only Fixtures.sixty
              (Js.Rejected "unused") (Js.Rejected "unused")
              (Templates.initialLoadEffect Fixtures.sixty
                 (Js.Rejected "unused") Templates.mount)
              eq_refl)).
Defined.

(** X3. Typing a blank term (empty, or white space only) and letting the
    500 ms pass shows the first page of the cache again, whatever the
    list showed before (search results, more pages): the first [LIMIT]
    cached templates, [total] the size of the cache, and no backend
    call is made. *)
Theorem X3_blank_term_restores_first_page
    (cachedTemplates : list CaseTemplate)
    (backend : Templates.ApiCall -> Js.Settled (Response CaseTemplate))
    (rt : Templates.Runtime) (v : string) (T : Z) :
  Templates.well_formed rt ->
  Js.truthy_string (Js.trim v) = false ->
  (Templates.now rt + 500 <= T)%Z ->
  let final :=
    Templates.play cachedTemplates backend
      [Templates.Typed v; Templates.Wait T] rt in
  Templates.templates (Templates.view final)
  = firstn Templates.LIMIT cachedTemplates
  /\ Templates.total (Templates.view final) = length cachedTemplates
  /\ Templates.hasMore (Templates.view final)
     = (Templates.LIMIT <? length cachedTemplates)
  /\ Templates.offset (Templates.view final)
     = Nat.min Templates.LIMIT (length cachedTemplates)
  /\ Templates.searchQuery (Templates.view final) = v
  /\ Templates.calls final = Templates.calls rt
  /\ Templates.timers final = [].
Proof.
  intros Hwf Hblank HT final.
  assert (Hfinal : final
    = Templates.debouncedCallback cachedTemplates backend v
        (Templates.mkRuntime T [] (S (Templates.next_id rt))
           (Templates.calls rt) (Templates.fired rt)
           (Templates.setSearchTimeoutRef (Some (Templates.next_id rt))
              (Templates.setSearchQuery v (Templates.view rt))))).
  { unfold final, Templates.play. cbn [fold_left Templates.input].
    rewrite (DebounceFacts.keystroke_replaces v rt Hwf).
    erewrite DebounceFacts.wait_past_delay;
      [| reflexivity
       | cbn [Templates.now]; lia
       | cbn [Templates.timer_due]; lia].
    reflexivity. }
  rewrite Hfinal. unfold Templates.debouncedCallback. rewrite Hblank.
  cbn [Templates.view Templates.calls Templates.timers].
  unfold Templates.firstPageFromCache. rewrite slice_from_zero.
  cbn [Templates.templates Templates.total Templates.hasMore Templates.offset
       Templates.searchQuery Templates.setOffset Templates.setHasMore
       Templates.setTotal Templates.setTemplates
       Templates.setSearchTimeoutRef Templates.setSearchQuery].
  repeat split; try reflexivity. apply length_firstn.
Qed.

(** X3, witness: search results on screen, then the box is emptied. *)
Lemma X3_blank_term_witness :
  Templates.templates
    (Templates.view
       (Templates.play Fixtures.sixty (fun _ => Js.Fulfilled (BareArray []))
          [Templates.Typed "  "; Templates.Wait 500] (Templates.boot 0)))
  = firstn 25 Fixtures.sixty.
Proof.
  assert (Hwf : Templates.well_formed (Templates.boot 0))
    by (split; [apply Nat.lt_0_1 | left; reflexivity]).
  assert (HT : (Templates.now (Templates.boot 0) + 500 <= 500)%Z)
    by (cbn; discriminate).
  exact (proj1
           (X3_blank_term_restores_first_page Fixtures.sixty
              (fun _ => Js.Fulfilled (BareArray [])) (Templates.boot 0)
              "  " 500 Hwf eq_refl HT)).
Defined.

(** X4. The clear button of the template search box empties the query
    and shows the first page of the cache, but it does not cancel the
    pending debounce timer. Clicked within 500 ms of typing a non-blank
    term, it is followed by that timer's callback: one backend call with
    the term that was cleared, while the search box stays empty. The
    answer replaces the list, and in the render that follows the
    cache-resync effect runs again because [total] changed: it puts the
    first page of the cache back when the cache is not empty and its
    size differs from the number of rows answered; otherwise the rows
    answered for the cleared term stay on screen. *)
Theorem X4_clear_button_leaves_timer
    (cachedTemplates : list CaseTemplate)
    (backend : Templates.ApiCall -> Js.Settled (Response CaseTemplate))
    (rt : Templates.Runtime) (v : string) (T : Z)
    (arr : list CaseTemplate) :
  Templates.well_formed rt ->
  Js.truthy_string (Js.trim v) = true ->
  (Templates.now rt + 500 <= T)%Z ->
  backend (Templates.mkCall Templates.LIMIT 0 (Some (Js.trim v)))
  = Js.Fulfilled (BareArray arr) ->
  let clicked :=
    TemplatesRender.play cachedTemplates backend
      [TemplatesRender.Keystroke v; TemplatesRender.ClearButton] rt in
  let final := TemplatesRender.elapse cachedTemplates backend T clicked in
  let resynced :=
    (0 <? length cachedTemplates)
    && negb (length cachedTemplates =? length arr) in
  Templates.searchQuery (Templates.view clicked) = ""
  /\ Templates.templates (Templates.view clicked)
     = firstn Templates.LIMIT cachedTemplates
  /\ Templates.total (Templates.view clicked) = length cachedTemplates
  /\ Templates.timers clicked
     = [Templates.mkTimer (Templates.next_id rt)
          (Templates.now rt + 500)%Z v]
  /\ Templates.calls final
     = Templates.calls rt
       ++ [Templates.mkCall Templates.LIMIT 0 (Some (Js.trim v))]
  /\ Templates.timers final = []
  /\ Templates.searchQuery (Templates.view final) = ""
  /\ Templates.templates (Templates.view final)
     = (if resynced then firstn Templates.LIMIT cachedTemplates else arr)
  /\ Templates.total (Templates.view final)
     = (if resynced then length cachedTemplates else length arr).
Proof.
  intros Hwf Hterm HT Hanswer clicked final resynced.
  set (typed :=
         TemplatesSession.resync_after cachedTemplates (Templates.view rt)
           (Templates.setSearchTimeoutRef (Some (Templates.next_id rt))
              (Templates.setSearchQuery v (Templates.view rt)))).
  set (shown :=
         TemplatesSession.resync_after cachedTemplates typed
           (Templates.firstPageFromCache cachedTemplates
              (Templates.setSearchQuery "" typed))).
  assert (Htyped : Templates.searchQuery typed = v).
  { unfold typed.
    now rewrite (proj1 (RenderFacts.resync_frame cachedTemplates _ _)). }
  assert (Hclicked : clicked
    = Templates.mkRuntime (Templates.now rt)
        [Templates.mkTimer (Templates.next_id rt)
           (Templates.now rt + 500)%Z v]
        (S (Templates.next_id rt)) (Templates.calls rt) (Templates.fired rt)
        shown).
  { unfold clicked, TemplatesRender.play.
    cbn [fold_left TemplatesRender.input].
    rewrite (RenderFacts.rendered_keystroke cachedTemplates v rt Hwf).
    unfold TemplatesRender.clearButton. cbn [Templates.view].
    fold typed. rewrite Htyped.
    rewrite (RenderFacts.term_not_empty v Hterm). reflexivity. }
  destruct (RenderFacts.first_page_settled cachedTemplates typed
              (Templates.setSearchQuery "" typed))
    as (Stemplates & Stotal & _ & _).
  fold shown in Stemplates, Stotal.
  assert (Squery : Templates.searchQuery shown = "").
  { unfold shown.
    now rewrite (proj1 (RenderFacts.resync_frame cachedTemplates _ _)). }
  assert (Hfinal : final
    = TemplatesRender.timeout cachedTemplates backend v
        (Templates.mkRuntime T [] (S (Templates.next_id rt))
           (Templates.calls rt) (Templates.fired rt) shown)).
  { unfold final. rewrite Hclicked.
    erewrite RenderFacts.elapse_past_delay;
      [| reflexivity
       | cbn [Templates.now]; lia
       | cbn [Templates.timer_due]; lia].
    reflexivity. }
  destruct (RenderFacts.timeout_effect cachedTemplates backend v
              (Templates.mkRuntime T [] (S (Templates.next_id rt))
                 (Templates.calls rt) (Templates.fired rt) shown))
    as (Ft & _ & Fc & Fq & _).
  rewrite <- Hfinal in Ft, Fc, Fq.
  cbn [Templates.timers Templates.calls Templates.view] in Ft, Fc, Fq.
  rewrite Hterm in Fc.
  split; [rewrite Hclicked; exact Squery |].
  split; [rewrite Hclicked; exact Stemplates |].
  split; [rewrite Hclicked; exact Stotal |].
  split; [rewrite Hclicked; reflexivity |].
  split; [exact Fc |].
  split; [exact Ft |].
  split; [rewrite Fq; exact Squery |].
  assert (Hview : Templates.view final
    = TemplatesSession.resync_after cachedTemplates shown
        (Templates.loadTemplatesFromAPI true (Some (Js.trim v))
           (Js.Fulfilled (BareArray arr)) shown)).
  { rewrite Hfinal. unfold TemplatesRender.timeout, TemplatesRender.render,
      Templates.debouncedCallback.
    rewrite Hterm. cbn [Templates.view].
    change (Templates.loadTemplatesFromAPI_call true (Some (Js.trim v)) shown)
      with (Templates.mkCall Templates.LIMIT 0 (Some (Js.trim v))).
    now rewrite Hanswer. }
  rewrite Hview.
  unfold TemplatesSession.resync_after, TemplatesSession.same_deps,
    Templates.cacheResyncEffect, Templates.searching.
  cbn [Templates.loadTemplatesFromAPI Templates.loadTemplatesFromAPI_settle
       Templates.loadTemplatesFromAPI_begin Templates.total
       Templates.searchQuery Templates.hasInitialized Templates.templates
       Templates.setLoadingMore Templates.setLoading
       Templates.setHasInitialized Templates.setOffset Templates.setTotal
       Templates.setHasMore Templates.setTemplates negb].
  rewrite Stotal, Squery. cbn [String.eqb Js.trim Js.trim_start Js.trim_end
                                Js.truthy_string].
  rewrite andb_true_r. unfold resynced.
  destruct (length cachedTemplates =? length arr) eqn:Esize; cbn [negb].
  - rewrite andb_false_r. split; reflexivity.
  - destruct (0 <? length cachedTemplates); cbn [andb];
      [| split; reflexivity].
    unfold Templates.firstPageFromCache. rewrite slice_from_zero.
    split; reflexivity.
Qed.

(** X4, witness: sixty templates cached, "visa" typed, the box cleared
    at once, the backend answering with one template: half a second
    later the list shows the first page of the cache again. *)
Lemma X4_clear_button_witness :
  Templates.templates
    (Templates.view
       (TemplatesRender.elapse Fixtures.sixty
          (fun _ => Js.Fulfilled (BareArray [mkTemplate "t9" "Work visa"]))
          500
          (TemplatesRender.play Fixtures.sixty
             (fun _ => Js.Fulfilled (BareArray [mkTemplate "t9" "Work visa"]))
             [TemplatesRender.Keystroke "visa"; TemplatesRender.ClearButton]
             (Templates.boot 0))))
  = firstn 25 Fixtures.sixty.
Proof.
  assert (Hwf : Templates.well_formed (Templates.boot 0))
    by (split; [apply Nat.lt_0_1 | left; reflexivity]).
  assert (HT : (Templates.now (Templates.boot 0) + 500 <= 500)%Z)
    by (cbn; discriminate).
  exact (proj1 (proj2 (proj2 (proj2 (proj2 (proj2 (proj2 (proj2
           (X4_clear_button_leaves_timer Fixtures.sixty
              (fun _ => Js.Fulfilled (BareArray [mkTemplate "t9" "Work visa"]))
              (Templates.boot 0) "visa" 500 [mkTemplate "t9" "Work visa"]
              Hwf eq_refl HT eq_refl))))))))).
Defined.

(** X5. The cleanup run when the template list unmounts cancels the
    pending debounce timer: however long one waits afterwards, no
    callback runs, no backend call is made and the view state is left
    as it was. *)
Theorem X5_unmount_cancels_pending_search
    (cachedTemplates : list CaseTemplate)
    (backend : Templates.ApiCall -> Js.Settled (Response CaseTemplate))
    (rt : Templates.Runtime) (T : Z) :
  Templates.well_formed rt ->
  let after :=
    Templates.advance cachedTemplates backend T (TemplatesView.cleanup rt) in
  Templates.timers (TemplatesView.cleanup rt) = []
  /\ Templates.calls after = Templates.calls rt
  /\ Templates.fired after = Templates.fired rt
  /\ Templates.view after = Templates.view rt.
Proof.
  intros [Hid [Hq | (tm & Ht & Href & Htm)]] after.
  - assert (Hc : Templates.timers (TemplatesView.cleanup rt) = []
                 /\ Templates.calls (TemplatesView.cleanup rt)
                    = Templates.calls rt
                 /\ Templates.fired (TemplatesView.cleanup rt)
                    = Templates.fired rt
                 /\ Templates.view (TemplatesView.cleanup rt)
                    = Templates.view rt).
    { unfold TemplatesView.cleanup.
      destruct (Js.truthy_handle (Templates.searchTimeoutRef (Templates.view rt)));
        [destruct (Templates.searchTimeoutRef (Templates.view rt)) |];
        cbn [Templates.timers Templates.calls Templates.fired Templates.view];
        rewrite ?Hq; repeat split; reflexivity. }
    destruct Hc as (Ht & Hcalls & Hfired & Hview).
    split; [exact Ht |].
    unfold after, Templates.advance. rewrite Ht. cbn [filter fold_left].
    cbn [Templates.calls Templates.fired Templates.view].
    repeat split; assumption.
  - assert (Hc : TemplatesView.cleanup rt
                 = Templates.mkRuntime (Templates.now rt) []
                     (Templates.next_id rt) (Templates.calls rt)
                     (Templates.fired rt) (Templates.view rt)).
    { unfold TemplatesView.cleanup. rewrite Href, Ht.
      destruct (Templates.timer_id tm) as [| id'] eqn:E; [lia |].
      cbn [Js.truthy_handle Templates.clearTimeout filter]. rewrite E.
      rewrite Nat.eqb_refl. reflexivity. }
    rewrite Hc. split; [reflexivity |].
    unfold after. rewrite Hc. unfold Templates.advance.
    cbn [Templates.timers filter fold_left Templates.calls Templates.fired
         Templates.view].
    repeat split; reflexivity.
Qed.

(** X5, witness: "visa" typed, the list unmounted before the delay. *)
Lemma X5_unmount_witness :
  Templates.calls
    (Templates.advance [] (fun _ => Js.Fulfilled (BareArray [])) 5000
       (TemplatesView.cleanup (Templates.onChange "visa" (Templates.boot 0))))
  = [].
Proof.
  assert (Hwf : Templates.well_formed
                  (Templates.onChange "visa" (Templates.boot 0))).
  { split; [cbn; lia |]. right.
    exists (Templates.mkTimer 1 500 "visa").
    repeat split; cbn; lia. }
  exact (proj1 (proj2
           (X5_unmount_cancels_pending_search []
              (fun _ => Js.Fulfilled (BareArray []))
              (Templates.onChange "visa" (Templates.boot 0)) 5000 Hwf))).
Defined.

(** X6. Paging through the backend keeps [offset] equal to the number
    of rows shown: if it is so before a call of [loadTemplatesFromAPI]
    and the answer carries a collection (a bare array, or an object with
    its [templates] field), it is so after the call, on a reset and on a
    load-more alike; the next load-more then asks for the rows after the
    ones shown. *)
Theorem X6_backend_paging_keeps_offset
    (reset : bool) (searchTerm : option string)
    (d : Response CaseTemplate) (s : Templates.State) :
  Templates.offset s = length (Templates.templates s) ->
  TemplatesView.carries_page d = true ->
  let s' := Templates.loadTemplatesFromAPI reset searchTerm (Js.Fulfilled d) s in
  Templates.offset s' = length (Templates.templates s')
  /\ Templates.call_offset
       (Templates.loadTemplatesFromAPI_call false searchTerm s')
     = length (Templates.templates s').
Proof.
  intros Hinv Hcarries.
  assert (H : Templates.offset
                (Templates.loadTemplatesFromAPI reset searchTerm
                   (Js.Fulfilled d) s)
              = length
                  (Templates.templates
                     (Templates.loadTemplatesFromAPI reset searchTerm
                        (Js.Fulfilled d) s))).
  { destruct d as [arr | [page |] tot more]; [| | discriminate];
      destruct reset; cbn; rewrite ?length_app, ?Hinv; reflexivity. }
  split; [exact H | exact H].
Qed.

(** X6, witness: a second page of two appended to a first page of one. *)
Lemma X6_backend_paging_witness :
  Templates.offset
    (Templates.loadTemplatesFromAPI false (Some "visa")
       (Js.Fulfilled
          (PageObject (Some [mkTemplate "t2" "b"; mkTemplate "t3" "c"])
             (Some 3) (Some false)))
       (Templates.loadTemplatesFromAPI true (Some "visa")
          (Js.Fulfilled
             (PageObject (Some [mkTemplate "t1" "a"]) (Some 3) (Some true)))
          Templates.mount))
  = 3.
Proof.
  exact (proj1
           (X6_backend_paging_keeps_offset false (Some "visa")
              (PageObject (Some [mkTemplate "t2" "b"; mkTemplate "t3" "c"])
                 (Some 3) (Some false))
              (Templates.loadTemplatesFromAPI true (Some "visa")
                 (Js.Fulfilled
                    (PageObject (Some [mkTemplate "t1" "a"]) (Some 3)
                       (Some true)))
                 Templates.mount)
              eq_refl eq_refl)).
Defined.

(** ** Further properties of the client list *)

(** X7. A reload of the client list that fails ([loadClients(true)]
    rejected) keeps the rows, [total] and [hasMore], but has already set
    [offset] to 0. The next Load More therefore asks the backend for
    offset 0 again and appends what it gets to the rows already shown:
    the list then holds more rows than [offset] says. *)
Theorem X7_failed_reload_then_load_more
    (e : string) (page : list Client) (tot : option nat)
    (more : option bool) (s : Clients.State) :
  let failed := Clients.loadClients true (Js.Rejected e) s in
  let next :=
    ClientsView.handleLoadMore
      (Js.Fulfilled (PageObject (Some page) tot more)) failed in
  Clients.clients failed = Clients.clients s
  /\ Clients.total failed = Clients.total s
  /\ Clients.hasMore failed = Clients.hasMore s
  /\ Clients.loading failed = false
  /\ Clients.offset failed = 0
  /\ ClientsView.loadClients_call false failed
     = Templates.mkCall Clients.LIMIT 0 (Clients.searchTerm s)
  /\ Clients.clients next = Clients.clients s ++ page
  /\ Clients.offset next = length page
  /\ length (Clients.clients next)
     = length (Clients.clients s) + Clients.offset next.
Proof.
  cbv zeta. repeat split; try reflexivity.
  cbn. now rewrite length_app.
Qed.

(** X8. In the client list a keystroke records the query and throws
    before any reload is scheduled, so typing a term never searches. The
    clear button, shown as soon as the query is not empty, calls
    [loadClients(true)] of the render it belongs to: the one backend
    call the search box leads to carries the term that is being
    cleared, and leaves the box empty. *)
Theorem X8_clients_search_runs_on_clear
    (value : string) (rt : Clients.Runtime)
    (data : Js.Settled (Response Client)) :
  Js.truthy_string (Js.trim value) = true ->
  let typed := snd (Clients.onChange value rt) in
  let cleared := ClientsView.clearSearch data (Clients.view typed) in
  Clients.timers typed = Clients.timers rt
  /\ ClientsView.clearShown (Clients.view typed) = true
  /\ ClientsView.loadMoreShown (Clients.view typed) = false
  /\ fst cleared = Templates.mkCall Clients.LIMIT 0 (Some (Js.trim value))
  /\ Clients.searchQuery (snd cleared) = "".
Proof.
  intros Hterm typed cleared.
  assert (Hq : Js.truthy_string value = true).
  { destruct (Js.truthy_string value) eqn:E; [reflexivity |].
    rewrite (TemplatesViewFacts.blank_is_not_searching value E) in Hterm.
    discriminate. }
  unfold cleared, typed. rewrite ClientsFacts.onChange_throws.
  cbn [snd Clients.view Clients.with_view Clients.timers].
  unfold ClientsView.clearShown, ClientsView.loadMoreShown,
    ClientsView.clearSearch, ClientsView.loadClients_call, Clients.searchTerm.
  cbn [fst snd Clients.searchQuery Clients.setSearchQuery].
  rewrite Hq, Hterm. repeat split; reflexivity.
Qed.

(** X8, witness: "ana" typed into the client search box, then cleared. *)
Lemma X8_clients_search_witness :
  fst (ClientsView.clearSearch (Js.Rejected "offline")
         (Clients.view
            (snd (Clients.onChange "ana"
                    (Clients.mkRuntime 0 [] 1 None Clients.mount)))))
  = Templates.mkCall 25 0 (Some "ana").
Proof.
  exact (proj1 (proj2 (proj2 (proj2
           (X8_clients_search_runs_on_clear "ana"
              (Clients.mkRuntime 0 [] 1 None Clients.mount)
              (Js.Rejected "offline") eq_refl))))).
Defined.

Module ReloaderFacts.

Import ClientsView.

Lemma attached_settled : settled attached.
Proof.
  repeat split. now left.
Qed.

(** Clearing [reloadTimeout] empties the queue. *)
Lemma dropTimeout_settled (r : Reloader) :
  settled r -> dropTimeout r = [].
Proof.
  intros (_ & _ & [Hp | (id & due & Hp & Href & _)]); unfold dropTimeout.
  - rewrite Hp. now destruct (reloadTimeout r).
  - rewrite Href, Hp. cbn [filter fst]. now rewrite Nat.eqb_refl.
Qed.

Lemma schedule_settled (t : Z) (r : Reloader) :
  settled r ->
  (RELOAD_DEBOUNCE_MS < t - lastReloadTime r)%Z ->
  settled (schedule t r).
Proof.
  intros Hs Hgap. pose proof (dropTimeout_settled r Hs) as Hdrop.
  destruct Hs as (Hlast & Hsp & _).
  unfold schedule. rewrite Hdrop.
  repeat split; cbn [lastReloadTime reloads pending reloadTimeout];
    try assumption.
  right. exists (fresh r), (t + 500)%Z.
  repeat split. unfold RELOAD_DEBOUNCE_MS in Hgap. lia.
Qed.

Lemma elapse_settled (t : Z) (r : Reloader) :
  settled r -> settled (elapse t r).
Proof.
  intros (Hlast & Hsp & [Hp | (id & due & Hp & Href & Hdue)]);
    unfold elapse; rewrite Hp; cbn [filter snd].
  - cbn [fold_left]. repeat split; cbn; try assumption. now left.
  - destruct (Z.leb_spec due t) as [Hle | Hgt]; cbn [negb fold_left].
    + unfold reloadCallback.
      cbn [lastReloadTime reloadTimeout pending fresh reloads listening].
      repeat split; cbn [lastReloadTime reloads pending hd spaced];
        try assumption.
      * rewrite <- Hlast. lia.
      * now left.
    + repeat split; cbn [lastReloadTime reloads pending]; try assumption.
      right. exists id, due. repeat split; assumption.
Qed.

Lemma unmount_settled (r : Reloader) : settled r -> settled (unmount r).
Proof.
  intros Hs. pose proof (dropTimeout_settled r Hs) as Hdrop.
  destruct Hs as (Hlast & Hsp & _). unfold unmount. rewrite Hdrop.
  repeat split; cbn; try assumption. now left.
Qed.

Lemma step_settled (r : Reloader) (ev : Event) :
  settled r -> settled (step r ev).
Proof.
  intros Hs. destruct ev as [t | visible t | t |]; cbn [step].
  - destruct (listening r); [| assumption]. unfold handleFocus.
    destruct (Z.ltb_spec RELOAD_DEBOUNCE_MS (t - lastReloadTime r));
      [now apply schedule_settled | assumption].
  - destruct (listening r); [| assumption]. unfold handleVisibilityChange.
    destruct visible; [| assumption].
    destruct (Z.ltb_spec RELOAD_DEBOUNCE_MS (t - lastReloadTime r));
      [now apply schedule_settled | assumption].
  - now apply elapse_settled.
  - now apply unmount_settled.
Qed.

Lemma run_settled (evs : list Event) :
  forall r, settled r -> settled (run evs r).
Proof.
  unfold run. induction evs as [| ev evs IH]; intros r Hs; cbn [fold_left].
  - assumption.
  - apply IH. now apply step_settled.
Qed.

(** With no timer pending and no listener attached nothing happens. *)
Lemma detached_idle (evs : list Event) :
  forall r,
    pending r = [] -> listening r = false ->
    reloads (run evs r) = reloads r /\ pending (run evs r) = [].
Proof.
  unfold run. induction evs as [| ev evs IH]; intros r Hp Hl;
    cbn [fold_left].
  - now split.
  - assert (Hstep : pending (step r ev) = []
                    /\ listening (step r ev) = false
                    /\ reloads (step r ev) = reloads r).
    { destruct ev as [t | visible t | t |]; cbn [step]; rewrite ?Hl.
      - repeat split; assumption.
      - repeat split; assumption.
      - unfold elapse. rewrite Hp. cbn. repeat split. exact Hl.
      - unfold unmount, dropTimeout. rewrite Hp.
        destruct (reloadTimeout r); cbn; repeat split. }
    destruct Hstep as (Hp' & Hl' & Hr').
    destruct (IH (step r ev) Hp' Hl') as (Hr & Hq).
    split; [now rewrite Hr | exact Hq].
Qed.

End ReloaderFacts.

(** X9. The reload of the client list on focus and on visibility is
    throttled: whatever focus and visibility events arrive and whenever
    the timers fire, at most one reload timer is pending at any moment,
    and the calls of [loadClients()] made by the effect are more than
    2500 ms apart (the 2000 ms cooldown plus the 500 ms delay), the
    first of them more than 2500 ms after time 0. A burst of three
    events within 500 ms of each other gives one reload, 500 ms after
    the last of them, and a focus 100 ms after that reload gives none. *)
Theorem X9_focus_reload_is_throttled (evs : list ClientsView.Event) :
  let r := ClientsView.run evs ClientsView.attached in
  ClientsView.spaced 2500 (ClientsView.reloads r)
  /\ length (ClientsView.pending r) <= 1
  /\ ClientsView.lastReloadTime r = hd 0%Z (ClientsView.reloads r)
  /\ ClientsView.reloads
       (ClientsView.run
          [ClientsView.Focus 10000; ClientsView.Focus 10200;
           ClientsView.VisibilityChange true 10400;
           ClientsView.Elapse 10900; ClientsView.Focus 11000;
           ClientsView.Elapse 20000]
          ClientsView.attached)
     = [10900%Z].
Proof.
  intros r. rewrite <- !and_assoc. split; [| reflexivity].
  rewrite !and_assoc.
  destruct (ReloaderFacts.run_settled evs ClientsView.attached
              ReloaderFacts.attached_settled)
    as (Hlast & Hsp & Hp).
  fold r in Hlast, Hsp, Hp.
  split; [exact Hsp |]. split; [| exact Hlast].
  destruct Hp as [Hp | (id & due & Hp & _)]; rewrite Hp; cbn; lia.
Qed.

(** X10. Once the client list is unmounted the effect reloads nothing:
    its cleanup cancels the pending timer and removes both listeners,
    so no later focus, visibility or timer event calls [loadClients()]. *)
Theorem X10_no_reload_after_unmount
    (before after : list ClientsView.Event) :
  let r := ClientsView.run before ClientsView.attached in
  let r' :=
    ClientsView.run after (ClientsView.step r ClientsView.Unmount) in
  ClientsView.reloads r' = ClientsView.reloads r
  /\ ClientsView.pending r' = [].
Proof.
  intros r r'.
  pose proof (ReloaderFacts.run_settled before ClientsView.attached
                ReloaderFacts.attached_settled) as Hs.
  fold r in Hs.
  pose proof (ReloaderFacts.dropTimeout_settled r Hs) as Hdrop.
  destruct (ReloaderFacts.detached_idle after
              (ClientsView.step r ClientsView.Unmount)) as (Hr & Hp).
  - cbn [ClientsView.step]. unfold ClientsView.unmount.
    cbn [ClientsView.pending]. exact Hdrop.
  - reflexivity.
  - split; [exact Hr | exact Hp].
Qed.

(** ** Further properties of the session data cache *)


(** X12. A [loadAllData] whose three fetches succeed replaces the three
    collections by what was fetched, records the time as Fetch
    Timestamp, clears [loading] and fulfils its promise. Of the
    templates and of the clients it stores the array itself when the
    answer is an array, the collection field of an object that has one,
    and the empty collection for an object without it: such an answer
    empties a cache that held entries. The reminders are stored as they
    come. *)
Theorem X12_loadAll_success
    (user : string) (t : Response CaseTemplate) (c : Response Client)
    (r : list Reminder)
    (fetchedTemplates : list CaseTemplate) (fetchedClients : list Client)
    (tot : option nat) (more : option bool)
    (now : Z) (s : DataContext.State) :
  let run_with t c :=
    DataContext.run
      (DataContext.loadAllData (Some user) (Js.Fulfilled t) (Js.Fulfilled c)
         (Js.Fulfilled r) now) s in
  let load t c := DataContext.cells (snd (run_with t c)) in
  DataContext.templates (load (BareArray fetchedTemplates) c)
  = fetchedTemplates
  /\ DataContext.templates
       (load (PageObject (Some fetchedTemplates) tot more) c)
     = fetchedTemplates
  /\ DataContext.templates (load (PageObject None tot more) c) = []
  /\ DataContext.clients (load t (BareArray fetchedClients)) = fetchedClients
  /\ DataContext.clients
       (load t (PageObject (Some fetchedClients) tot more))
     = fetchedClients
  /\ DataContext.clients (load t (PageObject None tot more)) = []
  /\ DataContext.reminders (load t c) = r
  /\ DataContext.loading (load t c) = false
  /\ DataContext.lastFetchTime (load t c) = Some now
  /\ DataContext.isInitialized (load t c) = DataContext.isInitialized s
  /\ load (BareArray fetchedTemplates) (BareArray fetchedClients)
     = DataContext.mkState fetchedClients fetchedTemplates r false
         (Some now) (DataContext.isInitialized s)
  /\ fst (run_with t c) = Js.Fulfilled tt
  /\ DataContext.isStale_default now (load t c)
     = negb (Js.truthy_time (Some now)).
Proof.
  cbv zeta. repeat split; try reflexivity.
  unfold DataContext.isStale_default, DataContext.isStale.
  cbn [DataContext.run DataContext.cells snd DataContext.lastFetchTime].
  change (DataContext.lastFetchTime _) with (Some now).
  destruct (Js.truthy_time (Some now)) eqn:E; cbn [negb]; [| reflexivity].
  apply Z.ltb_ge. unfold DataContext.CACHE_DURATION. lia.
Qed.

(** X13. Staleness only grows with time and shrinks with the allowed
    age: a cache that [isStale] reports stale at some moment for some
    [maxAge] is reported stale at every later moment and for every
    smaller [maxAge], as long as its Fetch Timestamp is not renewed. *)
Theorem X13_stale_stays_stale
    (s : DataContext.State) (now now' maxAge maxAge' : Z) :
  (now <= now')%Z ->
  (maxAge' <= maxAge)%Z ->
  DataContext.isStale now maxAge s = true ->
  DataContext.isStale now' maxAge' s = true.
Proof.
  unfold DataContext.isStale. intros Hnow Hage.
  destruct (Js.truthy_time (DataContext.lastFetchTime s)); cbn [negb];
    [| reflexivity].
  destruct (DataContext.lastFetchTime s) as [t |]; [| reflexivity].
  rewrite !Z.ltb_lt. lia.
Qed.

(** X13, witness: stale after six minutes, still stale after seven. *)
Lemma X13_stale_stays_stale_witness :
  DataContext.isStale 421000 300000
    (DataContext.mkState [] [] [] false (Some 1000%Z) true)
  = true.
Proof.
  assert (Hnow : (361000 <= 421000)%Z) by discriminate.
  assert (Hage : (300000 <= 300000)%Z) by discriminate.
  exact (X13_stale_stays_stale
           (DataContext.mkState [] [] [] false (Some 1000%Z) true)
           361000 421000 300000 300000 Hnow Hage eq_refl).
Defined.

Module ProviderRunFacts.

Import Js DataContext ProviderRuns.

(** Only a [checkUser()] that finds a user changes [isInitialized], and
    it sets it. *)
Lemma step_isInitialized (p : Provider) (ev : Event) :
  isInitialized (data (step p ev))
  = isInitialized (data p) || starts_login_load p ev.
Proof.
  rewrite ProviderFacts.step_data.
  destruct ev as [u | now u | u | t c r now | d now | d now | d now |];
    cbn [handle starts_login_load].
  - destruct (isInitialized (data p)) eqn:E.
    + rewrite E. now destruct u.
    + destruct u; cbn; rewrite ?E; reflexivity.
  - rewrite orb_false_r. destruct (checkInterval p); [| reflexivity].
    unfold checkStale. destruct (isStale_default now (data p));
      [| reflexivity].
    destruct u; reflexivity.
  - rewrite orb_false_r. destruct u; reflexivity.
  - rewrite orb_false_r. destruct (inFlight p); [reflexivity |].
    cbn [data]. unfold loadAllData_settle.
    destruct (promise_all t c r) as [[[tv cv] rv] | e]; reflexivity.
  - rewrite orb_false_r. destruct d; reflexivity.
  - rewrite orb_false_r. destruct d; reflexivity.
  - rewrite orb_false_r. destruct d; reflexivity.
  - rewrite orb_false_r. reflexivity.
Qed.

Lemma login_loads_count (evs : list Event) :
  forall p,
    isInitialized (data (steps evs p))
    = isInitialized (data p) || (0 <? login_loads evs p)
    /\ login_loads evs p
       <= (if isInitialized (data p) then 0 else 1).
Proof.
  induction evs as [| ev evs IH]; intros p.
  - cbn. rewrite orb_false_r. split; [reflexivity |].
    destruct (isInitialized (data p)); lia.
  - change (steps (ev :: evs) p) with (steps evs (step p ev)).
    cbn [login_loads]. destruct (IH (step p ev)) as (Hinit & Hcount).
    rewrite step_isInitialized in Hinit, Hcount.
    destruct (isInitialized (data p)) eqn:Ep.
    + assert (Hs : starts_login_load p ev = false).
      { destruct ev as [[u |] | | | | | | |]; cbn; rewrite ?Ep; reflexivity. }
      rewrite Hs in *. cbn [orb] in *. split; [exact Hinit | lia].
    + destruct (starts_login_load p ev); cbn [orb] in *.
      * split; [exact Hinit | lia].
      * split; [exact Hinit | lia].
Qed.

(** An event with nobody signed in starts no fetch and leaves the
    collections. *)
Lemma signed_out_step (p : Provider) (ev : Event) :
  signed_out ev = true ->
  inFlight (step p ev) = inFlight p
  /\ clients (data (step p ev)) = clients (data p)
  /\ templates (data (step p ev)) = templates (data p)
  /\ reminders (data (step p ev)) = reminders (data p).
Proof.
  intros Hev.
  destruct ev as [[u |] | now [u |] | [u |] | t c r now | d now | d now
                  | d now |]; try discriminate;
    unfold step, autoRefreshEffect; cbn [handle].
  - destruct (isInitialized (data p)); repeat split; reflexivity.
  - destruct (checkInterval p); [| repeat split; reflexivity].
    unfold checkStale. destruct (isStale_default now (data p));
      repeat split; reflexivity.
  - repeat split; reflexivity.
  - repeat split; reflexivity.
Qed.

End ProviderRunFacts.

(** X14. The initial-load effect loads once: in every run of the
    provider from its mount in which each event is followed by its
    render, the [checkUser()] calls of that effect
    start at most one [loadAllData()], [isInitialized] is true exactly
    when that one has been started, and once true it stays true through
    every later event (nothing, not even the absence of a user, sets it
    back). *)
Theorem X14_login_load_happens_once
    (evs later : list DataContext.Event) :
  let p := DataContext.steps evs DataContext.mounted in
  ProviderRuns.login_loads evs DataContext.mounted <= 1
  /\ DataContext.isInitialized (DataContext.data p)
     = (0 <? ProviderRuns.login_loads evs DataContext.mounted)
  /\ (DataContext.isInitialized (DataContext.data p) = true ->
      DataContext.isInitialized
        (DataContext.data (DataContext.steps later p))
      = true
      /\ ProviderRuns.login_loads later p = 0).
Proof.
  intros p.
  destruct (ProviderRunFacts.login_loads_count evs DataContext.mounted)
    as (Hinit & Hcount).
  fold p in Hinit. cbn in Hinit, Hcount.
  split; [exact Hcount |]. split; [exact Hinit |].
  intros Hp.
  destruct (ProviderRunFacts.login_loads_count later p) as (Hinit' & Hcount').
  rewrite Hp in Hinit', Hcount'. cbn [orb] in Hinit'.
  split; [exact Hinit' | lia].
Qed.

(** X14, witness: signed in at the second poll; later polls, a sign-out
    and a tick leave the provider initialized. *)
Lemma X14_login_load_witness :
  DataContext.isInitialized
    (DataContext.data
       (DataContext.steps
          [DataContext.CheckUser (Some "agent"); DataContext.CheckUser None;
           DataContext.Tick 400000%Z None]
          (DataContext.steps
             [DataContext.CheckUser None; DataContext.CheckUser (Some "agent")]
             DataContext.mounted)))
  = true.
Proof.
  exact (proj1
           (proj2 (proj2
              (X14_login_load_happens_once
                 [DataContext.CheckUser None;
                  DataContext.CheckUser (Some "agent")]
                 [DataContext.CheckUser (Some "agent");
                  DataContext.CheckUser None;
                  DataContext.Tick 400000%Z None]))
              eq_refl)).
Defined.

(** X15. With nobody signed in the cache fetches nothing and forgets
    nothing: through any run of user checks, interval ticks,
    [refreshAll] calls and invalidations that find no user, no
    [loadAllData] gets in flight and the three collections stay as they
    were. In particular nothing empties the cache when the user signs
    out. *)
Theorem X15_signed_out_keeps_cache
    (evs : list DataContext.Event) (p : DataContext.Provider) :
  forallb ProviderRuns.signed_out evs = true ->
  let q := DataContext.steps evs p in
  DataContext.inFlight q = DataContext.inFlight p
  /\ DataContext.clients (DataContext.data q)
     = DataContext.clients (DataContext.data p)
  /\ DataContext.templates (DataContext.data q)
     = DataContext.templates (DataContext.data p)
  /\ DataContext.reminders (DataContext.data q)
     = DataContext.reminders (DataContext.data p).
Proof.
  revert p. induction evs as [| ev evs IH]; intros p Hall; cbv zeta.
  - repeat split.
  - cbn [forallb] in Hall. apply andb_prop in Hall.
    destruct Hall as [Hev Hrest].
    change (DataContext.steps (ev :: evs) p)
      with (DataContext.steps evs (DataContext.step p ev)).
    destruct (ProviderRunFacts.signed_out_step p ev Hev)
      as (Hf & Hc & Ht & Hr).
    destruct (IH (DataContext.step p ev) Hrest) as (Hf' & Hc' & Ht' & Hr').
    repeat split; congruence.
Qed.

(** X15, witness: a loaded cache, then a stale tick and a refresh with
    nobody signed in. *)
Lemma X15_signed_out_witness :
  DataContext.templates
    (DataContext.data
       (DataContext.steps
          [DataContext.Tick 400000%Z None; DataContext.RefreshAll None;
           DataContext.InvalidateCache]
          (DataContext.mkProvider
             (DataContext.mkState [] [mkTemplate "t1" "Family visa"] []
                false (Some 1000%Z) true)
             true 0 0)))
  = [mkTemplate "t1" "Family visa"].
Proof.
  exact (proj1 (proj2 (proj2
           (X15_signed_out_keeps_cache
              [DataContext.Tick 400000%Z None; DataContext.RefreshAll None;
               DataContext.InvalidateCache]
              (DataContext.mkProvider
                 (DataContext.mkState [] [mkTemplate "t1" "Family visa"] []
                    false (Some 1000%Z) true)
                 true 0 0)
              eq_refl)))).
Defined.

(** ** Properties of the API client *)

Module ApiClientFacts.

Import Js ApiClient.

Lemma strip_no_trailing_slash (s : string) :
  ends_with_slash (strip_trailing_slashes s) = false.
Proof.
  induction s as [| c rest IH]; cbn [strip_trailing_slashes].
  - reflexivity.
  - destruct (strip_trailing_slashes rest) as [| c' kept].
    + destruct (Ascii.eqb c "/"%char) eqn:E; cbn [ends_with_slash];
        [reflexivity | exact E].
    + exact IH.
Qed.

Lemma strip_fixed (s : string) :
  ends_with_slash s = false -> strip_trailing_slashes s = s.
Proof.
  induction s as [| c rest IH]; intros H; cbn [strip_trailing_slashes].
  - reflexivity.
  - destruct rest as [| c' rest'].
    + cbn [strip_trailing_slashes]. cbn [ends_with_slash] in H.
      now rewrite H.
    + rewrite IH by exact H. reflexivity.
Qed.

Lemma strip_decomposition (s : string) :
  exists k, s = (strip_trailing_slashes s ++ slashes k)%string.
Proof.
  induction s as [| c rest [k IH]]; cbn [strip_trailing_slashes].
  - now exists 0.
  - destruct (strip_trailing_slashes rest) as [| c' kept].
    + cbn [append] in IH. destruct (Ascii.eqb_spec c "/"%char) as [-> | _].
      * exists (S k). cbn [append slashes]. now rewrite IH.
      * exists k. cbn [append]. now rewrite IH.
    + exists k. cbn [append]. rewrite IH at 1. reflexivity.
Qed.

Lemma strip_slashes (k : nat) : strip_trailing_slashes (slashes k) = "".
Proof.
  induction k as [| k IH]; cbn [slashes strip_trailing_slashes].
  - reflexivity.
  - now rewrite IH.
Qed.

Lemma strip_appended_slashes (s : string) (k : nat) :
  strip_trailing_slashes (s ++ slashes k) = strip_trailing_slashes s.
Proof.
  induction s as [| c rest IH]; cbn [append].
  - apply strip_slashes.
  - cbn [strip_trailing_slashes]. now rewrite IH.
Qed.


End ApiClientFacts.

(** X16. The base URL never ends with a slash, so that
    [`${API_URL}/case-templates`] has no doubled slash at the joint. For
    a configured value that is not empty it is that value without the
    slashes it ends with, and nothing else removed: the value is the
    base URL followed by slashes only, and a value made of a part that
    does not end with a slash, followed by any number of slashes, gives
    that part. It is ["/api"] when the variable is unset or empty, and
    the empty string for a value made of slashes only. Stripping is
    idempotent. *)
Theorem X16_base_url_has_no_trailing_slash
    (env : option string) (s : string) (k : nat)
    (c : ascii) (rest : string) :
  ApiClient.ends_with_slash (ApiClient.API_URL env) = false
  /\ (exists n,
        s = (ApiClient.strip_trailing_slashes s ++ ApiClient.slashes n)%string)
  /\ ApiClient.strip_trailing_slashes (ApiClient.strip_trailing_slashes s)
     = ApiClient.strip_trailing_slashes s
  /\ ApiClient.API_URL None = "/api"
  /\ ApiClient.API_URL (Some "") = "/api"
  /\ ApiClient.API_URL (Some (ApiClient.slashes (S k))) = ""
  /\ Api.req_url (Api.getCaseTemplates (ApiClient.API_URL env) [])
     = (ApiClient.API_URL env ++ "/case-templates")%string
  /\ (exists n,
        String c rest
        = (ApiClient.API_URL (Some (String c rest))
           ++ ApiClient.slashes n)%string)
  /\ (ApiClient.ends_with_slash (String c rest) = false ->
      ApiClient.API_URL (Some (String c rest ++ ApiClient.slashes k)%string)
      = String c rest).
Proof.
  split; [apply ApiClientFacts.strip_no_trailing_slash |].
  split; [apply ApiClientFacts.strip_decomposition |].
  split.
  { apply ApiClientFacts.strip_fixed.
    apply ApiClientFacts.strip_no_trailing_slash. }
  split; [reflexivity |]. split; [reflexivity |].
  split.
  { unfold ApiClient.API_URL. cbn [ApiClient.slashes Js.truthy_string].
    apply (ApiClientFacts.strip_slashes (S k)). }
  split; [reflexivity |].
  split.
  { unfold ApiClient.API_URL. cbn [Js.truthy_string].
    apply ApiClientFacts.strip_decomposition. }
  intros Hend. unfold ApiClient.API_URL. cbn [append Js.truthy_string].
  change (String c (rest ++ ApiClient.slashes k)%string)
    with (String c rest ++ ApiClient.slashes k)%string.
  rewrite ApiClientFacts.strip_appended_slashes.
  now apply ApiClientFacts.strip_fixed.
Qed.

(** X16, witness: a configured URL with two slashes at its end. *)
Lemma X16_base_url_witness :
  ApiClient.API_URL (Some "https://api.example.com/v1//")
  = "https://api.example.com/v1".
Proof.
  exact (proj2 (proj2 (proj2 (proj2 (proj2 (proj2 (proj2 (proj2
           (X16_base_url_has_no_trailing_slash None "" 2
              "h" "ttps://api.example.com/v1"))))))))
           eq_refl).
Defined.


(** X18. [uploadDocument] does not go through [getAuthHeaders]: when
    there is no token (null or empty) it still sends its POST, to
    [API_URL/clients/<id>/documents/<code>], without an [Authorization]
    header, where [getCaseTemplates] sends nothing; with a token the
    header is [Bearer <token>]. *)
Theorem X18_upload_is_sent_without_token
    (env user : option string) (clientId documentCode t : string)
    (c : ascii)
    (network : ApiClient.Sent -> Js.Settled (ApiClient.HttpResponse Client))
    (tnetwork : ApiClient.Sent ->
                Js.Settled (ApiClient.HttpResponse CaseTemplate)) :
  let url :=
    (ApiClient.API_URL env ++ "/clients/" ++ clientId ++ "/documents/"
     ++ documentCode)%string in
  fst (ApiClient.uploadDocument env clientId documentCode
         (Js.Fulfilled None) network)
  = [ApiClient.mkSent (Api.mkRequest "POST" url []) []]
  /\ fst (ApiClient.uploadDocument env clientId documentCode
            (Js.Fulfilled (Some "")) network)
     = [ApiClient.mkSent (Api.mkRequest "POST" url []) []]
  /\ ApiClient.authorized [] = false
  /\ fst (ApiClient.getCaseTemplates env user (Js.Fulfilled None) tnetwork)
     = []
  /\ fst (ApiClient.uploadDocument env clientId documentCode
            (Js.Fulfilled (Some (String c t))) network)
     = [ApiClient.mkSent (Api.mkRequest "POST" url [])
          [("Authorization", ("Bearer " ++ String c t)%string)]].
Proof.
  cbv zeta. unfold ApiClient.uploadDocument.
  cbn [Js.truthy_string].
  repeat split.
  - destruct (network _) as [r | m]; [destruct (ApiClient.ok r) |];
      reflexivity.
  - destruct (network _) as [r | m]; [destruct (ApiClient.ok r) |];
      reflexivity.
  - unfold ApiClient.getCaseTemplates, ApiClient.getAuthHeaders.
    destruct user; reflexivity.
  - destruct (network _) as [r | m]; [destruct (ApiClient.ok r) |];
      reflexivity.
Qed.

Module TemplatesSessionFacts.

Import Js Templates TemplatesView TemplatesSession.

(** With the flag down the cache-resync effect does nothing. *)
Lemma resync_needs_flag (cache : list CaseTemplate) (s : State) :
  hasInitialized s = false -> cacheResyncEffect cache s = s.
Proof. intros H. unfold cacheResyncEffect. now rewrite H. Qed.

Lemma resync_after_flag (cache : list CaseTemplate) (before after : State) :
  hasInitialized after = false ->
  resync_after cache before after = after.
Proof.
  intros H. unfold resync_after.
  destruct (same_deps before after); [reflexivity |].
  now apply resync_needs_flag.
Qed.

Lemma apply_keeps_flag_down (s : State) (op : Op) :
  hasInitialized s = false ->
  answered_search op = false ->
  hasInitialized (apply s op) = false.
Proof.
  intros Hflag Hquiet.
  destruct op as [cache data | cache | cache value | cache value data
                  | old new | flagFirst old new]; cbn [apply].
  - destruct (loadMoreShown s) eqn:Hshown; [| exact Hflag].
    assert (Hidle : searching s = false).
    { unfold loadMoreShown in Hshown. apply andb_prop in Hshown.
      destruct Hshown as [Hq _]. apply negb_true_iff in Hq.
      now apply TemplatesViewFacts.blank_is_not_searching. }
    assert (Hdown : hasInitialized (handleLoadMore cache data s) = false).
    { unfold handleLoadMore. rewrite Hidle.
      destruct (0 <? length (slice (offset s) (offset s + LIMIT) cache));
        exact Hflag. }
    now rewrite resync_after_flag.
  - destruct (truthy_string (searchQuery s)); [| exact Hflag].
    now rewrite resync_after_flag.
  - now rewrite resync_after_flag.
  - assert (Hdown :
      hasInitialized
        (if truthy_string (trim value)
         then loadTemplatesFromAPI true (Some (trim value)) data s
         else firstPageFromCache cache s)
      = false).
    { cbn [answered_search] in Hquiet.
      destruct (truthy_string (trim value)); [| exact Hflag].
      destruct data as [d | e]; [discriminate | exact Hflag]. }
    now rewrite resync_after_flag.
  - unfold rerender. destruct (length old =? length new); [exact Hflag |].
    now rewrite resync_needs_flag.
  - unfold onMutationCommitted, rerender.
    destruct flagFirst; destruct (length old =? length new); reflexivity.
Qed.

Lemma session_keeps_flag_down (ops : list Op) :
  forall s,
    hasInitialized s = false ->
    forallb (fun op => negb (answered_search op)) ops = true ->
    hasInitialized (session ops s) = false.
Proof.
  unfold session. induction ops as [| op ops IH]; intros s Hflag Hquiet;
    cbn [fold_left].
  - exact Hflag.
  - cbn [forallb] in Hquiet. apply andb_prop in Hquiet.
    destruct Hquiet as [Hop Hrest]. apply negb_true_iff in Hop.
    apply IH; [| exact Hrest]. now apply apply_keeps_flag_down.
Qed.

End TemplatesSessionFacts.

(** X19. Once a create, edit or delete handler has run, the template
    list no longer follows the cache: through any later load-more and
    clear clicks, keystrokes, blank or failed searches, cache refreshes
    and further mutations, [hasInitialized.current] stays false, so
    every refresh of the cache leaves the list exactly as it is. Only a
    backend search that is answered raises the flag again. *)
Theorem X19_list_detached_after_mutation
    (flagFirst : bool) (old new old' new' : list CaseTemplate)
    (ops : list TemplatesSession.Op) (s : Templates.State)
    (cache : list CaseTemplate) (c : ascii) (value : string)
    (d : Response CaseTemplate) :
  forallb (fun op => negb (TemplatesSession.answered_search op)) ops = true ->
  let mutated :=
    TemplatesSession.apply s
      (TemplatesSession.MutationCommitted flagFirst old new) in
  let later := TemplatesSession.session ops mutated in
  Templates.hasInitialized later = false
  /\ TemplatesSession.apply later (TemplatesSession.CacheRefreshed old' new')
     = later
  /\ (Js.truthy_string (Js.trim value) = true ->
      Templates.hasInitialized
        (TemplatesSession.apply later
           (TemplatesSession.DebounceFired cache value (Js.Fulfilled d)))
      = true).
Proof.
  intros Hquiet mutated later.
  assert (Hm : Templates.hasInitialized mutated = false).
  { unfold mutated. cbn [TemplatesSession.apply].
    unfold Templates.onMutationCommitted, Templates.rerender.
    destruct flagFirst; destruct (length old =? length new); reflexivity. }
  assert (Hl : Templates.hasInitialized later = false)
    by now apply TemplatesSessionFacts.session_keeps_flag_down.
  split; [exact Hl |]. split.
  - cbn [TemplatesSession.apply]. unfold Templates.rerender.
    destruct (length old' =? length new'); [reflexivity |].
    now apply TemplatesSessionFacts.resync_needs_flag.
  - intros Hterm. cbn [TemplatesSession.apply]. rewrite Hterm.
    assert (Hup : Templates.hasInitialized
                    (Templates.loadTemplatesFromAPI true
                       (Some (Js.trim value)) (Js.Fulfilled d) later)
                  = true).
    { destruct d as [arr | [page |] tot more]; reflexivity. }
    unfold TemplatesSession.resync_after.
    destruct (TemplatesSession.same_deps later _); [exact Hup |].
    unfold Templates.cacheResyncEffect. rewrite Hup. cbn [negb].
    destruct (Templates.searching _); [exact Hup |].
    destruct (_ && _); [| exact Hup].
    unfold Templates.firstPageFromCache. cbn. exact Hup.
Qed.

(** X19, witness: a template is deleted, then the user pages, types and
    clears; a later cache refresh does not reach the list. *)
Lemma X19_list_detached_witness :
  TemplatesSession.apply
    (TemplatesSession.session
       [TemplatesSession.LoadMoreClicked Fixtures.sixty (Js.Rejected "unused");
        TemplatesSession.KeyPressed Fixtures.sixty " ";
        TemplatesSession.DebounceFired Fixtures.sixty " " (Js.Rejected "unused");
        TemplatesSession.ClearClicked Fixtures.sixty]
       (TemplatesSession.apply
          (Templates.initialLoadEffect Fixtures.sixty (Js.Rejected "unused")
             Templates.mount)
          (TemplatesSession.MutationCommitted true Fixtures.sixty
             (tl Fixtures.sixty))))
    (TemplatesSession.CacheRefreshed Fixtures.sixty (tl Fixtures.sixty))
  = TemplatesSession.session
      [TemplatesSession.LoadMoreClicked Fixtures.sixty (Js.Rejected "unused");
       TemplatesSession.KeyPressed Fixtures.sixty " ";
       TemplatesSession.DebounceFired Fixtures.sixty " " (Js.Rejected "unused");
       TemplatesSession.ClearClicked Fixtures.sixty]
      (TemplatesSession.apply
         (Templates.initialLoadEffect Fixtures.sixty (Js.Rejected "unused")
            Templates.mount)
         (TemplatesSession.MutationCommitted true Fixtures.sixty
            (tl Fixtures.sixty))).
Proof.
  exact (proj1 (proj2
           (X19_list_detached_after_mutation true Fixtures.sixty
              (tl Fixtures.sixty) Fixtures.sixty (tl Fixtures.sixty)
              [TemplatesSession.LoadMoreClicked Fixtures.sixty
                 (Js.Rejected "unused");
               TemplatesSession.KeyPressed Fixtures.sixty " ";
               TemplatesSession.DebounceFired Fixtures.sixty " "
                 (Js.Rejected "unused");
               TemplatesSession.ClearClicked Fixtures.sixty]
              (Templates.initialLoadEffect Fixtures.sixty
                 (Js.Rejected "unused") Templates.mount)
              [] "a"%char "visa" (BareArray [])
              eq_refl))).
Defined.

(** ** Properties of the build configuration and of the snow colour *)

Module SubstringFacts.

Import ViteConfig.

Lemma starts_with_spec (needle hay : string) :
  starts_with needle hay = true
  <-> exists post, hay = (needle ++ post)%string.
Proof.
  revert hay. induction needle as [| a needle IH]; intros hay;
    cbn [starts_with append].
  - split; [intros _; now exists hay | reflexivity].
  - destruct hay as [| b hay].
    + split; [discriminate | intros [post H]; discriminate].
    + rewrite andb_true_iff, IH. split.
      * intros [Hab [post ->]]. apply Ascii.eqb_eq in Hab. subst b.
        now exists post.
      * intros [post H]. injection H as <- ->. split.
        -- apply Ascii.eqb_refl.
        -- now exists post.
Qed.

Lemma includes_spec (needle hay : string) :
  includes needle hay = true
  <-> exists pre post, hay = (pre ++ needle ++ post)%string.
Proof.
  induction hay as [| b hay IH]; cbn [includes].
  - rewrite orb_false_r, starts_with_spec. split.
    + intros [post H]. now exists EmptyString, post.
    + intros [pre [post H]]. destruct pre as [| c pre]; [| discriminate].
      now exists post.
  - rewrite orb_true_iff, starts_with_spec, IH. split.
    + intros [[post H] | [pre [post H]]].
      * now exists EmptyString, post.
      * exists (String b pre), post. cbn [append]. now rewrite H.
    + intros [pre [post H]]. destruct pre as [| c pre].
      * left. now exists post.
      * right. cbn [append] in H. injection H as _ ->. now exists pre, post.
Qed.

Lemma append_assoc (a b c : string) :
  ((a ++ b) ++ c)%string = (a ++ (b ++ c))%string.
Proof.
  induction a as [| x a IH]; cbn [append]; [reflexivity | now rewrite IH].
Qed.

(** A string that includes [b] includes what [b] includes. *)
Lemma includes_trans (a b hay : string) :
  includes a b = true -> includes b hay = true -> includes a hay = true.
Proof.
  rewrite !includes_spec.
  intros [p1 [q1 ->]] [p2 [q2 ->]].
  exists (p2 ++ p1)%string, (q1 ++ q2)%string.
  now rewrite !append_assoc.
Qed.

Lemma excluded (a b hay : string) :
  includes a b = true -> includes a hay = false -> includes b hay = false.
Proof.
  intros Hab Ha. destruct (includes b hay) eqn:Hb; [| reflexivity].
  rewrite (includes_trans a b hay Hab Hb) in Ha. discriminate.
Qed.

End SubstringFacts.

(** X20. Every module under [node_modules] is assigned a chunk, and the
    six tests of [manualChunks] come to one: it goes to [firebase] when
    its path mentions [firebase] and none of [react], [recharts] and
    [jszip], and to [react-vendor] otherwise (the tests for [react-dom],
    [react-router] and [lucide-react] can never decide, a path that
    passes them mentions [react]). A module left without a chunk is
    neither under [node_modules] nor under [components/]. *)
Theorem X20_vendor_chunks (id : string) :
  (ViteConfig.includes "node_modules" id = true ->
   ViteConfig.manualChunks id
   = Some (if ViteConfig.includes "firebase" id
              && negb (ViteConfig.includes "react" id)
              && negb (ViteConfig.includes "recharts" id)
              && negb (ViteConfig.includes "jszip" id)
           then "firebase" else "react-vendor"))
  /\ (ViteConfig.manualChunks id = None ->
      ViteConfig.includes "node_modules" id = false
      /\ ViteConfig.includes "components/" id = false).
Proof.
  split.
  - intros Hnm. unfold ViteConfig.manualChunks. rewrite Hnm.
    destruct (ViteConfig.includes "react" id) eqn:Hreact.
    + cbn [orb negb andb]. rewrite andb_false_r. reflexivity.
    + rewrite (SubstringFacts.excluded "react" "react-dom" id eq_refl Hreact).
      rewrite (SubstringFacts.excluded "react" "react-router" id eq_refl Hreact).
      rewrite (SubstringFacts.excluded "react" "lucide-react" id eq_refl Hreact).
      cbn [orb negb]. rewrite andb_true_r.
      destruct (ViteConfig.includes "recharts" id);
        [now rewrite andb_false_r |].
      destruct (ViteConfig.includes "jszip" id);
        [now rewrite andb_false_r |].
      cbn [negb]. rewrite !andb_true_r.
      destruct (ViteConfig.includes "firebase" id); reflexivity.
  - unfold ViteConfig.manualChunks.
    destruct (ViteConfig.includes "node_modules" id).
    + destruct (_ || _); [discriminate |].
      repeat (match goal with
              | |- context [if ?b then _ else _] => destruct b
              end; try discriminate).
    + repeat (match goal with
              | |- context [if ?b then _ else _] => destruct b
              end; try discriminate).
      intros _. split; reflexivity.
Qed.

(** X20, witness: the Firebase SDK, a React binding for it, and the
    entry module of the application. *)
Lemma X20_vendor_chunks_witness :
  ViteConfig.manualChunks "/app/node_modules/@firebase/auth/dist/index.js"
  = Some "firebase"
  /\ ViteConfig.manualChunks "/app/node_modules/reactfire/dist/index.js"
     = Some "react-vendor"
  /\ ViteConfig.includes "components/" "/app/src/main.tsx" = false.
Proof.
  split; [| split].
  - exact (proj1
             (X20_vendor_chunks
                "/app/node_modules/@firebase/auth/dist/index.js")
             eq_refl).
  - exact (proj1
             (X20_vendor_chunks "/app/node_modules/reactfire/dist/index.js")
             eq_refl).
  - exact (proj2 (proj2 (X20_vendor_chunks "/app/src/main.tsx") eq_refl)).
Defined.

Module PixelSnowFacts.

Import PixelSnow.

Lemma hex_digit_bound (c : ascii) (n : nat) :
  hex_digit c = Some n -> n < 16.
Proof.
  unfold hex_digit.
  destruct (Nat.leb_spec 48 (nat_of_ascii c));
    destruct (Nat.leb_spec (nat_of_ascii c) 57);
    destruct (Nat.leb_spec 97 (nat_of_ascii c));
    destruct (Nat.leb_spec (nat_of_ascii c) 102);
    destruct (Nat.leb_spec 65 (nat_of_ascii c));
    destruct (Nat.leb_spec (nat_of_ascii c) 70);
    cbn [andb]; intros Heq; try discriminate; injection Heq as <-; lia.
Qed.

Lemma hex_pair_bound (hi lo : ascii) (n : nat) :
  hex_pair hi lo = Some n -> n <= 255.
Proof.
  unfold hex_pair.
  destruct (hex_digit hi) as [h |] eqn:Hh; [| discriminate].
  destruct (hex_digit lo) as [l |] eqn:Hl; [| discriminate].
  intros H. injection H as <-.
  apply hex_digit_bound in Hh. apply hex_digit_bound in Hl. lia.
Qed.

Lemma two_digits_read_back (n : nat) :
  n < 256 ->
  hex_pair (digit_char (n / 16)) (digit_char (n mod 16)) = Some n.
Proof.
  intros Hn.
  assert (Hall : forallb
            (fun k =>
               match hex_pair (digit_char (k / 16)) (digit_char (k mod 16))
               with
               | Some v => v =? k
               | None => false
               end)
            (seq 0 256) = true) by (vm_compute; reflexivity).
  rewrite forallb_forall in Hall.
  specialize (Hall n). rewrite in_seq in Hall.
  assert (Hin : 0 <= n < 0 + 256) by lia.
  specialize (Hall Hin).
  destruct (hex_pair (digit_char (n / 16)) (digit_char (n mod 16)));
    [| discriminate].
  apply Nat.eqb_eq in Hall. now subst.
Qed.

(** [hex_digit] reads exactly the twenty-two hexadecimal digits, each
    as its value. *)
Lemma hex_digit_reads (c : ascii) :
  hex_digit c = if is_hex_char c then Some (hex_value c) else None.
Proof.
  destruct c as [[|] [|] [|] [|] [|] [|] [|] [|]]; vm_compute; reflexivity.
Qed.

Lemma hex_pair_reads (hi lo : ascii) :
  hex_pair hi lo
  = if is_hex_char hi && is_hex_char lo
    then Some (16 * hex_value hi + hex_value lo)
    else None.
Proof.
  unfold hex_pair. rewrite !hex_digit_reads.
  destruct (is_hex_char hi); destruct (is_hex_char lo); reflexivity.
Qed.

(** After a leading [#] the rest is read. *)
Lemma hexToRgb_hash (body : string) :
  hexToRgb (String "#" body)
  = match list_ascii_of_string body with
    | [r1; r2; g1; g2; b1; b2] =>
        match hex_pair r1 r2, hex_pair g1 g2, hex_pair b1 b2 with
        | Some r, Some g, Some b => (r, g, b)
        | _, _, _ => (255, 215, 0)
        end
    | _ => (255, 215, 0)
    end.
Proof. reflexivity. Qed.

(** Without a leading [#] the whole string is read. *)
Lemma hexToRgb_plain (hex : string) :
  (forall rest, hex <> String "#" rest) ->
  hexToRgb hex
  = match list_ascii_of_string hex with
    | [r1; r2; g1; g2; b1; b2] =>
        match hex_pair r1 r2, hex_pair g1 g2, hex_pair b1 b2 with
        | Some r, Some g, Some b => (r, g, b)
        | _, _, _ => (255, 215, 0)
        end
    | _ => (255, 215, 0)
    end.
Proof.
  intros Hplain. destruct hex as [| c rest]; [reflexivity |].
  destruct c as [[|] [|] [|] [|] [|] [|] [|] [|]];
    try reflexivity.
  exfalso. exact (Hplain rest eq_refl).
Qed.

Lemma length_chars (s : string) :
  length (list_ascii_of_string s) = String.length s.
Proof.
  induction s as [| c rest IH]; cbn [list_ascii_of_string length String.length];
    [reflexivity | now rewrite IH].
Qed.

(** What is not six hexadecimal digits is not read. *)
Lemma not_six_digits (body : string) :
  String.length body <> 6
  \/ forallb is_hex_char (list_ascii_of_string body) = false ->
  match list_ascii_of_string body with
  | [r1; r2; g1; g2; b1; b2] =>
      match hex_pair r1 r2, hex_pair g1 g2, hex_pair b1 b2 with
      | Some r, Some g, Some b => (r, g, b)
      | _, _, _ => (255, 215, 0)
      end
  | _ => (255, 215, 0)
  end = (255, 215, 0).
Proof.
  rewrite <- length_chars.
  destruct (list_ascii_of_string body)
    as [| r1 [| r2 [| g1 [| g2 [| b1 [| b2 [| extra rest]]]]]]];
    try reflexivity.
  intros [Hlen | Hbad]; [now contradiction Hlen |].
  rewrite !hex_pair_reads. cbn [forallb] in Hbad.
  destruct (is_hex_char r1); destruct (is_hex_char r2);
    destruct (is_hex_char g1); destruct (is_hex_char g2);
    destruct (is_hex_char b1); destruct (is_hex_char b2);
    cbn [andb] in *; try reflexivity; discriminate Hbad.
Qed.

(** A hexadecimal digit is not a [#]. *)
Lemma hex_char_not_hash (c : ascii) (rest rest' : string) :
  is_hex_char c = true -> String c rest <> String "#" rest'.
Proof.
  intros Hc Heq. injection Heq as -> _. discriminate Hc.
Qed.

End PixelSnowFacts.

(** X21. [hexToRgb] always gives three channels between 0 and 255. Six
    hexadecimal digits of either case, after an optional [#], are read
    as three channels, each sixteen times the value of its first digit
    plus the value of its second; so a colour written as [#rrggbb] is
    read back. Every other input gives the default gold (255, 215, 0):
    one that, without its leading [#] if it has one, is not six
    characters long or holds a character that is not a hexadecimal
    digit; the three-digit short form and the empty string are among
    them. *)
Theorem X21_hexToRgb
    (hex body : string) (r g b : nat) (x y z : ascii)
    (r1 r2 g1 g2 b1 b2 : ascii) :
  let six := string_of_list_ascii [r1; r2; g1; g2; b1; b2] in
  let channels :=
    (16 * PixelSnow.hex_value r1 + PixelSnow.hex_value r2,
     16 * PixelSnow.hex_value g1 + PixelSnow.hex_value g2,
     16 * PixelSnow.hex_value b1 + PixelSnow.hex_value b2) in
  (fst (fst (PixelSnow.hexToRgb hex)) <= 255
   /\ snd (fst (PixelSnow.hexToRgb hex)) <= 255
   /\ snd (PixelSnow.hexToRgb hex) <= 255)
  /\ (r < 256 -> g < 256 -> b < 256 ->
      PixelSnow.hexToRgb (PixelSnow.to_hex r g b) = (r, g, b))
  /\ PixelSnow.hexToRgb
       (String "#" (String x (String y (String z EmptyString))))
     = (255, 215, 0)
  /\ PixelSnow.hexToRgb "" = (255, 215, 0)
  /\ PixelSnow.hexToRgb "#FFD700" = (255, 215, 0)
  /\ PixelSnow.hexToRgb "#F59E0B" = (245, 158, 11)
  /\ PixelSnow.hexToRgb "f59E0b" = (245, 158, 11)
  /\ (forallb PixelSnow.is_hex_char [r1; r2; g1; g2; b1; b2] = true ->
      PixelSnow.hexToRgb six = channels
      /\ PixelSnow.hexToRgb (String "#" six) = channels)
  /\ (String.length body <> 6
      \/ forallb PixelSnow.is_hex_char (list_ascii_of_string body) = false ->
      PixelSnow.hexToRgb (String "#" body) = (255, 215, 0))
  /\ ((forall rest, hex <> String "#" rest) ->
      String.length hex <> 6
      \/ forallb PixelSnow.is_hex_char (list_ascii_of_string hex) = false ->
      PixelSnow.hexToRgb hex = (255, 215, 0)).
Proof.
  intros six channels.
  split; [| split; [| split; [| split; [| split; [| split; [| split;
    [| split; [| split]]]]]]]].
  - unfold PixelSnow.hexToRgb.
    set (digits := match hex with
                   | String "#"%char rest => rest
                   | _ => hex
                   end).
    destruct (list_ascii_of_string digits)
      as [| c1 [| c2 [| c3 [| c4 [| c5 [| c6 [| extra rest]]]]]]];
      cbn [fst snd]; try lia.
    destruct (PixelSnow.hex_pair c1 c2) as [rv |] eqn:Er;
      [| cbn [fst snd]; lia].
    destruct (PixelSnow.hex_pair c3 c4) as [gv |] eqn:Eg;
      [| cbn [fst snd]; lia].
    destruct (PixelSnow.hex_pair c5 c6) as [bv |] eqn:Eb;
      [| cbn [fst snd]; lia].
    cbn [fst snd].
    apply PixelSnowFacts.hex_pair_bound in Er, Eg, Eb. lia.
  - intros Hr Hg Hb.
    unfold PixelSnow.hexToRgb, PixelSnow.to_hex, PixelSnow.two_digits.
    cbn [append list_ascii_of_string].
    rewrite !PixelSnowFacts.two_digits_read_back by assumption.
    reflexivity.
  - unfold PixelSnow.hexToRgb. cbn [list_ascii_of_string]. reflexivity.
  - reflexivity.
  - reflexivity.
  - reflexivity.
  - reflexivity.
  - intros Hsix. cbn [forallb] in Hsix.
    repeat (apply andb_prop in Hsix; destruct Hsix as [? Hsix]).
    assert (Hread :
      match list_ascii_of_string six with
      | [c1; c2; c3; c4; c5; c6] =>
          match PixelSnow.hex_pair c1 c2, PixelSnow.hex_pair c3 c4,
                PixelSnow.hex_pair c5 c6 with
          | Some rv, Some gv, Some bv => (rv, gv, bv)
          | _, _, _ => (255, 215, 0)
          end
      | _ => (255, 215, 0)
      end = channels).
    { unfold six. cbn [string_of_list_ascii list_ascii_of_string].
      rewrite !PixelSnowFacts.hex_pair_reads.
      repeat match goal with
             | Hc : PixelSnow.is_hex_char _ = true |- _ => rewrite Hc; clear Hc
             end.
      reflexivity. }
    split.
    + rewrite PixelSnowFacts.hexToRgb_plain; [exact Hread |].
      intros rest. unfold six. cbn [string_of_list_ascii].
      now apply PixelSnowFacts.hex_char_not_hash.
    + rewrite PixelSnowFacts.hexToRgb_hash. exact Hread.
  - intros Hbad. rewrite PixelSnowFacts.hexToRgb_hash.
    now apply PixelSnowFacts.not_six_digits.
  - intros Hplain Hbad. rewrite PixelSnowFacts.hexToRgb_plain by exact Hplain.
    now apply PixelSnowFacts.not_six_digits.
Qed.

(** X21, witness: amber written in lower case, in mixed case without
    the [#], and three inputs that are not colours. *)
Lemma X21_hexToRgb_witness :
  PixelSnow.hexToRgb (PixelSnow.to_hex 245 158 11) = (245, 158, 11)
  /\ PixelSnow.hexToRgb "F59e0B" = (245, 158, 11)
  /\ PixelSnow.hexToRgb "#f59e0g" = (255, 215, 0)
  /\ PixelSnow.hexToRgb "#f59e0b0" = (255, 215, 0)
  /\ PixelSnow.hexToRgb "amber" = (255, 215, 0).
Proof.
  assert (Hr : 245 < 256) by lia.
  assert (Hg : 158 < 256) by lia.
  assert (Hb : 11 < 256) by lia.
  assert (Hplain : forall rest, "amber"%string <> String "#" rest)
    by (intros rest; discriminate).
  assert (Hlong : String.length "f59e0b0" <> 6) by discriminate.
  assert (Hshort : String.length "amber" <> 6) by discriminate.
  split; [| split; [| split; [| split]]].
  - exact (proj1 (proj2
             (X21_hexToRgb "" "" 245 158 11 "a" "b" "c"
                "0" "0" "0" "0" "0" "0")) Hr Hg Hb).
  - exact (proj1 (proj1 (proj2 (proj2 (proj2 (proj2 (proj2 (proj2 (proj2
             (X21_hexToRgb "" "" 0 0 0 "a" "b" "c"
                "F" "5" "9" "e" "0" "B")))))))) eq_refl)).
  - exact (proj1 (proj2 (proj2 (proj2 (proj2 (proj2 (proj2 (proj2 (proj2
             (X21_hexToRgb "" "f59e0g" 0 0 0 "a" "b" "c"
                "0" "0" "0" "0" "0" "0")))))))))
             (or_intror eq_refl)).
  - exact (proj1 (proj2 (proj2 (proj2 (proj2 (proj2 (proj2 (proj2 (proj2
             (X21_hexToRgb "" "f59e0b0" 0 0 0 "a" "b" "c"
                "0" "0" "0" "0" "0" "0")))))))))
             (or_introl Hlong)).
  - exact (proj2 (proj2 (proj2 (proj2 (proj2 (proj2 (proj2 (proj2 (proj2
             (X21_hexToRgb "amber" "" 0 0 0 "a" "b" "c"
                "0" "0" "0" "0" "0" "0")))))))))
             Hplain (or_introl Hshort)).
Defined.

(** ** The two effects of the template list, and the toasts *)

(** X22. Both effects of the template list settle in one run. The
    cache-resync effect either leaves the view as it is or leaves it
    showing the first page of the given cache (the first [offset] cached
    templates, [total] the cache size, no search active), and running it
    again changes nothing. The mount effect run a second time (React's
    strict mode runs mount effects twice in development) changes
    nothing either and asks the backend nothing: the first run has
    raised [hasInitialized.current] before its backend call settles,
    whether it took the cache or asked the backend, and whatever the
    backend answers. *)
Theorem X22_effects_settle_in_one_run
    (cache : list CaseTemplate)
    (d d' : Js.Settled (Response CaseTemplate)) (s : Templates.State) :
  let synced := Templates.cacheResyncEffect cache s in
  let mounted := Templates.initialLoadEffect cache d s in
  let calling :=
    Templates.setHasInitialized true
      (Templates.loadTemplatesFromAPI_begin true s) in
  (synced = s \/ Templates.Window cache synced)
  /\ Templates.cacheResyncEffect cache synced = synced
  /\ Templates.initialLoadEffect cache d' mounted = mounted
  /\ Templates.initialLoadEffect cache d' calling = calling.
Proof.
  cbv zeta. split; [| split; [| split]]; [| | | reflexivity].
  - unfold Templates.cacheResyncEffect.
    destruct (Templates.hasInitialized s); cbn [negb]; [| now left].
    destruct (Templates.searching s) eqn:Hidle; [now left |].
    destruct ((0 <? length cache)
              && negb (length cache =? Templates.total s));
      [| now left].
    right. unfold Templates.firstPageFromCache. rewrite slice_from_zero.
    constructor;
      cbn [Templates.templates Templates.offset Templates.hasMore
           Templates.total Templates.setOffset Templates.setHasMore
           Templates.setTotal Templates.setTemplates].
    + rewrite length_firstn. now rewrite firstn_min_length.
    + rewrite length_firstn. lia.
    + rewrite length_firstn. now rewrite ltb_min_l.
    + reflexivity.
    + exact Hidle.
  - unfold Templates.cacheResyncEffect.
    destruct (Templates.hasInitialized s) eqn:Hflag; cbn [negb];
      [| now rewrite Hflag].
    destruct (Templates.searching s) eqn:Hidle;
      [now rewrite Hflag, Hidle |].
    destruct ((0 <? length cache)
              && negb (length cache =? Templates.total s)) eqn:Hguard.
    + unfold Templates.firstPageFromCache, Templates.searching.
      cbn [Templates.hasInitialized Templates.searchQuery Templates.total
           Templates.setOffset Templates.setHasMore Templates.setTotal
           Templates.setTemplates].
      rewrite Hflag. fold (Templates.searching s). rewrite Hidle.
      rewrite Nat.eqb_refl. cbn [negb]. rewrite andb_false_r. reflexivity.
    + now rewrite Hflag, Hidle, Hguard.
  - unfold Templates.initialLoadEffect.
    destruct (Templates.hasInitialized s) eqn:Hflag; [now rewrite Hflag |].
    destruct (Templates.searching s) eqn:Hidle;
      [now rewrite Hflag, Hidle |].
    destruct (0 <? length cache); [reflexivity |].
    destruct d as [[arr | [page |] tot more] | e]; reflexivity.
Qed.

(** X23. Toasts are shown in the order they arrive: a new toast goes to
    the end of the list, so the toasts on screen are the arrivals,
    oldest first. Closing a toast removes every toast with that
    identifier and keeps the others in their order: what is kept of a
    list is what is kept of its front, then the toast in the middle
    unless it has the identifier, then what is kept of its back.
    Closing an identifier that is not on screen, or closing twice,
    changes nothing; and closing a toast that has just been added under
    a new identifier gives back the toasts there were before. *)
Theorem X23_toasts
    (id : string) (toast : App.Toast)
    (toasts arrivals front back : list App.Toast) :
  (forall t, In t (App.handleCloseToast id toasts)
             <-> In t toasts /\ App.toast_id t <> id)
  /\ App.handleCloseToast id (App.handleCloseToast id toasts)
     = App.handleCloseToast id toasts
  /\ length (App.handleCloseToast id toasts) <= length toasts
  /\ (existsb (fun t => String.eqb (App.toast_id t) id) toasts = false ->
      App.handleCloseToast id toasts = toasts)
  /\ (existsb (fun t => String.eqb (App.toast_id t) (App.toast_id toast))
              toasts = false ->
      App.handleCloseToast (App.toast_id toast) (App.addToast toast toasts)
      = toasts)
  /\ App.addToast toast toasts = toasts ++ [toast]
  /\ fold_left (fun shown t => App.addToast t shown) arrivals toasts
     = toasts ++ arrivals
  /\ App.handleCloseToast id (front ++ toast :: back)
     = App.handleCloseToast id front
       ++ (if String.eqb (App.toast_id toast) id then [] else [toast])
       ++ App.handleCloseToast id back
  /\ App.handleCloseToast id [] = [].
Proof.
  assert (Habsent : forall key l,
            existsb (fun t => String.eqb (App.toast_id t) key) l = false ->
            App.handleCloseToast key l = l).
  { intros key l. unfold App.handleCloseToast.
    induction l as [| t l IH]; cbn [existsb filter]; [reflexivity |].
    intros H. apply orb_false_iff in H. destruct H as [Ht Hl].
    rewrite Ht. cbn [negb]. now rewrite IH. }
  split; [| split; [| split; [| split; [| split; [| split; [| split;
    [| split]]]]]]].
  - intros t. unfold App.handleCloseToast. rewrite filter_In.
    rewrite negb_true_iff, String.eqb_neq. reflexivity.
  - unfold App.handleCloseToast.
    induction toasts as [| t l IH]; cbn [filter]; [reflexivity |].
    destruct (negb (String.eqb (App.toast_id t) id)) eqn:E; [| exact IH].
    cbn [filter]. rewrite E. now rewrite IH.
  - apply filter_length_le.
  - apply Habsent.
  - intros Hnew. unfold App.addToast, App.handleCloseToast.
    rewrite filter_app. cbn [filter]. rewrite String.eqb_refl.
    cbn [negb]. rewrite app_nil_r. now apply Habsent.
  - reflexivity.
  - clear Habsent. revert toasts.
    induction arrivals as [| t rest IH]; intros toasts; cbn [fold_left].
    + now rewrite app_nil_r.
    + rewrite IH. unfold App.addToast. now rewrite <- app_assoc.
  - unfold App.handleCloseToast. rewrite filter_app. cbn [filter].
    destruct (String.eqb (App.toast_id toast) id); reflexivity.
  - reflexivity.
Qed.

(** X23, witness: an error toast added to one success toast, closed. *)
Lemma X23_toasts_witness :
  App.handleCloseToast "t2"
    (App.addToast (App.mkToast "t2" "Failed to delete template" "error")
       [App.mkToast "t1" "Template deleted" "success"])
  = [App.mkToast "t1" "Template deleted" "success"]
  /\ App.handleCloseToast "t9" [App.mkToast "t1" "Template deleted" "success"]
     = [App.mkToast "t1" "Template deleted" "success"].
Proof.
  split.
  - exact (proj1 (proj2 (proj2 (proj2 (proj2
             (X23_toasts "t2"
                (App.mkToast "t2" "Failed to delete template" "error")
                [App.mkToast "t1" "Template deleted" "success"]
                [] [] [])))))
             eq_refl).
  - exact (proj1 (proj2 (proj2 (proj2
             (X23_toasts "t9"
                (App.mkToast "t2" "Failed to delete template" "error")
                [App.mkToast "t1" "Template deleted" "success"]
                [] [] []))))
             eq_refl).
Defined.
